(** * The preset store of the environment manager

    A shallow embedding of [ConfigPreset] and [ConfigManager] from
    [env_manager_darkmode.py] and [env_manager_pure_pyqt6.py], together
    with the part of the Python runtime these classes rest on: text and
    its UTF-8 file encoding, the [json] encoder and decoder, the process
    environment and the per-user registry key of Windows.  Of the two
    windows it embeds what they compute before they hand it to their
    widgets: the cards, the texts shown for the token and the variables,
    the checks of the dialogs and the handlers up to their calls of the
    store.

    Conventions.
    - A Python [str] is a list of code points ([N]); lone surrogates are
      allowed, as in Python.
    - A file is a list of bytes; text files are opened with
      [encoding='utf-8'], strict error handling and the default newline
      translation.
    - An operation returns a [Result]: [Ok v], or [Raise e] for an
      exception that leaves the function.
    - What the interpreter and the operating system leave open is
      gathered in a [Platform] record.
    - Memory and recursion limits of the interpreter, and I/O failures
      other than encoding errors, are outside the model. *)

From Stdlib Require Import NArith ZArith Lia List Bool String Ascii.
From Stdlib.Strings Require Byte.
From stdpp Require Import base option list gmap.
Import ListNotations.

Set Warnings "-register-all".

(** ** Exceptions and results *)

Inductive exn : Type :=
| JSONDecodeError
| UnicodeDecodeError
| UnicodeEncodeError
| KeyError
| TypeError
| ValueError
| IndexError
| OSError.

Inductive Result (A : Type) : Type :=
| Ok (a : A)
| Raise (e : exn).
Arguments Ok {A} a.
Arguments Raise {A} e.

Definition rbind {A B} (r : Result A) (k : A -> Result B) : Result B :=
  match r with
  | Ok a => k a
  | Raise e => Raise e
  end.

Notation "x <-- r ;; k" := (rbind r (fun x => k))
  (at level 100, r at next level, right associativity).

Definition of_option {A} (e : exn) (o : option A) : Result A :=
  match o with
  | Some a => Ok a
  | None => Raise e
  end.

(** ** Text *)

Abbreviation str := (list N).

Module Unicode.
Local Open Scope N_scope.

Definition is_surrogate (c : N) : bool := (0xD800 <=? c) && (c <=? 0xDFFF).

(** A Unicode scalar value: what UTF-8 can carry. *)
Definition is_scalar (c : N) : bool := (c <=? 0x10FFFF) && negb (is_surrogate c).

Definition is_text (s : str) : bool := forallb is_scalar s.

(** The [utf-8] codec, strict. *)
Definition utf8_encode_char (c : N) : option (list N) :=
  if c <? 0x80 then Some [c]
  else if c <? 0x800 then Some [0xC0 + c / 64; 0x80 + c mod 64]
  else if c <? 0x10000 then
    if is_surrogate c then None
    else Some [0xE0 + c / 4096; 0x80 + (c / 64) mod 64; 0x80 + c mod 64]
  else if c <=? 0x10FFFF then
    Some [0xF0 + c / 262144; 0x80 + (c / 4096) mod 64;
          0x80 + (c / 64) mod 64; 0x80 + c mod 64]
  else None.

Fixpoint utf8_encode_N (s : str) : option (list N) :=
  match s with
  | [] => Some []
  | c :: r =>
    match utf8_encode_char c, utf8_encode_N r with
    | Some bs, Some rs => Some (bs ++ rs)
    | _, _ => None
    end
  end.

Definition is_cont (b : N) : bool := (0x80 <=? b) && (b <=? 0xBF).

Fixpoint utf8_decode_N (bs : list N) : option str :=
  match bs with
  | [] => Some []
  | b0 :: r0 =>
    if b0 <? 0x80 then cons b0 <$> utf8_decode_N r0
    else if b0 <? 0xC2 then None
    else if b0 <? 0xE0 then
      match r0 with
      | b1 :: r1 =>
        if is_cont b1
        then cons ((b0 - 0xC0) * 64 + (b1 - 0x80)) <$> utf8_decode_N r1
        else None
      | _ => None
      end
    else if b0 <? 0xF0 then
      match r0 with
      | b1 :: b2 :: r2 =>
        let c := (b0 - 0xE0) * 4096 + (b1 - 0x80) * 64 + (b2 - 0x80) in
        if is_cont b1 && is_cont b2 && (0x800 <=? c) && negb (is_surrogate c)
        then cons c <$> utf8_decode_N r2
        else None
      | _ => None
      end
    else if b0 <? 0xF5 then
      match r0 with
      | b1 :: b2 :: b3 :: r3 =>
        let c := (b0 - 0xF0) * 262144 + (b1 - 0x80) * 4096
                 + (b2 - 0x80) * 64 + (b3 - 0x80) in
        if is_cont b1 && is_cont b2 && is_cont b3
           && (0x10000 <=? c) && (c <=? 0x10FFFF)
        then cons c <$> utf8_decode_N r3
        else None
      | _ => None
      end
    else None
  end.

Definition byte_of_N (n : N) : Byte.byte :=
  match Byte.of_N n with
  | Some b => b
  | None => Byte.x00
  end.

(** [s.encode('utf-8')]: [None] stands for [UnicodeEncodeError]. *)
Definition utf8_encode (s : str) : option (list Byte.byte) :=
  map byte_of_N <$> utf8_encode_N s.

(** [b.decode('utf-8')]: [None] stands for [UnicodeDecodeError]. *)
Definition utf8_decode (bs : list Byte.byte) : option str :=
  utf8_decode_N (map Byte.to_N bs).

End Unicode.

(** A [str] literal, written in UTF-8 in this file. *)
Definition py (lit : string) : str :=
  default [] (Unicode.utf8_decode (list_byte_of_string lit)).

(** ** What the interpreter and the operating system leave open *)

Record Platform : Type := {
  (** [sys.platform == 'win32'] *)
  win32 : bool;
  (** The exception with which [os.environ] refuses a [str] value, if it
      does (an embedded NUL, a value its encoding cannot carry, a value
      longer than the system allows). *)
  putenv_error : str -> option exn;
  (** Off Windows [os.environ] keeps a value as bytes, the [str] encoded
      with the file system encoding and the [surrogateescape] handler, and
      decodes them each time the value is read: the [str] read back for a
      value that was accepted. *)
  environ_decoded : str -> str;
  (** The exception with which [int] or [float] refuses a number literal
      matched by the decoder, if it does (the digit limit of [int]). *)
  number_error : str -> option exn;
  (** The text [int.__repr__] or [float.__repr__] gives for the number
      read from a literal. *)
  number_repr : str -> str
}.

(** ** JSON values *)

(** What [json.load] returns and [json.dump] accepts.  A number is kept as
    the literal it was read from: the store never computes with it.  A
    [dict] keeps its keys in insertion order. *)
Inductive pyobj : Type :=
| PyNone
| PyBool (b : bool)
| PyNum (lit : str)
| PyStr (s : str)
| PyList (items : list pyobj)
| PyDict (items : list (str * pyobj)).

Module Dict.

Fixpoint str_eqb (a b : str) : bool :=
  match a, b with
  | [], [] => true
  | x :: a', y :: b' => (x =? y)%N && str_eqb a' b'
  | _, _ => false
  end.

(** [d[k]], [None] standing for [KeyError]. *)
Fixpoint getitem (d : list (str * pyobj)) (k : str) : option pyobj :=
  match d with
  | [] => None
  | (k', v) :: r => if str_eqb k' k then Some v else getitem r k
  end.

(** [d[k] = v]: a present key keeps its place, a new key goes last. *)
Fixpoint setitem (d : list (str * pyobj)) (k : str) (v : pyobj)
  : list (str * pyobj) :=
  match d with
  | [] => [(k, v)]
  | (k', v') :: r =>
    if str_eqb k' k then (k', v) :: r else (k', v') :: setitem r k v
  end.

(** [dict(pairs)] *)
Definition of_pairs (pairs : list (str * pyobj)) : list (str * pyobj) :=
  fold_left (fun d kv => setitem d (fst kv) (snd kv)) pairs [].

End Dict.

(** ** The [json] encoder, as [json.dump(..., indent=2, ensure_ascii=False)]
    runs it *)

Module Encoder.
Local Open Scope N_scope.

Definition hex_digit (n : N) : N := if n <? 10 then 48 + n else 87 + n.

(** [ESCAPE_DCT] of [json.encoder]; with [ensure_ascii=False] only the
    quote, the backslash and the characters below U+0020 are replaced. *)
Definition escape_char (c : N) : str :=
  if c =? 34 then [92; 34]
  else if c =? 92 then [92; 92]
  else if c =? 10 then [92; 110]
  else if c =? 13 then [92; 114]
  else if c =? 9 then [92; 116]
  else if c =? 8 then [92; 98]
  else if c =? 12 then [92; 102]
  else if c <? 32 then [92; 117; 48; 48; hex_digit (c / 16); hex_digit (c mod 16)]
  else [c].

Definition escape (s : str) : str := flat_map escape_char s.

Definition encode_basestring (s : str) : str := 34 :: escape s ++ [34].

(** ['\n' + ' ' * (2 * level)] *)
Definition newline_indent (level : nat) : str :=
  10 :: repeat 32 (2 * level)%nat.

Definition s_null : str := Eval vm_compute in py "null".
Definition s_true : str := Eval vm_compute in py "true".
Definition s_false : str := Eval vm_compute in py "false".

Section Chunks.
Context (scalar_text : pyobj -> option str) (nested : pyobj -> list str).
Context (nl : str).

(** The loop of [_iterencode_list]: a value written in one piece goes out
    with the bracket or comma before it. *)
Fixpoint list_chunks (first : bool) (l : list pyobj) : list str :=
  match l with
  | [] => []
  | v :: r =>
    let buf := (if first then [91] else [44]) ++ nl in
    match scalar_text v with
    | Some t => [buf ++ t]
    | None => buf :: nested v
    end ++ list_chunks false r
  end.

(** The loop of [_iterencode_dict]. *)
Fixpoint dict_chunks (first : bool) (l : list (str * pyobj)) : list str :=
  match l with
  | [] => []
  | (k, v) :: r =>
    (if first then [] else [44 :: nl])
    ++ [encode_basestring k; [58; 32]]
    ++ match scalar_text v with
       | Some t => [t]
       | None => nested v
       end
    ++ dict_chunks false r
  end.

End Chunks.

Section WithPlatform.
Context (P : Platform).

(** The values [_iterencode_list] and [_iterencode_dict] write in one
    piece. *)
Definition scalar_text (o : pyobj) : option str :=
  match o with
  | PyStr s => Some (encode_basestring s)
  | PyNone => Some s_null
  | PyBool true => Some s_true
  | PyBool false => Some s_false
  | PyNum lit => Some (number_repr P lit)
  | PyList _ | PyDict _ => None
  end.

(** [_iterencode]: the chunks [json.dump] hands to [fp.write], one by one. *)
Fixpoint iterencode (level : nat) (o : pyobj) {struct o} : list str :=
  match o with
  | PyList [] => [[91; 93]]
  | PyList items =>
    list_chunks scalar_text (iterencode (S level)) (newline_indent (S level))
      true items
    ++ [newline_indent level; [93]]
  | PyDict [] => [[123; 125]]
  | PyDict items =>
    [123] :: newline_indent (S level) ::
    dict_chunks scalar_text (iterencode (S level)) (newline_indent (S level))
      true items
    ++ [newline_indent level; [125]]
  | PyNone | PyBool _ | PyNum _ | PyStr _ =>
    match scalar_text o with
    | Some t => [t]
    | None => []
    end
  end.

End WithPlatform.

End Encoder.

(** ** The [json] decoder, as [json.load] runs it (strict mode, the
    scanner of CPython) *)

Module Decoder.
Local Open Scope N_scope.

(** The outcome of scanning a value at the head of the text. *)
Inductive scan (A : Type) : Type :=
| Scanned (a : A) (rest : str)
| Invalid (e : exn)
| Starved.
Arguments Scanned {A} a rest.
Arguments Invalid {A} e.
Arguments Starved {A}.

Definition is_ws (c : N) : bool :=
  (c =? 32) || (c =? 9) || (c =? 10) || (c =? 13).

(** [WHITESPACE.match(s, idx).end()] *)
Fixpoint skip_ws (s : str) : str :=
  match s with
  | [] => []
  | c :: r => if is_ws c then skip_ws r else s
  end.

Fixpoint strip_prefix (p s : str) : option str :=
  match p, s with
  | [], _ => Some s
  | a :: p', b :: s' => if a =? b then strip_prefix p' s' else None
  | _ :: _, [] => None
  end.

Definition hex_value (c : N) : option N :=
  if (48 <=? c) && (c <=? 57) then Some (c - 48)
  else if (97 <=? c) && (c <=? 102) then Some (c - 87)
  else if (65 <=? c) && (c <=? 70) then Some (c - 55)
  else None.

Definition hex4 (a b c d : N) : option N :=
  match hex_value a, hex_value b, hex_value c, hex_value d with
  | Some x, Some y, Some z, Some w => Some (((x * 16 + y) * 16 + z) * 16 + w)
  | _, _, _, _ => None
  end.

Definition is_high_surrogate (c : N) : bool := (0xD800 <=? c) && (c <=? 0xDBFF).
Definition is_low_surrogate (c : N) : bool := (0xDC00 <=? c) && (c <=? 0xDFFF).

Definition join_surrogates (hi lo : N) : N :=
  0x10000 + (hi - 0xD800) * 1024 + (lo - 0xDC00).

(** The one-letter escapes of [BACKSLASH]. *)
Definition simple_escape (e : N) : option N :=
  if e =? 34 then Some 34
  else if e =? 92 then Some 92
  else if e =? 47 then Some 47
  else if e =? 98 then Some 8
  else if e =? 102 then Some 12
  else if e =? 110 then Some 10
  else if e =? 114 then Some 13
  else if e =? 116 then Some 9
  else None.

(** A low surrogate escape at the head of the text: its value and what
    follows it. *)
Definition low_escape (s : str) : option (N * str) :=
  match s with
  | b :: u :: l1 :: l2 :: l3 :: l4 :: r =>
    if (b =? 92) && (u =? 117) then
      match hex4 l1 l2 l3 l4 with
      | Some lo => if is_low_surrogate lo then Some (lo, r) else None
      | None => None
      end
    else None
  | _ => None
  end.

Definition push (c : N) (o : option (str * str)) : option (str * str) :=
  match o with
  | Some (t, r) => Some (c :: t, r)
  | None => None
  end.

(** [scanstring(s, end, strict=True)], from just after the opening quote:
    the string and the text after its closing quote. *)
Fixpoint scanstring (s : str) : option (str * str) :=
  match s with
  | [] => None
  | c :: r =>
    if c =? 34 then Some ([], r)
    else if c =? 92 then
      match r with
      | [] => None
      | e :: r1 =>
        if e =? 117 then
          match r1 with
          | h1 :: h2 :: h3 :: h4 :: r2 =>
            match hex4 h1 h2 h3 h4 with
            | None => None
            | Some u =>
              if is_high_surrogate u then
                match r2 with
                | b :: u' :: l1 :: l2 :: l3 :: l4 :: r3 =>
                  match low_escape r2 with
                  | Some (lo, _) => push (join_surrogates u lo) (scanstring r3)
                  | None => push u (scanstring r2)
                  end
                | _ => push u (scanstring r2)
                end
              else push u (scanstring r2)
            end
          | _ => None
          end
        else
          match simple_escape e with
          | Some c' => push c' (scanstring r1)
          | None => None
          end
      end
    else if c <? 32 then None
    else push c (scanstring r)
  end.

Definition is_digit (c : N) : bool := (48 <=? c) && (c <=? 57).

Fixpoint span_digits (s : str) : str * str :=
  match s with
  | [] => ([], [])
  | c :: r =>
    if is_digit c then let '(ds, r') := span_digits r in (c :: ds, r')
    else ([], s)
  end.

(** The integer part of a number, as [_match_number_unicode] of the C
    scanner reads it: an optional minus sign, then a zero or a string of
    ASCII digits that does not start with a zero. *)
Definition match_integer (s : str) : option (str * str) :=
  let '(sign, s1) :=
    match s with
    | c :: r => if c =? 45 then ([45], r) else ([], s)
    | [] => ([], s)
    end in
  match s1 with
  | d :: r =>
    if d =? 48 then Some (sign ++ [48], r)
    else if is_digit d then
      let '(ds, r') := span_digits r in Some (sign ++ d :: ds, r')
    else None
  | [] => None
  end.

(** The optional fraction: a point and one or more digits. *)
Definition match_frac (s : str) : str * str :=
  match s with
  | p :: d :: r =>
    if (p =? 46) && is_digit d then
      let '(ds, r') := span_digits r in (p :: d :: ds, r')
    else ([], s)
  | _ => ([], s)
  end.

(** The optional exponent: e or E, an optional sign, one or more
    digits. *)
Definition match_exp (s : str) : str * str :=
  match s with
  | e :: r =>
    if (e =? 101) || (e =? 69) then
      match r with
      | g :: d :: r1 =>
        if ((g =? 45) || (g =? 43)) && is_digit d then
          let '(ds, r') := span_digits r1 in (e :: g :: d :: ds, r')
        else if is_digit g then
          let '(ds, r') := span_digits (d :: r1) in (e :: g :: ds, r')
        else ([], s)
      | [g] => if is_digit g then ([e; g], []) else ([], s)
      | [] => ([], s)
      end
    else ([], s)
  | [] => ([], s)
  end.

(** A number at the head of the text: its literal and the text after
    it. *)
Definition match_number (s : str) : option (str * str) :=
  match match_integer s with
  | None => None
  | Some (i, r) =>
    let '(f, r1) := match_frac r in
    let '(x, r2) := match_exp r1 in
    Some (i ++ f ++ x, r2)
  end.

Definition s_NaN : str := Eval vm_compute in py "NaN".
Definition s_Infinity : str := Eval vm_compute in py "Infinity".
Definition s_minus_Infinity : str := Eval vm_compute in py "-Infinity".

Section WithPlatform.
Context (P : Platform).

(** What is neither a string, an object nor an array. *)
Definition scan_atom (s : str) : scan pyobj :=
  match strip_prefix Encoder.s_null s with
  | Some r => Scanned PyNone r
  | None =>
  match strip_prefix Encoder.s_true s with
  | Some r => Scanned (PyBool true) r
  | None =>
  match strip_prefix Encoder.s_false s with
  | Some r => Scanned (PyBool false) r
  | None =>
  match match_number s with
  | Some (lit, r) =>
    match number_error P lit with
    | Some e => Invalid e
    | None => Scanned (PyNum lit) r
    end
  | None =>
  match strip_prefix s_NaN s with
  | Some r => Scanned (PyNum s_NaN) r
  | None =>
  match strip_prefix s_Infinity s with
  | Some r => Scanned (PyNum s_Infinity) r
  | None =>
  match strip_prefix s_minus_Infinity s with
  | Some r => Scanned (PyNum s_minus_Infinity) r
  | None => Invalid JSONDecodeError
  end end end end end end end.

(** [scan_once], with [JSONObject] and [JSONArray].  [object_items] starts
    just after the opening quote of a key, [array_items] at a value. *)
Fixpoint scan_once (fuel : nat) (s : str) {struct fuel} : scan pyobj :=
  match fuel with
  | O => Starved
  | S f =>
    match s with
    | [] => Invalid JSONDecodeError
    | c :: r =>
      if c =? 34 then
        match scanstring r with
        | Some (t, r') => Scanned (PyStr t) r'
        | None => Invalid JSONDecodeError
        end
      else if c =? 123 then
        match skip_ws r with
        | d :: r1 =>
          if d =? 125 then Scanned (PyDict []) r1
          else if d =? 34 then object_items f r1 []
          else Invalid JSONDecodeError
        | [] => Invalid JSONDecodeError
        end
      else if c =? 91 then
        match skip_ws r with
        | d :: r1 =>
          if d =? 93 then Scanned (PyList []) r1
          else array_items f (d :: r1) []
        | [] => Invalid JSONDecodeError
        end
      else scan_atom s
    end
  end
with object_items (fuel : nat) (s : str) (acc : list (str * pyobj))
  {struct fuel} : scan pyobj :=
  match fuel with
  | O => Starved
  | S f =>
    match scanstring s with
    | None => Invalid JSONDecodeError
    | Some (key, r) =>
      match skip_ws r with
      | c :: r1 =>
        if c =? 58 then
          match scan_once f (skip_ws r1) with
          | Scanned v r2 =>
            match skip_ws r2 with
            | d :: r3 =>
              if d =? 125 then
                Scanned (PyDict (Dict.of_pairs (acc ++ [(key, v)]))) r3
              else if d =? 44 then
                match skip_ws r3 with
                | q :: r4 =>
                  if q =? 34 then object_items f r4 (acc ++ [(key, v)])
                  else Invalid JSONDecodeError
                | [] => Invalid JSONDecodeError
                end
              else Invalid JSONDecodeError
            | [] => Invalid JSONDecodeError
            end
          | Invalid e => Invalid e
          | Starved => Starved
          end
        else Invalid JSONDecodeError
      | [] => Invalid JSONDecodeError
      end
    end
  end
with array_items (fuel : nat) (s : str) (acc : list pyobj)
  {struct fuel} : scan pyobj :=
  match fuel with
  | O => Starved
  | S f =>
    match scan_once f s with
    | Scanned v r =>
      match skip_ws r with
      | d :: r1 =>
        if d =? 93 then Scanned (PyList (acc ++ [v])) r1
        else if d =? 44 then array_items f (skip_ws r1) (acc ++ [v])
        else Invalid JSONDecodeError
      | [] => Invalid JSONDecodeError
      end
    | Invalid e => Invalid e
    | Starved => Starved
    end
  end.

(** [json.loads(s)]: one value between optional whitespace, nothing after
    it.  A text that starts with a byte order mark is refused like any
    other text that does not start with a value. *)
Definition loads (s : str) : Result pyobj :=
  match scan_once (2 * length s + 1) (skip_ws s) with
  | Scanned v r =>
    match skip_ws r with
    | [] => Ok v
    | _ :: _ => Raise JSONDecodeError
    end
  | Invalid e => Raise e
  | Starved => Raise JSONDecodeError
  end.

End WithPlatform.

End Decoder.

(** ** The world outside the store *)

(** A line written by [print]: the fixed text of a warning and the
    exception whose message follows it. *)
Inductive output : Type :=
| Warning (text : str) (e : exn).

Record World : Type := {
  (** the files of the working directory, by name *)
  fs : gmap str (list Byte.byte);
  (** [os.environ]: under each name the [str] that reading it gives *)
  environ : gmap str str;
  (** the values of [HKEY_CURRENT_USER\Environment] *)
  registry : gmap str str;
  (** the registry operation of an [apply] that raises [OSError], if
      any: [0] is [OpenKey], [1] to [4] are the [SetValueEx] calls *)
  registry_fault : option nat;
  (** what [print] wrote, oldest first *)
  stdout : list output
}.

Definition set_fs (f : gmap str (list Byte.byte)) (w : World) : World :=
  {| fs := f; environ := environ w; registry := registry w;
     registry_fault := registry_fault w; stdout := stdout w |}.
Definition set_environ (e : gmap str str) (w : World) : World :=
  {| fs := fs w; environ := e; registry := registry w;
     registry_fault := registry_fault w; stdout := stdout w |}.
Definition set_registry (r : gmap str str) (w : World) : World :=
  {| fs := fs w; environ := environ w; registry := r;
     registry_fault := registry_fault w; stdout := stdout w |}.
Definition set_stdout (o : list output) (w : World) : World :=
  {| fs := fs w; environ := environ w; registry := registry w;
     registry_fault := registry_fault w; stdout := o |}.

(** Code that runs in the world and may raise. *)
Definition M (A : Type) : Type := World -> Result A * World.

Definition ret {A} (a : A) : M A := fun w => (Ok a, w).
Definition raise {A} (e : exn) : M A := fun w => (Raise e, w).
Definition bind {A B} (m : M A) (k : A -> M B) : M B :=
  fun w =>
    match m w with
    | (Ok a, w1) => k a w1
    | (Raise e, w1) => (Raise e, w1)
    end.
(** [try: m  except Exception as e: h e] *)
Definition try_except {A} (m : M A) (h : exn -> M A) : M A :=
  fun w =>
    match m w with
    | (Ok a, w1) => (Ok a, w1)
    | (Raise e, w1) => h e w1
    end.

Notation "m1 ;;; m2" := (bind m1 (fun _ => m2))
  (at level 100, right associativity).

Module Runtime.
Local Open Scope N_scope.

Section WithPlatform.
Context (P : Platform).

(** Text written to a file opened with the default [newline]: on Windows
    a line feed goes out as carriage return and line feed. *)
Definition translate_out (s : str) : str :=
  if win32 P then flat_map (fun c => if c =? 10 then [13; 10] else [c]) s
  else s.

(** Text read with the default [newline]: universal newlines. *)
Fixpoint universal_newlines (s : str) : str :=
  match s with
  | [] => []
  | c :: r =>
    if c =? 13 then
      match r with
      | d :: r' =>
        if d =? 10 then 10 :: universal_newlines r'
        else 10 :: universal_newlines r
      | [] => [10]
      end
    else c :: universal_newlines r
  end.

(** [for chunk in chunks: f.write(chunk)] on a text file; the bytes of
    the chunks written before a chunk that cannot be encoded reach the
    file when it is closed. *)
Fixpoint write_chunks (chunks : list str) (written : list Byte.byte)
  : Result unit * list Byte.byte :=
  match chunks with
  | [] => (Ok tt, written)
  | c :: r =>
    match Unicode.utf8_encode (translate_out c) with
    | Some bs => write_chunks r (written ++ bs)
    | None => (Raise UnicodeEncodeError, written)
    end
  end.

(** [os.path.exists(path)] *)
Definition path_exists (path : str) (w : World) : bool :=
  bool_decide (is_Some (fs w !! path)).

(** [with open(path, 'w', encoding='utf-8') as f: json.dump(obj, f,
    indent=2, ensure_ascii=False)], for a file that [open] can create or
    truncate.  The [OSError] of an [open] that cannot (a missing or
    read-only directory, a dangling link) is outside the model. *)
Definition json_dump_to (path : str) (obj : pyobj) : M unit :=
  fun w =>
    let '(r, bytes) := write_chunks (Encoder.iterencode P 0 obj) [] in
    (r, set_fs (<[path := bytes]> (fs w)) w).

(** [with open(path, 'r', encoding='utf-8') as f: f.read()] *)
Definition read_text (path : str) (w : World) : Result str :=
  match fs w !! path with
  | None => Raise OSError
  | Some bytes =>
    match Unicode.utf8_decode bytes with
    | Some t => Ok (universal_newlines t)
    | None => Raise UnicodeDecodeError
    end
  end.

(** What reading [os.environ] gives for a value it accepted: on Windows
    the [str] itself, elsewhere the [str] its bytes decode to. *)
Definition environ_value (s : str) : str :=
  if win32 P then s else environ_decoded P s.

(** [os.environ[key] = value] *)
Definition environ_setitem (key : str) (value : pyobj) : M unit :=
  fun w =>
    match value with
    | PyStr s =>
      match putenv_error P s with
      | Some e => (Raise e, w)
      | None =>
        (Ok tt, set_environ (<[key := environ_value s]> (environ w)) w)
      end
    | _ => (Raise TypeError, w)
    end.

(** [winreg.OpenKey(winreg.HKEY_CURRENT_USER, 'Environment', 0,
    winreg.KEY_ALL_ACCESS)] *)
Definition OpenKey : M unit :=
  fun w =>
    if bool_decide (registry_fault w = Some 0%nat) then (Raise OSError, w)
    else (Ok tt, w).

(** [winreg.SetValueEx(key, name, 0, winreg.REG_SZ, value)], the [n]-th
    of the session. *)
Definition SetValueEx (n : nat) (name : str) (value : pyobj) : M unit :=
  fun w =>
    if bool_decide (registry_fault w = Some n) then (Raise OSError, w)
    else
      match value with
      | PyStr s => (Ok tt, set_registry (<[name := s]> (registry w)) w)
      | _ => (Raise TypeError, w)
      end.

(** [print(f"{text}{e}")] *)
Definition print_warning (text : str) (e : exn) : M unit :=
  fun w => (Ok tt, set_stdout (stdout w ++ [Warning text e]) w).

End WithPlatform.

(** [o[key]] for a [str] key *)
Definition subscript (o : pyobj) (key : str) : Result pyobj :=
  match o with
  | PyDict d => of_option KeyError (Dict.getitem d key)
  | _ => Raise TypeError
  end.

(** [for x in o]: the items a loop over [o] sees. *)
Definition iterate (o : pyobj) : Result (list pyobj) :=
  match o with
  | PyList l => Ok l
  | PyDict d => Ok (map (fun kv => PyStr (fst kv)) d)
  | PyStr s => Ok (map (fun c => PyStr [c]) s)
  | PyNone | PyBool _ | PyNum _ => Raise TypeError
  end.

(** A list comprehension over a function that may raise. *)
Fixpoint comprehension {A B} (f : A -> Result B) (l : list A)
  : Result (list B) :=
  match l with
  | [] => Ok []
  | a :: r => b <-- f a ;; bs <-- comprehension f r ;; Ok (b :: bs)
  end.

(** [l.pop(i)]: the list without its [i]-th item, negative [i] counting
    from the end. *)
Definition list_pop {A} (l : list A) (i : Z) : Result (list A) :=
  let n := Z.of_nat (length l) in
  let j := if (i <? 0)%Z then (i + n)%Z else i in
  if ((0 <=? j) && (j <? n))%Z then Ok (delete (Z.to_nat j) l)
  else Raise IndexError.

End Runtime.

(** ** The preset *)

(** An instance of [ConfigPreset].  The class declares its attributes as
    [str] and stores whatever it is given. *)
Record ConfigPreset : Type := {
  name : pyobj;
  auth_token : pyobj;
  base_url : pyobj;
  model : pyobj;
  small_fast_model : pyobj
}.

(** An instance of [ConfigManager]. *)
Record ConfigManager : Type := {
  config_file : str;
  presets : list ConfigPreset
}.

Definition k_name : str := Eval vm_compute in py "name".
Definition k_auth_token : str := Eval vm_compute in py "auth_token".
Definition k_base_url : str := Eval vm_compute in py "base_url".
Definition k_model : str := Eval vm_compute in py "model".
Definition k_small_fast_model : str := Eval vm_compute in py "small_fast_model".

Definition ANTHROPIC_AUTH_TOKEN : str :=
  Eval vm_compute in py "ANTHROPIC_AUTH_TOKEN".
Definition ANTHROPIC_BASE_URL : str :=
  Eval vm_compute in py "ANTHROPIC_BASE_URL".
Definition ANTHROPIC_MODEL : str :=
  Eval vm_compute in py "ANTHROPIC_MODEL".
Definition ANTHROPIC_SMALL_FAST_MODEL : str :=
  Eval vm_compute in py "ANTHROPIC_SMALL_FAST_MODEL".

Definition env_config_json : str := Eval vm_compute in py "env_config.json".

(** ** [env_manager_darkmode.py] *)

Module Darkmode.
Import Runtime.

Definition to_dict (self : ConfigPreset) : pyobj :=
  PyDict [ (k_name, name self);
           (k_auth_token, auth_token self);
           (k_base_url, base_url self);
           (k_model, model self);
           (k_small_fast_model, small_fast_model self) ].

Definition from_dict (data : pyobj) : Result ConfigPreset :=
  a <-- subscript data k_name ;;
  b <-- subscript data k_auth_token ;;
  c <-- subscript data k_base_url ;;
  d <-- subscript data k_model ;;
  e <-- subscript data k_small_fast_model ;;
  Ok {| name := a; auth_token := b; base_url := c; model := d;
        small_fast_model := e |}.

Definition default_presets : list ConfigPreset :=
  Eval vm_compute in
  [ {| name := PyStr (py "测试");
       auth_token :=
         PyStr (py "sk-6jwTXRuJ02L5rvKEXa8uiSjErD5sGJwdfIi9r6tohQKgGU4g");
       base_url := PyStr (py "https://api.test.com/anthropic");
       model := PyStr (py "deepseek-chat");
       small_fast_model := PyStr (py "deepseek-chat") |} ].

Definition warning_text : str :=
  Eval vm_compute in
  py "Warning: Could not set system environment variables: ".

Section WithPlatform.
Context (P : Platform).

Definition _save_presets (self : ConfigManager) (presets : list ConfigPreset)
  : M unit :=
  json_dump_to P (config_file self) (PyList (map to_dict presets)).

(** The body of the [try] in [_load_presets]. *)
Definition read_presets (self : ConfigManager) (w : World)
  : Result (list ConfigPreset) :=
  text <-- read_text (config_file self) w ;;
  data <-- Decoder.loads P text ;;
  items <-- iterate data ;;
  comprehension from_dict items.

Definition _load_presets (self : ConfigManager) : M (list ConfigPreset) :=
  fun w =>
    if path_exists (config_file self) w then
      match read_presets self w with
      | Ok loaded => (Ok loaded, w)
      | Raise _ => (Ok default_presets, w)
      end
    else
      (_save_presets self default_presets ;;; ret default_presets) w.

Definition __init__ : M ConfigManager :=
  fun w =>
    let self := {| config_file := env_config_json; presets := [] |} in
    match _load_presets self w with
    | (Ok loaded, w1) =>
      (Ok {| config_file := config_file self; presets := loaded |}, w1)
    | (Raise e, w1) => (Raise e, w1)
    end.

Definition add_preset (self : ConfigManager) (preset : ConfigPreset)
  (w : World) : Result unit * ConfigManager * World :=
  let self1 := {| config_file := config_file self;
                  presets := presets self ++ [preset] |} in
  let '(r, w1) := _save_presets self1 (presets self1) w in
  (r, self1, w1).

Definition delete_preset (self : ConfigManager) (index : Z) (w : World)
  : Result unit * ConfigManager * World :=
  if ((0 <=? index) && (index <? Z.of_nat (length (presets self))))%Z then
    match list_pop (presets self) index with
    | Ok popped =>
      let self1 := {| config_file := config_file self; presets := popped |} in
      let '(r, w1) := _save_presets self1 (presets self1) w in
      (r, self1, w1)
    | Raise e => (Raise e, self, w)
    end
  else (Ok tt, self, w).

Definition apply_preset (preset : ConfigPreset) : M unit :=
  environ_setitem P ANTHROPIC_AUTH_TOKEN (auth_token preset) ;;;
  environ_setitem P ANTHROPIC_BASE_URL (base_url preset) ;;;
  environ_setitem P ANTHROPIC_MODEL (model preset) ;;;
  environ_setitem P ANTHROPIC_SMALL_FAST_MODEL (small_fast_model preset) ;;;
  if win32 P then
    try_except
      (OpenKey ;;;
       SetValueEx 1 ANTHROPIC_AUTH_TOKEN (auth_token preset) ;;;
       SetValueEx 2 ANTHROPIC_BASE_URL (base_url preset) ;;;
       SetValueEx 3 ANTHROPIC_MODEL (model preset) ;;;
       SetValueEx 4 ANTHROPIC_SMALL_FAST_MODEL (small_fast_model preset))
      (fun e => print_warning warning_text e)
  else ret tt.

End WithPlatform.

End Darkmode.

(** ** [env_manager_pure_pyqt6.py] *)

Module PyQt6.
Import Runtime.

Definition to_dict (self : ConfigPreset) : pyobj :=
  PyDict [ (k_name, name self);
           (k_auth_token, auth_token self);
           (k_base_url, base_url self);
           (k_model, model self);
           (k_small_fast_model, small_fast_model self) ].

Definition from_dict (data : pyobj) : Result ConfigPreset :=
  a <-- subscript data k_name ;;
  b <-- subscript data k_auth_token ;;
  c <-- subscript data k_base_url ;;
  d <-- subscript data k_model ;;
  e <-- subscript data k_small_fast_model ;;
  Ok {| name := a; auth_token := b; base_url := c; model := d;
        small_fast_model := e |}.

Definition default_presets : list ConfigPreset :=
  Eval vm_compute in
  [ {| name := PyStr (py "测试配置");
       auth_token :=
         PyStr (py "sk-6jwTXRuJ02L5rvKEXa8uiSjErD5sGJwdfIi9r6tohQKgGU4g");
       base_url := PyStr (py "https://api.test.com/anthropic");
       model := PyStr (py "deepseek-chat");
       small_fast_model := PyStr (py "deepseek-chat") |} ].

Definition warning_text : str :=
  Eval vm_compute in py "警告: 无法设置系统环境变量: ".

Section WithPlatform.
Context (P : Platform).

Definition _save_presets (self : ConfigManager) (presets : list ConfigPreset)
  : M unit :=
  json_dump_to P (config_file self) (PyList (map to_dict presets)).

(** The body of the [try] in [_load_presets]. *)
Definition read_presets (self : ConfigManager) (w : World)
  : Result (list ConfigPreset) :=
  text <-- read_text (config_file self) w ;;
  data <-- Decoder.loads P text ;;
  items <-- iterate data ;;
  comprehension from_dict items.

Definition _load_presets (self : ConfigManager) : M (list ConfigPreset) :=
  fun w =>
    if path_exists (config_file self) w then
      match read_presets self w with
      | Ok loaded => (Ok loaded, w)
      | Raise _ => (Ok default_presets, w)
      end
    else
      (_save_presets self default_presets ;;; ret default_presets) w.

Definition __init__ : M ConfigManager :=
  fun w =>
    let self := {| config_file := env_config_json; presets := [] |} in
    match _load_presets self w with
    | (Ok loaded, w1) =>
      (Ok {| config_file := config_file self; presets := loaded |}, w1)
    | (Raise e, w1) => (Raise e, w1)
    end.

Definition add_preset (self : ConfigManager) (preset : ConfigPreset)
  (w : World) : Result unit * ConfigManager * World :=
  let self1 := {| config_file := config_file self;
                  presets := presets self ++ [preset] |} in
  let '(r, w1) := _save_presets self1 (presets self1) w in
  (r, self1, w1).

Definition delete_preset (self : ConfigManager) (index : Z) (w : World)
  : Result unit * ConfigManager * World :=
  if ((0 <=? index) && (index <? Z.of_nat (length (presets self))))%Z then
    match list_pop (presets self) index with
    | Ok popped =>
      let self1 := {| config_file := config_file self; presets := popped |} in
      let '(r, w1) := _save_presets self1 (presets self1) w in
      (r, self1, w1)
    | Raise e => (Raise e, self, w)
    end
  else (Ok tt, self, w).

Definition apply_preset (preset : ConfigPreset) : M unit :=
  environ_setitem P ANTHROPIC_AUTH_TOKEN (auth_token preset) ;;;
  environ_setitem P ANTHROPIC_BASE_URL (base_url preset) ;;;
  environ_setitem P ANTHROPIC_MODEL (model preset) ;;;
  environ_setitem P ANTHROPIC_SMALL_FAST_MODEL (small_fast_model preset) ;;;
  if win32 P then
    try_except
      (OpenKey ;;;
       SetValueEx 1 ANTHROPIC_AUTH_TOKEN (auth_token preset) ;;;
       SetValueEx 2 ANTHROPIC_BASE_URL (base_url preset) ;;;
       SetValueEx 3 ANTHROPIC_MODEL (model preset) ;;;
       SetValueEx 4 ANTHROPIC_SMALL_FAST_MODEL (small_fast_model preset))
      (fun e => print_warning warning_text e)
  else ret tt.

End WithPlatform.

End PyQt6.

(** ** Presets that hold text *)

Definition is_str (o : pyobj) : bool :=
  match o with
  | PyStr _ => true
  | _ => false
  end.

(** The five attributes are [str] objects, as the class declares them. *)
Definition str_fields (p : ConfigPreset) : bool :=
  is_str (name p) && is_str (auth_token p) && is_str (base_url p)
  && is_str (model p) && is_str (small_fast_model p).

Definition is_text_obj (o : pyobj) : bool :=
  match o with
  | PyStr s => Unicode.is_text s
  | _ => false
  end.

(** The five attributes are [str] objects without surrogate code points. *)
Definition text_fields (p : ConfigPreset) : bool :=
  is_text_obj (name p) && is_text_obj (auth_token p)
  && is_text_obj (base_url p) && is_text_obj (model p)
  && is_text_obj (small_fast_model p).

(** The environment [after] holds the four values under the four names
    and is [before] everywhere else. *)
Definition applied (before after : gmap str str) (a b c d : str) : Prop :=
  after !! ANTHROPIC_AUTH_TOKEN = Some a
  /\ after !! ANTHROPIC_BASE_URL = Some b
  /\ after !! ANTHROPIC_MODEL = Some c
  /\ after !! ANTHROPIC_SMALL_FAST_MODEL = Some d
  /\ (forall k : str,
        k <> ANTHROPIC_AUTH_TOKEN -> k <> ANTHROPIC_BASE_URL ->
        k <> ANTHROPIC_MODEL -> k <> ANTHROPIC_SMALL_FAST_MODEL ->
        after !! k = before !! k).

(** The keys [from_dict] reads. *)
Definition required_keys : list str :=
  [k_name; k_auth_token; k_base_url; k_model; k_small_fast_model].

(** A dictionary that has every key [from_dict] reads. *)
Definition has_required_keys (o : pyobj) : bool :=
  match o with
  | PyDict d => forallb (fun k => bool_decide (is_Some (Dict.getitem d k)))
                  required_keys
  | _ => false
  end.

(** ** The written file, spelled out *)

Module Layout.
Import Encoder.
Local Open Scope N_scope.

Definition value_text (o : pyobj) : str :=
  match o with
  | PyStr s => encode_basestring s
  | _ => []
  end.

Definition field_text (k : str) (v : pyobj) : str :=
  encode_basestring k ++ [58; 32] ++ value_text v.

(** One preset, as an object at indentation level 1. *)
Definition preset_text (p : ConfigPreset) : str :=
  123 :: newline_indent 2
  ++ field_text k_name (name p) ++ 44 :: newline_indent 2
  ++ field_text k_auth_token (auth_token p) ++ 44 :: newline_indent 2
  ++ field_text k_base_url (base_url p) ++ 44 :: newline_indent 2
  ++ field_text k_model (model p) ++ 44 :: newline_indent 2
  ++ field_text k_small_fast_model (small_fast_model p)
  ++ newline_indent 1 ++ [125].

(** What follows the first preset of the array. *)
Fixpoint tail_text (ps : list ConfigPreset) : str :=
  match ps with
  | [] => newline_indent 0 ++ [93]
  | p :: r => 44 :: newline_indent 1 ++ preset_text p ++ tail_text r
  end.

Definition presets_text (ps : list ConfigPreset) : str :=
  match ps with
  | [] => [91; 93]
  | p :: r => 91 :: newline_indent 1 ++ preset_text p ++ tail_text r
  end.

(** Neither a surrogate nor a carriage return. *)
Definition clean (c : N) : bool := Unicode.is_scalar c && negb (c =? 13).

End Layout.

(** ** The file system encoding *)

(** The [utf-8] codec with the [surrogateescape] error handler, as
    [os.environ] uses it off Windows when UTF-8 is the file system
    encoding: a byte that is not part of a well-formed sequence is carried
    as the lone surrogate U+DC00 plus the byte. *)
Module SurrogateEscape.
Import Unicode.
Local Open Scope N_scope.

(** A lone surrogate that stands for a byte. *)
Definition is_escape (c : N) : bool := (0xDC80 <=? c) && (c <=? 0xDCFF).

(** [s.encode('utf-8', 'surrogateescape')]: [None] stands for
    [UnicodeEncodeError]. *)
Fixpoint encode (s : str) : option (list N) :=
  match s with
  | [] => Some []
  | c :: r =>
    match (if is_escape c then Some [c - 0xDC00] else utf8_encode_char c),
          encode r with
    | Some bs, Some rs => Some (bs ++ rs)
    | _, _ => None
    end
  end.

(** [b.decode('utf-8', 'surrogateescape')] *)
Fixpoint decode (bs : list N) : str :=
  match bs with
  | [] => []
  | b0 :: r0 =>
    let escaped := (0xDC00 + b0) :: decode r0 in
    if b0 <? 0x80 then b0 :: decode r0
    else if b0 <? 0xC2 then escaped
    else if b0 <? 0xE0 then
      match r0 with
      | b1 :: r1 =>
        if is_cont b1
        then ((b0 - 0xC0) * 64 + (b1 - 0x80)) :: decode r1
        else escaped
      | _ => escaped
      end
    else if b0 <? 0xF0 then
      match r0 with
      | b1 :: b2 :: r2 =>
        let c := (b0 - 0xE0) * 4096 + (b1 - 0x80) * 64 + (b2 - 0x80) in
        if is_cont b1 && is_cont b2 && (0x800 <=? c) && negb (is_surrogate c)
        then c :: decode r2
        else escaped
      | _ => escaped
      end
    else if b0 <? 0xF5 then
      match r0 with
      | b1 :: b2 :: b3 :: r3 =>
        let c := (b0 - 0xF0) * 262144 + (b1 - 0x80) * 4096
                 + (b2 - 0x80) * 64 + (b3 - 0x80) in
        if is_cont b1 && is_cont b2 && is_cont b3
           && (0x10000 <=? c) && (c <=? 0x10FFFF)
        then c :: decode r3
        else escaped
      | _ => escaped
      end
    else escaped
  end.

(** The [str] read back from [os.environ] for a value it took. *)
Definition read_back (s : str) : str :=
  match encode s with
  | Some bs => decode bs
  | None => s
  end.

End SurrogateEscape.

(** ** Two platforms for the examples *)

Module Sample.
Local Open Scope N_scope.

(** What [os.environ] can encode with the UTF-8 file system encoding and
    the [surrogateescape] handler. *)
Definition fs_encodable (c : N) : bool :=
  Unicode.is_scalar c || ((0xDC80 <=? c) && (c <=? 0xDCFF)).

Definition has_nul (s : str) : bool := existsb (fun c => c =? 0) s.

(** A POSIX system with UTF-8 as file system encoding.  Numbers are
    written back as read, which is exact for the literals [repr] itself
    writes. *)
Definition posix : Platform :=
  {| win32 := false;
     putenv_error := fun s =>
       if negb (forallb fs_encodable s) then Some UnicodeEncodeError
       else if has_nul s then Some ValueError
       else None;
     environ_decoded := SurrogateEscape.read_back;
     number_error := fun _ => None;
     number_repr := fun lit => lit |}.

(** A Windows system; the limit on the length of a variable is left
    out. *)
Definition windows : Platform :=
  {| win32 := true;
     putenv_error := fun s => if has_nul s then Some ValueError else None;
     environ_decoded := fun s => s;
     number_error := fun _ => None;
     number_repr := fun lit => lit |}.

Definition empty_world : World :=
  {| fs := ∅; environ := ∅; registry := ∅; registry_fault := None;
     stdout := [] |}.

Definition preset (n : string) : ConfigPreset :=
  {| name := PyStr (py n); auth_token := PyStr (py "token");
     base_url := PyStr (py "https://example.test"); model := PyStr (py "m1");
     small_fast_model := PyStr (py "m2") |}.

Definition manager : ConfigManager :=
  {| config_file := env_config_json;
     presets := [preset "A"; preset "B"; preset "C"] |}.

(** A preset whose name is the lone surrogate U+D800, as [json.load]
    returns it for the escape [\ud800]. *)
Definition surrogate_preset : ConfigPreset :=
  {| name := PyStr [0xD800]; auth_token := PyStr (py "token");
     base_url := PyStr (py "https://example.test"); model := PyStr (py "m1");
     small_fast_model := PyStr (py "m2") |}.

(** A preset whose token holds a NUL character. *)
Definition nul_preset : ConfigPreset :=
  {| name := PyStr (py "n"); auth_token := PyStr [97; 0; 98];
     base_url := PyStr (py "https://example.test"); model := PyStr (py "m1");
     small_fast_model := PyStr (py "m2") |}.

(** A world with another variable set, where the second write to the
    per-user store is refused. *)
Definition faulty_world : World :=
  {| fs := ∅; environ := {[ py "PATH" := py "/usr/bin" ]}; registry := ∅;
     registry_fault := Some 2%nat; stdout := [] |}.

(** The bytes of a file, written here with an apostrophe wherever the
    file has a double quote. *)
Definition file_bytes (content : string) : list Byte.byte :=
  map (fun b => if Byte.eqb b Byte.x27 then Byte.x22 else b)
    (list_byte_of_string content).

(** A world whose backing file holds the given bytes. *)
Definition world_with_file (content : string) : World :=
  {| fs := {[ env_config_json := file_bytes content ]};
     environ := ∅; registry := ∅; registry_fault := None; stdout := [] |}.

Definition malformed_file : string := "[{'name': 'a',".

Definition missing_field_file : string :=
  "[{'name': 'a', 'auth_token': 'b', 'base_url': 'c', 'model': 'd'}]".

Definition extra_key_file : string :=
  "[{'name': 'a', 'auth_token': 'b', 'base_url': 'c', 'note': [1, 2], 'model': 'd', 'small_fast_model': 'e', 'name': 'z'}]".

End Sample.

(** ** Reading the result of a method *)

(** The manager as [delete_preset] leaves it. *)
Abbreviation manager_after res := (snd (fst res)).
(** The world as a method of the manager leaves it. *)
Abbreviation world_after res := (snd res).
(** How a method of the manager ends. *)
Abbreviation outcome res := (fst (fst res)).

(** ** The windows *)

(** What the two windows compute from the store and the environment before
    they hand it to their widgets.  The widgets themselves, their colours
    and fonts, and the toolkits' own failures are outside the model. *)

(** Operations of [str] the windows use. *)
Module Str.
Local Open Scope N_scope.

(** [s[:n]] for [n >= 0] *)
Definition slice_to (n : nat) (s : str) : str := take n s.

(** [s[-n:]] for [n > 0]: the last [n] items, all of [s] when it is
    shorter. *)
Definition slice_last (n : nat) (s : str) : str := drop (length s - n) s.

Fixpoint startswith (p s : str) : bool :=
  match p, s with
  | [], _ => true
  | _ :: _, [] => false
  | a :: p', b :: s' => (a =? b) && startswith p' s'
  end.

(** [p in s] *)
Fixpoint contains (p s : str) : bool :=
  startswith p s
  || match s with
     | [] => false
     | _ :: r => contains p r
     end.

(** [c.isspace()] *)
Definition isspace (c : N) : bool :=
  ((9 <=? c) && (c <=? 13)) || ((28 <=? c) && (c <=? 32))
  || (c =? 0x85) || (c =? 0xA0) || (c =? 0x1680)
  || ((0x2000 <=? c) && (c <=? 0x200A))
  || (c =? 0x2028) || (c =? 0x2029) || (c =? 0x202F) || (c =? 0x205F)
  || (c =? 0x3000).

Fixpoint lstrip (s : str) : str :=
  match s with
  | [] => []
  | c :: r => if isspace c then lstrip r else s
  end.

Definition rstrip (s : str) : str := rev (lstrip (rev s)).

(** [s.strip()] *)
Definition strip (s : str) : str := rstrip (lstrip s).

(** [bool(s)] *)
Definition truth (s : str) : bool :=
  match s with
  | [] => false
  | _ :: _ => true
  end.

(** [all(fields)] for a list of [str] *)
Definition all (fields : list str) : bool := forallb truth fields.

End Str.

Definition s_dots : str := Eval vm_compute in py "...".
Definition s_TOKEN : str := Eval vm_compute in py "TOKEN".
(** The text both windows show for a variable that is not set, and give
    to [os.environ.get] as the default. *)
Definition s_unset : str := Eval vm_compute in py "未设置".
Definition s_set_mark : str := Eval vm_compute in py "✅ ".
Definition s_unset_text : str := Eval vm_compute in py "❌ 未设置".
Definition s_set_text : str := Eval vm_compute in py "✅ 已设置".

(** [os.environ.get(key, default)] *)
Definition environ_get (key dflt : str) (w : World) : str :=
  default dflt (environ w !! key).

(** [l[i]] on a list, negative [i] counting from the end. *)
Definition list_getitem {A} (l : list A) (i : Z) : Result A :=
  let n := Z.of_nat (length l) in
  let j := if (i <? 0)%Z then (i + n)%Z else i in
  if ((0 <=? j) && (j <? n))%Z then of_option IndexError (l !! Z.to_nat j)
  else Raise IndexError.

(** The token a preset card shows, in [create_preset_card] of
    [env_manager_darkmode.py] and in [AnimatedCardWidget.setup_ui] of
    [env_manager_pure_pyqt6.py], for a token that is a [str]:
    [f"{t[:8]}...{t[-6:]}" if len(t) > 14 else t]. *)
Definition token_display (auth_token : str) : str :=
  if (14 <? length auth_token)%nat then
    Str.slice_to 8 auth_token ++ s_dots ++ Str.slice_last 6 auth_token
  else auth_token.

(** The value of an environment variable with its middle left out:
    [f"{v[:10]}...{v[-10:]}" if len(v) > 20 else v]. *)
Definition masked (var_value : str) : str :=
  if (20 <? length var_value)%nat then
    Str.slice_to 10 var_value ++ s_dots ++ Str.slice_last 10 var_value
  else var_value.

(** The fields of the dialog, in the order of the tuple it leaves. *)
Definition fields : Type := str * str * str * str * str.

(** [ConfigPreset(name, token, url, model, small_model)] *)
Definition new_preset (result : fields) : ConfigPreset :=
  let '(name, token, url, model, small_model) := result in
  {| name := PyStr name; auth_token := PyStr token; base_url := PyStr url;
     model := PyStr model; small_fast_model := PyStr small_model |}.

(** A preset card: the preset it shows, the index its buttons hand on,
    and its cell in the grid. *)
Record card : Type := {
  card_preset : ConfigPreset;
  card_index : nat;
  card_row : nat;
  card_col : nat
}.

(** *** [EnvManagerApp] and [PresetDialog] of [env_manager_darkmode.py] *)

Module DarkmodeApp.
Import Runtime.

(** The calls of [create_preset_card] that [refresh_presets_list] makes,
    in order. *)
Definition refresh_presets_list (self : ConfigManager) : list card :=
  imap (fun i preset =>
          {| card_preset := preset; card_index := i;
             card_row := i / 3; card_col := i mod 3 |})
       (presets self).

(** The arguments of one call of [create_config_item]. *)
Record config_item : Type := {
  var_name : str;
  display_name : str;
  var_value : str;
  item_row : nat;
  item_col : nat
}.

(** The calls of [create_config_item] that [refresh_current_config]
    makes, in order. *)
Definition refresh_current_config (w : World) : list config_item :=
  imap (fun i '(n, d, v) =>
          {| var_name := n; display_name := d; var_value := v;
             item_row := i / 2; item_col := i mod 2 |})
       [ (ANTHROPIC_AUTH_TOKEN, py "🔑 认证令牌",
          environ_get ANTHROPIC_AUTH_TOKEN s_unset w);
         (ANTHROPIC_BASE_URL, py "🌐 API地址",
          environ_get ANTHROPIC_BASE_URL s_unset w);
         (ANTHROPIC_MODEL, py "🤖 主要模型",
          environ_get ANTHROPIC_MODEL s_unset w);
         (ANTHROPIC_SMALL_FAST_MODEL, py "⚡ 快速模型",
          environ_get ANTHROPIC_SMALL_FAST_MODEL s_unset w) ].

(** [value_text] of [create_config_item]. *)
Definition value_text (var_name var_value : str) : str :=
  if Dict.str_eqb var_value s_unset then s_unset_text
  else
    if Str.contains s_TOKEN var_name && negb (Dict.str_eqb var_value s_unset)
    then
      if (20 <? length var_value)%nat then
        s_set_mark ++ Str.slice_to 10 var_value ++ s_dots
        ++ Str.slice_last 10 var_value
      else s_set_mark ++ var_value
    else s_set_mark ++ var_value.

(** [PresetDialog.ok]: the entries as they stand become the result. *)
Definition ok (name_entry token_entry url_entry model_entry
               small_model_entry : str) : option fields :=
  Some (name_entry, token_entry, url_entry, model_entry, small_model_entry).

(** [PresetDialog.cancel], or closing the dialog: no result. *)
Definition cancel : option fields := None.

(** How [add_new_preset] went. *)
Inductive added : Type :=
| NoResult
| Incomplete
| Stored (r : Result unit).

Section WithPlatform.
Context (P : Platform).

(** [EnvManagerApp.add_new_preset] up to and with its call of the store,
    for the result the dialog left.  What follows the call, the
    rebuilding of the cards and the closing notice, reads the collection
    and changes neither it nor the world. *)
Definition add_new_preset (result : option fields) (self : ConfigManager)
  (w : World) : added * ConfigManager * World :=
  match result with
  | None => (NoResult, self, w)
  | Some (name, token, url, model, small_model) =>
    if Str.all [name; token; url; model; small_model] then
      let preset := new_preset (name, token, url, model, small_model) in
      let '(r, self1, w1) := Darkmode.add_preset P self preset w in
      (Stored r, self1, w1)
    else (Incomplete, self, w)
  end.

(** [EnvManagerApp.delete_preset] up to and with its call of the store;
    [answer] is what [askyesno] returns.  The result is the name the
    question shows. *)
Definition delete_preset (answer : bool) (self : ConfigManager) (index : Z)
  (w : World) : Result pyobj * ConfigManager * World :=
  match list_getitem (presets self) index with
  | Raise e => (Raise e, self, w)
  | Ok preset =>
    let preset_name := name preset in
    if answer then
      let '(r, self1, w1) := Darkmode.delete_preset P self index w in
      (_ <-- r ;; Ok preset_name, self1, w1)
    else (Ok preset_name, self, w)
  end.

End WithPlatform.

End DarkmodeApp.

(** *** [EnvVarTableModel], [PresetDialog] and [EnvManagerApp] of
    [env_manager_pure_pyqt6.py] *)

Module PyQt6App.
Import Runtime.

(** [EnvVarTableModel.refresh_data]: the new [env_vars]. *)
Definition refresh_data (w : World) : list (str * str) :=
  [ (ANTHROPIC_AUTH_TOKEN, environ_get ANTHROPIC_AUTH_TOKEN s_unset w);
    (ANTHROPIC_BASE_URL, environ_get ANTHROPIC_BASE_URL s_unset w);
    (ANTHROPIC_MODEL, environ_get ANTHROPIC_MODEL s_unset w);
    (ANTHROPIC_SMALL_FAST_MODEL,
     environ_get ANTHROPIC_SMALL_FAST_MODEL s_unset w) ].

(** [EnvVarTableModel.rowCount] *)
Definition rowCount (env_vars : list (str * str)) : nat := length env_vars.

Record QModelIndex : Type := {
  isValid : bool;
  row : Z;
  column : Z
}.

Inductive ItemDataRole : Type :=
| DisplayRole
| ForegroundRole
| OtherRole.

(** What [data] returns: a [str] or a [QColor]. *)
Inductive value : Type :=
| Text (s : str)
| QColor (r g b : N).

Definition green : value := QColor 0 150 0.
Definition red : value := QColor 200 0 0.

(** [EnvVarTableModel.data]; [None] is Python's [None]. *)
Definition data (env_vars : list (str * str)) (index : QModelIndex)
  (role : ItemDataRole) : option value :=
  if negb (isValid index)
     || negb ((0 <=? row index) && (row index <? Z.of_nat (length env_vars)))%Z
  then None
  else
    match env_vars !! Z.to_nat (row index) with
    | None => None
    | Some (var_name, var_value) =>
      match role with
      | DisplayRole =>
        if (column index =? 0)%Z then Some (Text var_name)
        else if (column index =? 1)%Z then
          Some (Text
            (if Str.contains s_TOKEN var_name
                && negb (Dict.str_eqb var_value s_unset)
             then masked var_value
             else var_value))
        else if (column index =? 2)%Z then
          Some (Text (if negb (Dict.str_eqb var_value s_unset)
                      then s_set_text else s_unset_text))
        else None
      | ForegroundRole =>
        if (column index =? 2)%Z then
          Some (if negb (Dict.str_eqb var_value s_unset) then green else red)
        else None
      | OtherRole => None
      end
    end.

Definition s_Not_Set : str := Eval vm_compute in py "Not Set".

(** One row of the table [refresh_env_table] fills. *)
Record table_row : Type := {
  name_item : str;
  value_item : str;
  status_text : str;
  status_foreground : value
}.

(** The rows [EnvManagerApp.refresh_env_table] sets, in order. *)
Definition refresh_env_table (w : World) : list table_row :=
  map (fun '(var_name, var_value) =>
         {| name_item := var_name;
            value_item :=
              if Str.contains s_TOKEN var_name
                 && negb (Dict.str_eqb var_value s_Not_Set)
              then masked var_value
              else var_value;
            status_text :=
              if Dict.str_eqb var_value s_unset then s_unset_text
              else s_set_text;
            status_foreground :=
              if Dict.str_eqb var_value s_unset then red else green |})
      (refresh_data w).

(** [PresetDialog.accept_dialog]: the new [result_data], [None] when the
    warning is shown and the dialog stays open. *)
Definition accept_dialog (name_entry token_entry url_entry model_entry
                          small_model_entry : str) : option fields :=
  let name := Str.strip name_entry in
  let token := Str.strip token_entry in
  let url := Str.strip url_entry in
  let model := Str.strip model_entry in
  let small_model := Str.strip small_model_entry in
  if Str.all [name; token; url; model; small_model] then
    Some (name, token, url, model, small_model)
  else None.

(** The cards [EnvManagerApp.refresh_presets_cards] adds to the grid, in
    order. *)
Definition refresh_presets_cards (self : ConfigManager) : list card :=
  imap (fun i preset =>
          {| card_preset := preset; card_index := i;
             card_row := i / 3; card_col := i mod 3 |})
       (presets self).

Section WithPlatform.
Context (P : Platform).

(** [EnvManagerApp.delete_preset] up to and with its call of the store;
    [reply] tells whether the question is answered with Yes.  The result
    is the name the question shows, [None] when no question is asked.
    What follows the call is left out: the rebuilding of the cards, the
    signal, whose handler prints a line, and the closing notice. *)
Definition delete_preset (reply : bool) (self : ConfigManager) (index : Z)
  (w : World) : Result (option pyobj) * ConfigManager * World :=
  if ((0 <=? index) && (index <? Z.of_nat (length (presets self))))%Z then
    match list_getitem (presets self) index with
    | Raise e => (Raise e, self, w)
    | Ok preset =>
      let preset_name := name preset in
      if reply then
        let '(r, self1, w1) := PyQt6.delete_preset P self index w in
        (_ <-- r ;; Ok (Some preset_name), self1, w1)
      else (Ok (Some preset_name), self, w)
    end
  else (Ok None, self, w).

End WithPlatform.

End PyQt6App.

(** ** What a registry session writes *)

(** The number of values the registry session of [apply_preset] writes
    before the operation at fault raises: all four when none does. *)
Definition written (fault : option nat) : nat :=
  match fault with
  | None => 4
  | Some O => 0
  | Some (S k) => Nat.min 4 k
  end.

(** A map after the given assignments, made in order. *)
Definition assigned (pairs : list (str * str)) (m : gmap str str)
  : gmap str str :=
  foldl (fun m kv => <[fst kv := snd kv]> m) m pairs.

(** The four variables with the values [apply_preset] gives them, in the
    order it assigns them. *)
Definition assignments (a b c d : str) : list (str * str) :=
  [ (ANTHROPIC_AUTH_TOKEN, a); (ANTHROPIC_BASE_URL, b);
    (ANTHROPIC_MODEL, c); (ANTHROPIC_SMALL_FAST_MODEL, d) ].

(** The text of a [str] object; empty for any other object. *)
Definition str_value (o : pyobj) : str :=
  match o with
  | PyStr s => s
  | _ => []
  end.

(** ** Trimmed text *)

(** [field] is [entry] without the white space around it: [entry] is
    white space, [field], white space, and [field] neither starts nor ends
    with white space. *)
Definition trimmed (entry field : str) : Prop :=
  (exists l r : str,
     entry = l ++ field ++ r
     /\ forallb Str.isspace l = true /\ forallb Str.isspace r = true)
  /\ (forall c : N, head field = Some c -> Str.isspace c = false)
  /\ (forall c : N, last field = Some c -> Str.isspace c = false).

(** ** The file a failed save leaves *)

(** The text [json.dump] has written when a string value cannot be
    encoded: every chunk before that value.  The functions follow the
    loops of the encoder and stop at the first value that is not text. *)
Module Partial.
Import Encoder.
Local Open Scope N_scope.

(** The chunks written before the first chunk that cannot be encoded. *)
Fixpoint written_text (chunks : list str) : str :=
  match chunks with
  | [] => []
  | c :: r => if Unicode.is_text c then c ++ written_text r else []
  end.

(** The keys and the strings of a preset, in the order of [to_dict]. *)
Definition items (p : ConfigPreset) : list (str * str) :=
  [ (k_name, str_value (name p));
    (k_auth_token, str_value (auth_token p));
    (k_base_url, str_value (base_url p));
    (k_model, str_value (model p));
    (k_small_fast_model, str_value (small_fast_model p)) ].

(** An item of the dictionary [to_dict] builds. *)
Definition str_item (kv : str * str) : str * pyobj :=
  (fst kv, PyStr (snd kv)).

(** A string value UTF-8 cannot carry. *)
Definition cut (kv : str * str) : bool := negb (Unicode.is_text (snd kv)).

(** A key and what follows it, after the opening quote of the key. *)
Fixpoint fields_text (k v : str) (r : list (str * str)) : str :=
  escape k ++ 34 :: 58 :: 32 ::
  (if Unicode.is_text v then
     34 :: escape v ++ 34 ::
     match r with
     | [] => []
     | (k', v') :: r' => 44 :: newline_indent 2 ++ 34 :: fields_text k' v' r'
     end
   else []).

(** An object at indentation level 1, cut before the value. *)
Definition object_text (kvs : list (str * str)) : str :=
  match kvs with
  | [] => []
  | (k, v) :: r => 123 :: newline_indent 2 ++ 34 :: fields_text k v r
  end.

(** An element of the array and what follows it. *)
Fixpoint array_text (p : ConfigPreset) (r : list ConfigPreset) : str :=
  if text_fields p then
    Layout.preset_text p ++
    match r with
    | [] => []
    | q :: r' => 44 :: newline_indent 1 ++ array_text q r'
    end
  else object_text (items p).

Definition presets_text (ps : list ConfigPreset) : str :=
  match ps with
  | [] => []
  | p :: r => 91 :: newline_indent 1 ++ array_text p r
  end.

End Partial.

(** * Properties of the runtime *)

Module UnicodeFacts.
Import Unicode.
Local Open Scope N_scope.

Ltac split_tests :=
  repeat match goal with
  | H : context [N.ltb ?a ?b] |- _ => destruct (N.ltb_spec a b)
  | H : context [N.leb ?a ?b] |- _ => destruct (N.leb_spec a b)
  | |- context [N.ltb ?a ?b] => destruct (N.ltb_spec a b)
  | |- context [N.leb ?a ?b] => destruct (N.leb_spec a b)
  end.

Ltac decide_tests :=
  repeat match goal with
  | |- context [N.ltb ?a ?b] =>
    first [ replace (N.ltb a b) with true by (symmetry; apply N.ltb_lt; lia)
          | replace (N.ltb a b) with false by (symmetry; apply N.ltb_ge; lia) ]
  | |- context [N.leb ?a ?b] =>
    first [ replace (N.leb a b) with true by (symmetry; apply N.leb_le; lia)
          | replace (N.leb a b) with false by (symmetry; apply N.leb_gt; lia) ]
  end.

(** Names the quotient and the remainder of [c] by 64. *)
Ltac by_64 c q r :=
  pose proof (N.div_mod' c 64);
  pose proof (N.mod_lt c 64 ltac:(discriminate));
  set (q := c / 64) in *; set (r := c mod 64) in *; clearbody q r.

Lemma div_4096 (c : N) : c / 4096 = c / 64 / 64.
Proof. rewrite N.Div0.div_div. reflexivity. Qed.

Lemma div_262144 (c : N) : c / 262144 = c / 64 / 64 / 64.
Proof. rewrite !N.Div0.div_div. reflexivity. Qed.

Lemma utf8_encode_char_bytes (c : N) (bs : list N) :
  utf8_encode_char c = Some bs -> List.Forall (fun b => b < 256) bs.
Proof.
  unfold utf8_encode_char, is_surrogate.
  rewrite div_262144, div_4096.
  by_64 c q0 r0. by_64 q0 q1 r1. by_64 q1 q2 r2.
  split_tests; simpl; try discriminate; intros [= <-];
    repeat (apply List.Forall_cons; [lia |]); apply List.Forall_nil.
Qed.

Lemma utf8_char_roundtrip (c : N) (bs rest : list N) :
  utf8_encode_char c = Some bs ->
  utf8_decode_N (bs ++ rest) = cons c <$> utf8_decode_N rest.
Proof.
  unfold utf8_encode_char, is_surrogate.
  rewrite div_262144, div_4096.
  by_64 c q0 r0. by_64 q0 q1 r1. by_64 q1 q2 r2.
  split_tests; simpl; try discriminate; intros [= <-]; simpl.
  all: unfold is_cont, is_surrogate; decide_tests; simpl.
  all: f_equal; f_equal; lia.
Qed.

Lemma utf8_encode_N_bytes (s : str) (bs : list N) :
  utf8_encode_N s = Some bs -> List.Forall (fun b => b < 256) bs.
Proof.
  revert bs. induction s as [| c r IH]; simpl; intros bs.
  - intros [= <-]. apply List.Forall_nil.
  - destruct (utf8_encode_char c) as [cs |] eqn:Hc; [| discriminate].
    destruct (utf8_encode_N r) as [rs |]; [| discriminate].
    intros [= <-]. apply List.Forall_app. split.
    + eapply utf8_encode_char_bytes, Hc.
    + apply IH. reflexivity.
Qed.

Lemma utf8_decode_encode_N (s : str) (bs : list N) :
  utf8_encode_N s = Some bs -> utf8_decode_N bs = Some s.
Proof.
  revert bs. induction s as [| c r IH]; simpl; intros bs.
  - intros [= <-]. reflexivity.
  - destruct (utf8_encode_char c) as [cs |] eqn:Hc; [| discriminate].
    destruct (utf8_encode_N r) as [rs |]; [| discriminate].
    intros [= <-]. rewrite (utf8_char_roundtrip _ _ _ Hc).
    rewrite (IH rs eq_refl). reflexivity.
Qed.

Lemma to_N_byte_of_N (n : N) : n < 256 -> Byte.to_N (byte_of_N n) = n.
Proof.
  intros Hn. unfold byte_of_N.
  destruct (Byte.of_N n) as [b |] eqn:Hb.
  - apply Byte.to_of_N. exact Hb.
  - apply Byte.of_N_None_iff in Hb. lia.
Qed.

Lemma to_N_bytes_of_N (l : list N) :
  List.Forall (fun b => b < 256) l -> map Byte.to_N (map byte_of_N l) = l.
Proof.
  induction 1 as [| n l Hn _ IH]; simpl; [reflexivity |].
  rewrite to_N_byte_of_N by exact Hn. rewrite IH. reflexivity.
Qed.

(** What [encode] wrote, [decode] reads back. *)
Lemma utf8_decode_encode (s : str) (bs : list Byte.byte) :
  utf8_encode s = Some bs -> utf8_decode bs = Some s.
Proof.
  unfold utf8_encode, utf8_decode.
  destruct (utf8_encode_N s) as [ns |] eqn:Hs; [| discriminate].
  simpl. intros [= <-].
  rewrite to_N_bytes_of_N by (eapply utf8_encode_N_bytes, Hs).
  apply utf8_decode_encode_N, Hs.
Qed.

Lemma utf8_encode_char_scalar (c : N) :
  is_scalar c = true -> is_Some (utf8_encode_char c).
Proof.
  unfold is_scalar, utf8_encode_char, is_surrogate.
  split_tests; simpl; intros; try discriminate; eauto; lia.
Qed.

(** Text made of scalar values can be encoded. *)
Lemma utf8_encode_text (s : str) :
  is_text s = true -> is_Some (utf8_encode s).
Proof.
  unfold utf8_encode, is_text.
  induction s as [| c r IH]; simpl; [eauto |].
  intros [Hc Hr]%andb_true_iff.
  destruct (utf8_encode_char_scalar c Hc) as [cs ->].
  destruct (IH Hr) as [rs Hrs].
  destruct (utf8_encode_N r); [eauto | inversion Hrs; discriminate].
Qed.

(** A surrogate anywhere in the text makes [encode] raise. *)
Lemma utf8_encode_surrogate (a b : str) (c : N) :
  is_surrogate c = true -> utf8_encode (a ++ c :: b) = None.
Proof.
  intros Hc. unfold utf8_encode.
  assert (utf8_encode_N (a ++ c :: b) = None) as ->; [| reflexivity].
  induction a as [| x a IH]; simpl.
  - assert (utf8_encode_char c = None) as ->; [| reflexivity].
    revert Hc. unfold utf8_encode_char, is_surrogate.
    split_tests; simpl; intros; try discriminate; try reflexivity; lia.
  - rewrite IH. destruct (utf8_encode_char x); reflexivity.
Qed.

Lemma utf8_encode_app (a b : str) :
  utf8_encode (a ++ b) =
  match utf8_encode a, utf8_encode b with
  | Some x, Some y => Some (x ++ y)
  | _, _ => None
  end.
Proof.
  unfold utf8_encode.
  induction a as [| c a IH]; simpl.
  - destruct (utf8_encode_N b); reflexivity.
  - destruct (utf8_encode_char c) as [cs |]; [| reflexivity].
    revert IH.
    destruct (utf8_encode_N (a ++ b)), (utf8_encode_N a),
      (utf8_encode_N b); simpl; intros IH; try congruence.
    injection IH as IH. rewrite map_app, IH, map_app, <- app_assoc.
    reflexivity.
Qed.

End UnicodeFacts.

Module JsonFacts.
Import Encoder Decoder.
Local Open Scope N_scope.

Ltac decide_tests :=
  repeat match goal with
  | |- context [N.eqb ?a ?b] =>
    first [ replace (N.eqb a b) with true by (symmetry; apply N.eqb_eq; lia)
          | replace (N.eqb a b) with false by (symmetry; apply N.eqb_neq; lia) ]
  | |- context [N.ltb ?a ?b] =>
    first [ replace (N.ltb a b) with true by (symmetry; apply N.ltb_lt; lia)
          | replace (N.ltb a b) with false by (symmetry; apply N.ltb_ge; lia) ]
  | |- context [N.leb ?a ?b] =>
    first [ replace (N.leb a b) with true by (symmetry; apply N.leb_le; lia)
          | replace (N.leb a b) with false by (symmetry; apply N.leb_gt; lia) ]
  end.

Lemma scanstring_plain (c : N) (r : str) :
  32 <= c -> c <> 34 -> c <> 92 ->
  scanstring (c :: r) = push c (scanstring r).
Proof. intros. simpl. decide_tests. reflexivity. Qed.

Lemma scanstring_quote (r : str) : scanstring (34 :: r) = Some ([], r).
Proof. reflexivity. Qed.

Lemma scanstring_simple (e c' : N) (r : str) :
  e <> 117 -> simple_escape e = Some c' ->
  scanstring (92 :: e :: r) = push c' (scanstring r).
Proof.
  intros He Hs. cbn [scanstring].
  change (92 =? 34) with false. change (92 =? 92) with true. cbv iota.
  destruct (N.eqb_spec e 117); [contradiction |].
  rewrite Hs. reflexivity.
Qed.

Lemma hex4_low (c : N) :
  c < 32 -> hex4 48 48 (hex_digit (c / 16)) (hex_digit (c mod 16)) = Some c.
Proof.
  intros Hc.
  destruct c as [| p]; [reflexivity |].
  do 5 (try destruct p as [p | p |]); try reflexivity; lia.
Qed.

Lemma scanstring_u00 (c : N) (r : str) :
  c < 32 ->
  scanstring (92 :: 117 :: 48 :: 48 :: hex_digit (c / 16)
                :: hex_digit (c mod 16) :: r)
  = push c (scanstring r).
Proof.
  intros Hc. cbn [scanstring]. rewrite (hex4_low c Hc).
  change (92 =? 34) with false. change (92 =? 92) with true.
  change (117 =? 117) with true. cbv iota.
  assert (is_high_surrogate c = false) as ->.
  { unfold is_high_surrogate. decide_tests. reflexivity. }
  reflexivity.
Qed.

(** The decoder reads an escaped string back, whatever follows its closing
    quote. *)
Lemma scanstring_escape (s rest : str) :
  scanstring (escape s ++ 34 :: rest) = Some (s, rest).
Proof.
  induction s as [| c s IH]; [reflexivity |].
  unfold escape in *. simpl flat_map. rewrite <- app_assoc.
  unfold escape_char at 1.
  destruct (N.eqb_spec c 34) as [-> | H34];
    [cbn [app]; erewrite scanstring_simple by (discriminate || reflexivity);
     rewrite IH; reflexivity |].
  destruct (N.eqb_spec c 92) as [-> | H92];
    [cbn [app]; erewrite scanstring_simple by (discriminate || reflexivity);
     rewrite IH; reflexivity |].
  destruct (N.eqb_spec c 10) as [-> | H10];
    [cbn [app]; erewrite scanstring_simple by (discriminate || reflexivity);
     rewrite IH; reflexivity |].
  destruct (N.eqb_spec c 13) as [-> | H13];
    [cbn [app]; erewrite scanstring_simple by (discriminate || reflexivity);
     rewrite IH; reflexivity |].
  destruct (N.eqb_spec c 9) as [-> | H9];
    [cbn [app]; erewrite scanstring_simple by (discriminate || reflexivity);
     rewrite IH; reflexivity |].
  destruct (N.eqb_spec c 8) as [-> | H8];
    [cbn [app]; erewrite scanstring_simple by (discriminate || reflexivity);
     rewrite IH; reflexivity |].
  destruct (N.eqb_spec c 12) as [-> | H12];
    [cbn [app]; erewrite scanstring_simple by (discriminate || reflexivity);
     rewrite IH; reflexivity |].
  destruct (N.ltb_spec c 32) as [Hlt | Hge].
  - cbn [app]. rewrite scanstring_u00 by exact Hlt. rewrite IH. reflexivity.
  - cbn [app]. rewrite scanstring_plain by assumption. rewrite IH.
    reflexivity.
Qed.

End JsonFacts.

Module DumpFacts.
Import Encoder Decoder Layout JsonFacts.
Local Open Scope N_scope.

(** Brings the five attributes of a preset with [str_fields] into the
    form [PyStr _]. *)
Ltac str_preset p :=
  let n := fresh "n" in let a := fresh "a" in let b := fresh "b" in
  let m := fresh "m" in let s := fresh "s" in
  destruct p as [n a b m s];
  destruct n; try discriminate; destruct a; try discriminate;
  destruct b; try discriminate; destruct m; try discriminate;
  destruct s; try discriminate.

Section WithPlatform.
Context (P : Platform).

Lemma preset_chunks (p : ConfigPreset) :
  str_fields p = true ->
  concat (iterencode P 1 (Darkmode.to_dict p)) = preset_text p.
Proof.
  intros Hp. str_preset p.
  unfold preset_text, field_text. cbn. rewrite <- !app_assoc. cbn.
  reflexivity.
Qed.

Lemma tail_chunks (ps : list ConfigPreset) :
  forallb str_fields ps = true ->
  concat (list_chunks (scalar_text P) (iterencode P 1) (newline_indent 1)
            false (map Darkmode.to_dict ps)
          ++ [newline_indent 0; [93]])
  = tail_text ps.
Proof.
  induction ps as [| p ps IH]; [reflexivity |].
  intros [Hp Hps]%andb_true_iff.
  cbn [map list_chunks]. change (scalar_text P (Darkmode.to_dict p)) with (@None str).
  cbn [tail_text]. rewrite <- (IH Hps), <- (preset_chunks p Hp).
  cbn [app concat]. rewrite <- app_assoc, concat_app. reflexivity.
Qed.

(** The text [json.dump] writes for a list of presets. *)
Lemma presets_chunks (ps : list ConfigPreset) :
  forallb str_fields ps = true ->
  concat (iterencode P 0 (PyList (map Darkmode.to_dict ps))) = presets_text ps.
Proof.
  destruct ps as [| p ps]; [reflexivity |].
  intros [Hp Hps]%andb_true_iff.
  cbn [map iterencode list_chunks presets_text].
  change (scalar_text P (Darkmode.to_dict p)) with (@None str).
  rewrite <- (tail_chunks ps Hps), <- (preset_chunks p Hp).
  cbn [app concat]. rewrite <- app_assoc, concat_app. reflexivity.
Qed.

End WithPlatform.
End DumpFacts.

Module ParseFacts.
Import Encoder Decoder Layout JsonFacts DumpFacts.
Local Open Scope N_scope.

Lemma skip_ws_indent (n : nat) (c : N) (r : str) :
  is_ws c = false -> skip_ws (newline_indent n ++ c :: r) = c :: r.
Proof.
  intros Hc. unfold newline_indent. cbn [app skip_ws].
  change (is_ws 10) with true. cbv iota.
  induction (2 * n)%nat as [| k IH]; cbn [repeat app skip_ws].
  - rewrite Hc. reflexivity.
  - change (is_ws 32) with true. cbv iota. exact IH.
Qed.

Section WithPlatform.
Context (P : Platform).

Lemma scan_once_S (f : nat) (c : N) (r : str) :
  scan_once P (S f) (c :: r) =
  if c =? 34 then
    match scanstring r with
    | Some (t, r') => Scanned (PyStr t) r'
    | None => Invalid JSONDecodeError
    end
  else if c =? 123 then
    match skip_ws r with
    | d :: r1 =>
      if d =? 125 then Scanned (PyDict []) r1
      else if d =? 34 then object_items P f r1 []
      else Invalid JSONDecodeError
    | [] => Invalid JSONDecodeError
    end
  else if c =? 91 then
    match skip_ws r with
    | d :: r1 =>
      if d =? 93 then Scanned (PyList []) r1
      else array_items P f (d :: r1) []
    | [] => Invalid JSONDecodeError
    end
  else scan_atom P (c :: r).
Proof. reflexivity. Qed.

Lemma object_items_S (f : nat) (s : str) (acc : list (str * pyobj)) :
  object_items P (S f) s acc =
  match scanstring s with
  | None => Invalid JSONDecodeError
  | Some (key, r) =>
    match skip_ws r with
    | c :: r1 =>
      if c =? 58 then
        match scan_once P f (skip_ws r1) with
        | Scanned v r2 =>
          match skip_ws r2 with
          | d :: r3 =>
            if d =? 125 then
              Scanned (PyDict (Dict.of_pairs (acc ++ [(key, v)]))) r3
            else if d =? 44 then
              match skip_ws r3 with
              | q :: r4 =>
                if q =? 34 then object_items P f r4 (acc ++ [(key, v)])
                else Invalid JSONDecodeError
              | [] => Invalid JSONDecodeError
              end
            else Invalid JSONDecodeError
          | [] => Invalid JSONDecodeError
          end
        | Invalid e => Invalid e
        | Starved => Starved
        end
      else Invalid JSONDecodeError
    | [] => Invalid JSONDecodeError
    end
  end.
Proof. reflexivity. Qed.

Lemma array_items_S (f : nat) (s : str) (acc : list pyobj) :
  array_items P (S f) s acc =
  match scan_once P f s with
  | Scanned v r =>
    match skip_ws r with
    | d :: r1 =>
      if d =? 93 then Scanned (PyList (acc ++ [v])) r1
      else if d =? 44 then array_items P f (skip_ws r1) (acc ++ [v])
      else Invalid JSONDecodeError
    | [] => Invalid JSONDecodeError
    end
  | Invalid e => Invalid e
  | Starved => Starved
  end.
Proof. reflexivity. Qed.

(** An encoded string is scanned back as that string. *)
Lemma scan_once_string (f : nat) (v rest : str) :
  scan_once P (S f) (34 :: escape v ++ 34 :: rest) = Scanned (PyStr v) rest.
Proof. rewrite scan_once_S, scanstring_escape. reflexivity. Qed.

(** A key and its string value, with another key after them. *)
Lemma object_items_more (f : nat) (k v tail : str) (acc : list (str * pyobj)) :
  object_items P (S (S f))
    (escape k ++ 34 :: 58 :: 32 :: 34 :: escape v ++ 34 :: 44
       :: newline_indent 2 ++ 34 :: tail) acc
  = object_items P (S f) tail (acc ++ [(k, PyStr v)]).
Proof.
  rewrite object_items_S, scanstring_escape.
  change (skip_ws (58 :: 32 :: 34 :: ?x)) with (58 :: 32 :: 34 :: x).
  cbv iota beta. change (58 =? 58) with true. cbv iota.
  change (skip_ws (32 :: 34 :: ?x)) with (34 :: x).
  rewrite scan_once_string.
  change (skip_ws (44 :: ?x)) with (44 :: x).
  cbv iota beta. change (44 =? 125) with false. change (44 =? 44) with true.
  cbv iota. rewrite skip_ws_indent by reflexivity.
  reflexivity.
Qed.

(** The last key of an object and its string value. *)
Lemma object_items_last (f : nat) (k v rest : str) (acc : list (str * pyobj)) :
  object_items P (S (S f))
    (escape k ++ 34 :: 58 :: 32 :: 34 :: escape v ++ 34
       :: newline_indent 1 ++ 125 :: rest) acc
  = Scanned (PyDict (Dict.of_pairs (acc ++ [(k, PyStr v)]))) rest.
Proof.
  rewrite object_items_S, scanstring_escape.
  change (skip_ws (58 :: 32 :: 34 :: ?x)) with (58 :: 32 :: 34 :: x).
  cbv iota beta. change (58 =? 58) with true. cbv iota.
  change (skip_ws (32 :: 34 :: ?x)) with (34 :: x).
  rewrite scan_once_string.
  rewrite skip_ws_indent by reflexivity.
  reflexivity.
Qed.

(** A preset is scanned back as the dictionary it was written from. *)
Lemma scan_once_preset (f : nat) (p : ConfigPreset) (rest : str) :
  str_fields p = true ->
  scan_once P (7 + f) (preset_text p ++ rest)
  = Scanned (Darkmode.to_dict p) rest.
Proof.
  intros Hp. str_preset p.
  unfold preset_text, field_text, value_text, encode_basestring.
  cbn [name auth_token base_url model small_fast_model].
  repeat (rewrite <- ?app_assoc; cbn [app]).
  change (7 + f)%nat with (S (6 + f)). rewrite scan_once_S.
  change (123 =? 34) with false. change (123 =? 123) with true. cbv iota.
  rewrite skip_ws_indent by reflexivity.
  change (34 =? 125) with false. change (34 =? 34) with true. cbv iota.
  change (6 + f)%nat with (S (S (4 + f))). rewrite object_items_more.
  change (S (4 + f)) with (S (S (3 + f))). rewrite object_items_more.
  change (S (3 + f)) with (S (S (2 + f))). rewrite object_items_more.
  change (S (2 + f)) with (S (S (1 + f))). rewrite object_items_more.
  change (S (1 + f)) with (S (S f)). rewrite object_items_last.
  reflexivity.
Qed.

(** The presets after the first, up to the closing bracket. *)
Lemma array_items_presets (ps : list ConfigPreset) :
  forall (f : nat) (p : ConfigPreset) (acc : list pyobj) (rest : str),
  str_fields p = true -> forallb str_fields ps = true ->
  array_items P (length ps + 8 + f) (preset_text p ++ tail_text ps ++ rest) acc
  = Scanned (PyList (acc ++ map Darkmode.to_dict (p :: ps))) rest.
Proof.
  induction ps as [| q ps IH]; intros f p acc rest Hp Hps.
  - change (length [] + 8 + f)%nat with (S (7 + f)).
    rewrite array_items_S, scan_once_preset by exact Hp.
    cbn [tail_text]. rewrite <- app_assoc. cbn [app].
    rewrite skip_ws_indent by reflexivity. reflexivity.
  - apply andb_true_iff in Hps as [Hq Hps].
    change (length (q :: ps) + 8 + f)%nat with (S (length ps + 8 + f)).
    rewrite array_items_S.
    replace (length ps + 8 + f)%nat with (7 + (length ps + 1 + f))%nat by lia.
    rewrite scan_once_preset by exact Hp.
    cbn [tail_text app].
    change (skip_ws (44 :: ?x)) with (44 :: x).
    cbv iota beta. change (44 =? 93) with false. change (44 =? 44) with true.
    cbv iota. rewrite <- !app_assoc.
    assert (Hhead : exists x, preset_text q = 123 :: x) by (eexists; reflexivity).
    destruct Hhead as [x Hx]. rewrite Hx at 1. cbn [app].
    rewrite skip_ws_indent by reflexivity.
    change (123 :: x ++ tail_text ps ++ rest)
      with ((123 :: x) ++ tail_text ps ++ rest).
    rewrite <- Hx.
    replace (7 + (length ps + 1 + f))%nat with (length ps + 8 + f)%nat by lia.
    rewrite IH by assumption.
    rewrite <- app_assoc. reflexivity.
Qed.

Lemma presets_text_length (ps : list ConfigPreset) :
  (length ps <= length (presets_text ps))%nat.
Proof.
  assert (Htail : forall l, (length l <= length (tail_text l))%nat).
  { induction l as [| q l IH]; cbn [tail_text length]; [lia |].
    rewrite !length_app. lia. }
  destruct ps as [| p ps]; cbn [presets_text length]; [lia |].
  rewrite !length_app. specialize (Htail ps). lia.
Qed.

Lemma preset_text_length (p : ConfigPreset) :
  (7 <= length (preset_text p))%nat.
Proof.
  unfold preset_text. cbn [length]. rewrite !length_app.
  cbn [length newline_indent repeat Nat.mul Nat.add]. lia.
Qed.

(** [json.loads] reads the written presets back. *)
Lemma loads_presets_text (ps : list ConfigPreset) :
  forallb str_fields ps = true ->
  loads P (presets_text ps) = Ok (PyList (map Darkmode.to_dict ps)).
Proof.
  intros Hps. unfold loads.
  destruct ps as [| p ps]; [reflexivity |].
  apply andb_true_iff in Hps as [Hp Hps].
  pose proof (presets_text_length (p :: ps)) as Hlen.
  pose proof (preset_text_length p) as Hp7.
  remember (length (presets_text (p :: ps))) as n eqn:Hn.
  cbn [presets_text] in *.
  change (skip_ws (91 :: ?x)) with (91 :: x).
  cbn [length] in Hn, Hlen. rewrite !length_app in Hn.
  replace (2 * n + 1)%nat
    with (S (length ps + 8 + (2 * n - length ps - 8)))%nat by lia.
  rewrite scan_once_S.
  change (91 =? 34) with false. change (91 =? 123) with false.
  change (91 =? 91) with true. cbv iota.
  assert (Hhead : exists x, preset_text p = 123 :: x) by (eexists; reflexivity).
  destruct Hhead as [x Hx]. rewrite Hx at 1. cbn [app].
  rewrite skip_ws_indent by reflexivity.
  change (123 =? 93) with false. cbv iota.
  change (123 :: x ++ tail_text ps) with ((123 :: x) ++ tail_text ps).
  rewrite <- Hx.
  rewrite <- (app_nil_r (tail_text ps)).
  rewrite array_items_presets by assumption.
  reflexivity.
Qed.

End WithPlatform.
End ParseFacts.

Module TextFacts.
Import Unicode Encoder Layout Runtime UnicodeFacts.
Local Open Scope N_scope.

Lemma clean_scalar (c : N) : clean c = true -> is_scalar c = true.
Proof. unfold clean. intros [H _]%andb_true_iff. exact H. Qed.

Lemma clean_text (s : str) : forallb clean s = true -> is_text s = true.
Proof.
  unfold is_text. induction s as [| c s IH]; cbn [forallb]; [reflexivity |].
  intros [Hc Hs]%andb_true_iff. rewrite (clean_scalar c Hc), (IH Hs).
  reflexivity.
Qed.

Lemma clean_escape_char (c : N) :
  is_scalar c = true -> forallb clean (escape_char c) = true.
Proof.
  unfold escape_char, hex_digit, clean, is_scalar, is_surrogate.
  intros Hc.
  destruct (N.eqb_spec c 34); [reflexivity |].
  destruct (N.eqb_spec c 92); [reflexivity |].
  destruct (N.eqb_spec c 10); [reflexivity |].
  destruct (N.eqb_spec c 13); [reflexivity |].
  destruct (N.eqb_spec c 9); [reflexivity |].
  destruct (N.eqb_spec c 8); [reflexivity |].
  destruct (N.eqb_spec c 12); [reflexivity |].
  destruct (N.ltb_spec c 32) as [Hlt | Hge].
  - destruct c as [| p]; [reflexivity |].
    do 5 (try destruct p as [p | p |]); try reflexivity; lia.
  - cbn [forallb]. rewrite Hc.
    destruct (N.eqb_spec c 13); [contradiction | reflexivity].
Qed.

Lemma clean_escape (s : str) :
  is_text s = true -> forallb clean (escape s) = true.
Proof.
  unfold is_text, escape. induction s as [| c s IH]; [reflexivity |].
  cbn [forallb flat_map]. intros [Hc Hs]%andb_true_iff.
  rewrite forallb_app, (clean_escape_char c Hc), (IH Hs). reflexivity.
Qed.

Lemma clean_indent (n : nat) : forallb clean (newline_indent n) = true.
Proof.
  unfold newline_indent. cbn [forallb].
  induction (2 * n)%nat as [| k IH]; [reflexivity |].
  cbn [repeat forallb] in *. exact IH.
Qed.

Lemma clean_field (k : str) (v : pyobj) :
  is_text k = true -> is_text_obj v = true ->
  forallb clean (field_text k v) = true.
Proof.
  intros Hk Hv. destruct v; try discriminate.
  unfold field_text, value_text, encode_basestring.
  cbn [forallb app]. rewrite !forallb_app. cbn [forallb].
  rewrite !forallb_app, !clean_escape by assumption. reflexivity.
Qed.

Lemma clean_preset (p : ConfigPreset) :
  text_fields p = true -> forallb clean (preset_text p) = true.
Proof.
  unfold text_fields.
  intros [[[[Hn Ha]%andb_true_iff Hb]%andb_true_iff Hm]%andb_true_iff
            Hs]%andb_true_iff.
  unfold preset_text. cbn [forallb].
  repeat (rewrite ?forallb_app, ?clean_indent, ?clean_field
            by (assumption || reflexivity); cbn [forallb andb]).
  reflexivity.
Qed.

Lemma clean_presets (ps : list ConfigPreset) :
  forallb text_fields ps = true -> forallb clean (presets_text ps) = true.
Proof.
  assert (Htail : forall l, forallb text_fields l = true ->
                            forallb clean (tail_text l) = true).
  { induction l as [| q l IH]; [reflexivity |].
    cbn [forallb tail_text]. intros [Hq Hl]%andb_true_iff.
    rewrite !forallb_app, clean_indent, clean_preset, IH by assumption.
    reflexivity. }
  destruct ps as [| p ps]; [reflexivity |].
  cbn [forallb presets_text]. intros [Hp Hps]%andb_true_iff.
  rewrite !forallb_app, clean_indent, clean_preset, Htail by assumption.
  reflexivity.
Qed.

Lemma text_fields_str (p : ConfigPreset) :
  text_fields p = true -> str_fields p = true.
Proof.
  unfold text_fields, str_fields.
  intros [[[[Hn Ha]%andb_true_iff Hb]%andb_true_iff Hm]%andb_true_iff
            Hs]%andb_true_iff.
  destruct p as [n a b m s]; cbn in *.
  destruct n; try discriminate; destruct a; try discriminate;
    destruct b; try discriminate; destruct m; try discriminate;
    destruct s; try discriminate; reflexivity.
Qed.

Lemma text_fields_all_str (ps : list ConfigPreset) :
  forallb text_fields ps = true -> forallb str_fields ps = true.
Proof.
  induction ps as [| p ps IH]; [reflexivity |].
  cbn [forallb]. intros [Hp Hps]%andb_true_iff.
  rewrite (text_fields_str p Hp), (IH Hps). reflexivity.
Qed.

Section WithPlatform.
Context (P : Platform).

Lemma translate_out_app (a b : str) :
  translate_out P (a ++ b) = translate_out P a ++ translate_out P b.
Proof.
  unfold translate_out. destruct (win32 P); [| reflexivity].
  apply flat_map_app.
Qed.

(** Reading undoes the newline translation of writing, on text without
    carriage returns. *)
Lemma universal_newlines_translate_out (t : str) :
  forallb clean t = true -> universal_newlines (translate_out P t) = t.
Proof.
  unfold translate_out, clean.
  destruct (win32 P); induction t as [| c t IH]; try reflexivity;
    cbn [forallb flat_map];
    intros [[_ Hc]%andb_true_iff Ht]%andb_true_iff; specialize (IH Ht);
    destruct (N.eqb_spec c 13) as [| H13]; try discriminate.
  - destruct (N.eqb_spec c 10) as [-> | H10]; cbn [app universal_newlines].
    + change (13 =? 13) with true. change (10 =? 10) with true. cbv iota.
      rewrite IH. reflexivity.
    + destruct (N.eqb_spec c 13); [contradiction |].
      rewrite IH. reflexivity.
  - cbn [universal_newlines].
    destruct (N.eqb_spec c 13); [contradiction |].
    rewrite IH. reflexivity.
Qed.

Lemma translate_out_text (t : str) :
  is_text t = true -> is_text (translate_out P t) = true.
Proof.
  unfold translate_out, is_text. destruct (win32 P); [| tauto].
  induction t as [| c t IH]; [reflexivity |].
  cbn [forallb flat_map]. intros [Hc Ht]%andb_true_iff.
  rewrite forallb_app, (IH Ht).
  destruct (N.eqb_spec c 10); cbn [forallb]; [reflexivity |].
  rewrite Hc. reflexivity.
Qed.

(** Chunks that can all be encoded are all written. *)
Lemma write_chunks_ok (chunks : list str) (written bs : list Byte.byte) :
  utf8_encode (translate_out P (concat chunks)) = Some bs ->
  write_chunks P chunks written = (Ok tt, written ++ bs).
Proof.
  revert written bs. induction chunks as [| c r IH]; intros written bs.
  - unfold translate_out. destruct (win32 P); cbn; intros [= <-];
      rewrite app_nil_r; reflexivity.
  - cbn [concat write_chunks]. rewrite translate_out_app, utf8_encode_app.
    destruct (utf8_encode (translate_out P c)) as [x |]; [| discriminate].
    destruct (utf8_encode (translate_out P (concat r))) as [y |] eqn:Hy;
      [| discriminate].
    intros [= <-]. rewrite (IH _ y eq_refl), app_assoc. reflexivity.
Qed.

(** A chunk that cannot be encoded makes the write raise. *)
Lemma write_chunks_raise (chunks : list str) (written : list Byte.byte) :
  utf8_encode (translate_out P (concat chunks)) = None ->
  fst (write_chunks P chunks written) = Raise UnicodeEncodeError.
Proof.
  revert written. induction chunks as [| c r IH]; intros written.
  - unfold translate_out. destruct (win32 P); discriminate.
  - cbn [concat write_chunks]. rewrite translate_out_app, utf8_encode_app.
    destruct (utf8_encode (translate_out P c)) as [x |]; [| reflexivity].
    destruct (utf8_encode (translate_out P (concat r))) as [y |] eqn:Hy;
      [discriminate |].
    intros _. apply IH. reflexivity.
Qed.

End WithPlatform.
End TextFacts.

Module DecoderFacts.
Import Decoder.
Local Open Scope nat_scope.

Lemma skip_ws_length (s : str) : length (skip_ws s) <= length s.
Proof.
  induction s as [| c s IH]; cbn [skip_ws length]; [lia |].
  destruct (is_ws c); cbn [length]; lia.
Qed.

Lemma skip_ws_cons_length (s r : str) (c : N) :
  skip_ws s = c :: r -> length r < length s.
Proof.
  intros H. pose proof (skip_ws_length s) as Hs. rewrite H in Hs.
  cbn [length] in Hs. lia.
Qed.

Lemma strip_prefix_length (p s r : str) :
  strip_prefix p s = Some r -> length r + length p = length s.
Proof.
  revert s. induction p as [| a p IH]; intros s; cbn [strip_prefix length].
  - intros [= ->]. lia.
  - destruct s as [| b s]; [discriminate |].
    destruct (a =? b)%N; [| discriminate].
    intros H%IH. cbn [length]. lia.
Qed.

Lemma push_Some (c : N) (o : option (str * str)) (t r : str) :
  push c o = Some (t, r) -> exists t', o = Some (t', r) /\ t = c :: t'.
Proof.
  destruct o as [[t' r'] |]; [| discriminate].
  intros [= <- <-]. eauto.
Qed.

(** [scanstring] consumes at least the closing quote. *)
Lemma scanstring_shorter (s t r : str) :
  scanstring s = Some (t, r) -> length r < length s.
Proof.
  revert t r. induction s as [s IH] using (induction_ltof1 _ (@length N)).
  unfold ltof in IH. intros t r.
  assert (Hrec : forall c s' t' r', length s' < length s ->
            push c (scanstring s') = Some (t', r') -> length r' < length s').
  { intros c s' t' r' Hlt (t'' & Hs & _)%push_Some. eapply IH; eauto. }
  destruct s as [| c s]; [discriminate |]. cbn [scanstring].
  destruct (c =? 34)%N; [intros [= <- <-]; cbn [length]; lia |].
  destruct (c =? 92)%N.
  - destruct s as [| e r1]; [discriminate |].
    destruct (e =? 117)%N.
    + destruct r1 as [| h1 [| h2 [| h3 [| h4 r2]]]]; try discriminate.
      destruct (hex4 h1 h2 h3 h4) as [u |]; [| discriminate].
      assert (Hplain : forall t' r', push u (scanstring r2) = Some (t', r') ->
                length r' < length (c :: e :: h1 :: h2 :: h3 :: h4 :: r2)).
      { intros t' r' H%Hrec; cbn [length] in *; lia. }
      destruct (is_high_surrogate u); [| apply Hplain].
      destruct r2 as [| b [| u' [| l1 [| l2 [| l3 [| l4 r3]]]]]];
        try apply Hplain.
      destruct (low_escape _) as [[lo x] |]; [| apply Hplain].
      intros H%Hrec; cbn [length] in *; lia.
    + destruct (simple_escape e); [| discriminate].
      intros H%Hrec; cbn [length] in *; lia.
  - destruct (c <? 32)%N; [discriminate |].
    intros H%Hrec; cbn [length] in *; lia.
Qed.

Lemma span_digits_length (s : str) :
  length (snd (span_digits s)) <= length s.
Proof.
  induction s as [| c s IH]; cbn [span_digits]; [cbn; lia |].
  destruct (is_digit c); [| cbn; lia].
  destruct (span_digits s) as [ds r']. cbn [snd length] in *. lia.
Qed.

Lemma match_integer_shorter (s lit r : str) :
  match_integer s = Some (lit, r) -> length r < length s.
Proof.
  unfold match_integer.
  assert (Hcore : forall sign s1,
    match s1 with
    | [] => None
    | d :: r0 =>
      if (d =? 48)%N then Some (sign ++ [48%N], r0)
      else if is_digit d then
        let '(ds, r') := span_digits r0 in Some (sign ++ d :: ds, r')
      else None
    end = Some (lit, r) -> length r < length s1).
  { intros sign [| d r0]; [discriminate |].
    destruct (d =? 48)%N; [intros [= <- <-]; cbn; lia |].
    destruct (is_digit d); [| discriminate].
    pose proof (span_digits_length r0) as Hl.
    destruct (span_digits r0) as [ds r']. intros [= <- <-].
    cbn [snd length] in *. lia. }
  destruct s as [| c s]; [discriminate |].
  destruct (c =? 45)%N; intros H;
    [apply (Hcore [45%N] s) in H | apply (Hcore [] (c :: s)) in H];
    cbn [length] in *; lia.
Qed.

Lemma match_frac_length (s : str) :
  length (snd (match_frac s)) <= length s.
Proof.
  unfold match_frac. destruct s as [| p [| d r]]; try (cbn; lia).
  destruct ((p =? 46)%N && is_digit d); [| cbn; lia].
  pose proof (span_digits_length r) as Hl.
  destruct (span_digits r) as [ds r']. cbn [snd length] in *. lia.
Qed.

Lemma match_exp_length (s : str) :
  length (snd (match_exp s)) <= length s.
Proof.
  unfold match_exp. destruct s as [| e r]; [cbn; lia |].
  destruct ((e =? 101)%N || (e =? 69)%N); [| cbn; lia].
  destruct r as [| g [| d r1]]; [cbn; lia | |].
  - destruct (is_digit g); cbn; lia.
  - destruct (((g =? 45)%N || (g =? 43)%N) && is_digit d).
    + pose proof (span_digits_length r1) as Hl.
      destruct (span_digits r1) as [ds r']. cbn [snd length] in *. lia.
    + destruct (is_digit g); [| cbn; lia].
      pose proof (span_digits_length (d :: r1)) as Hl.
      destruct (span_digits (d :: r1)) as [ds r'].
      cbn [snd length] in *. lia.
Qed.

Lemma match_number_shorter (s lit r : str) :
  match_number s = Some (lit, r) -> length r < length s.
Proof.
  unfold match_number.
  destruct (match_integer s) as [[i r0] |] eqn:Hi; [| discriminate].
  apply match_integer_shorter in Hi.
  pose proof (match_frac_length r0) as Hf.
  destruct (match_frac r0) as [f r1].
  pose proof (match_exp_length r1) as Hx.
  destruct (match_exp r1) as [x r2].
  intros [= <- <-]. cbn [snd] in *. lia.
Qed.

Section WithPlatform.
Context (P : Platform).

Lemma scan_atom_shorter (s : str) (v : pyobj) (r : str) :
  scan_atom P s = Scanned v r -> length r < length s.
Proof.
  unfold scan_atom.
  repeat match goal with
  | |- context [strip_prefix ?p s] =>
    let H := fresh "H" in
    destruct (strip_prefix p s) eqn:H;
      [apply strip_prefix_length in H; cbn in H;
       intros [= <- <-]; lia |]
  | |- context [match_number s] =>
    let H := fresh "H" in
    destruct (match_number s) as [[lit r0] |] eqn:H;
      [apply match_number_shorter in H;
       destruct (number_error P lit); [discriminate |];
       intros [= <- <-]; lia |]
  end.
  discriminate.
Qed.

Lemma scan_atom_fed (s : str) : scan_atom P s <> Starved.
Proof.
  unfold scan_atom.
  repeat match goal with
  | |- context [strip_prefix ?p s] => destruct (strip_prefix p s)
  | |- context [match_number s] => destruct (match_number s) as [[lit r0] |]
  | |- context [number_error P ?l] => destruct (number_error P l)
  end; discriminate.
Qed.

(** Opens the next test of a scanner and keeps what it says about
    lengths. *)
Ltac scan_step :=
  match goal with
  | |- context [match scanstring ?s with _ => _ end] =>
    let H := fresh "Hstr" in
    destruct (scanstring s) as [[? ?] |] eqn:H;
      [apply scanstring_shorter in H |]
  | |- context [match skip_ws ?s with _ => _ end] =>
    let H := fresh "Hws" in
    destruct (skip_ws s) as [| ? ?] eqn:H;
      [| apply skip_ws_cons_length in H]
  | |- context [if (?a =? ?b)%N then _ else _] => destruct (a =? b)%N
  end.

(** Closes a leaf: the result is in hand, or an induction hypothesis
    bounds it. *)
Ltac scan_done :=
  first
    [ intros [= <- <-]; cbn [length] in *; lia
    | let H := fresh "H" in
      intros H;
      match goal with
      | IH : forall s v r, _ -> _ < _ |- _ => apply IH in H
      | IH : forall s acc v r, _ -> _ < _ |- _ => apply IH in H
      end;
      cbn [length] in *; lia ].

Ltac fed_done :=
  first
    [ discriminate
    | apply scan_atom_fed
    | match goal with
      | IH : forall s acc, _ -> _ <> Starved |- _ =>
        apply IH; cbn [length] in *; lia
      end ].

Lemma scan_shorter (fuel : nat) :
  (forall s v r, scan_once P fuel s = Scanned v r -> length r < length s)
  /\ (forall s acc v r,
        object_items P fuel s acc = Scanned v r -> length r < length s)
  /\ (forall s acc v r,
        array_items P fuel s acc = Scanned v r -> length r < length s).
Proof.
  induction fuel as [| f (IHs & IHo & IHa)]; [repeat split; discriminate |].
  pose proof (scan_atom_shorter) as IHt.
  repeat split.
  - intros [| c r0] v r; [discriminate |].
    rewrite ParseFacts.scan_once_S.
    repeat scan_step; try discriminate; scan_done.
  - intros s acc v r. rewrite ParseFacts.object_items_S.
    repeat scan_step; try discriminate.
    match goal with
    | |- context [scan_once P f (skip_ws ?x)] =>
      pose proof (skip_ws_length x);
      destruct (scan_once P f (skip_ws x)) as [v2 r2 | |] eqn:Hv;
        [apply IHs in Hv | discriminate | discriminate]
    end.
    repeat scan_step; try discriminate; scan_done.
  - intros s acc v r. rewrite ParseFacts.array_items_S.
    destruct (scan_once P f s) as [v2 r2 | |] eqn:Hv;
      [apply IHs in Hv | discriminate | discriminate].
    repeat scan_step; try discriminate;
      try match goal with
      | |- context [skip_ws ?x] => pose proof (skip_ws_length x)
      end; scan_done.
Qed.

(** With twice the length of the text as fuel, the scanner is never
    starved. *)
Lemma scan_fed (fuel : nat) :
  (forall s, 2 * length s + 1 <= fuel -> scan_once P fuel s <> Starved)
  /\ (forall s acc,
        2 * length s + 2 <= fuel -> object_items P fuel s acc <> Starved)
  /\ (forall s acc,
        2 * length s + 2 <= fuel -> array_items P fuel s acc <> Starved).
Proof.
  induction fuel as [| f (IHs & IHo & IHa)]; [repeat split; intros; lia |].
  destruct (scan_shorter f) as (Ls & Lo & La).
  repeat split.
  - intros [| c r0] Hf; [discriminate |].
    rewrite ParseFacts.scan_once_S. cbn [length] in Hf.
    repeat scan_step; fed_done.
  - intros s acc Hf. rewrite ParseFacts.object_items_S.
    repeat scan_step; try discriminate.
    match goal with
    | |- context [scan_once P f (skip_ws ?x)] =>
      pose proof (skip_ws_length x);
      pose proof (IHs (skip_ws x) ltac:(lia));
      destruct (scan_once P f (skip_ws x)) as [v2 r2 | |] eqn:Hv;
        [apply Ls in Hv | discriminate | contradiction]
    end.
    repeat scan_step; fed_done.
  - intros s acc Hf. rewrite ParseFacts.array_items_S.
    pose proof (IHs s ltac:(lia)).
    destruct (scan_once P f s) as [v2 r2 | |] eqn:Hv;
      [apply Ls in Hv | discriminate | contradiction].
    repeat scan_step;
      try match goal with
      | |- context [skip_ws ?x] => pose proof (skip_ws_length x)
      end; fed_done.
Qed.

(** [loads] gives the scanner all the fuel it can use: the answer
    [Starved] does not occur. *)
Lemma loads_fed (s : str) :
  scan_once P (2 * length s + 1) (skip_ws s) <> Starved.
Proof.
  pose proof (skip_ws_length s).
  apply (scan_fed (2 * length s + 1)). lia.
Qed.

End WithPlatform.
End DecoderFacts.

(** * The store *)

Module DictFacts.
Import Dict.

Lemma str_eqb_eq (a b : str) : str_eqb a b = true <-> a = b.
Proof.
  revert b. induction a as [| x a IH]; intros [| y b]; cbn [str_eqb];
    try (split; [discriminate | congruence]); [tauto |].
  rewrite andb_true_iff, N.eqb_eq, IH. split; [intros [-> ->] | intros [= -> ->]]; auto.
Qed.

Lemma str_eqb_refl (a : str) : str_eqb a a = true.
Proof. apply str_eqb_eq. reflexivity. Qed.

Lemma str_eqb_neq (a b : str) : a <> b -> str_eqb a b = false.
Proof.
  intros Hab. destruct (str_eqb a b) eqn:H; [| reflexivity].
  apply str_eqb_eq in H. contradiction.
Qed.

(** Writing a key leaves the other keys as they were. *)
Lemma getitem_setitem_ne (d : list (str * pyobj)) (k k' : str) (v : pyobj) :
  k <> k' -> getitem (setitem d k v) k' = getitem d k'.
Proof.
  intros Hk. induction d as [| [a x] d IH]; cbn [setitem getitem].
  - rewrite str_eqb_neq by exact Hk. reflexivity.
  - destruct (str_eqb a k) eqn:Hak; cbn [getitem].
    + apply str_eqb_eq in Hak as ->.
      rewrite str_eqb_neq by exact Hk. reflexivity.
    + rewrite IH. reflexivity.
Qed.

Lemma getitem_setitem_eq (d : list (str * pyobj)) (k : str) (v : pyobj) :
  getitem (setitem d k v) k = Some v.
Proof.
  induction d as [| [a x] d IH]; cbn [setitem getitem].
  - rewrite str_eqb_refl. reflexivity.
  - destruct (str_eqb a k) eqn:Hak; cbn [getitem]; rewrite Hak; auto.
Qed.

End DictFacts.

Module ListFacts.
Import Runtime.

(** Within range, [pop] removes the item at the index. *)
Lemma list_pop_in_range {A} (l : list A) (i : Z) :
  (0 <= i < Z.of_nat (length l))%Z ->
  list_pop l i = Ok (delete (Z.to_nat i) l).
Proof.
  intros Hi. unfold list_pop.
  destruct (Z.ltb_spec i 0); [lia |].
  destruct (Z.leb_spec 0 i); [| lia].
  destruct (Z.ltb_spec i (Z.of_nat (length l))); [| lia].
  reflexivity.
Qed.

Lemma lookup_delete_below {A} (l : list A) (i j : nat) :
  j < i -> delete i l !! j = l !! j.
Proof. intros. apply list_lookup_delete_lt. assumption. Qed.

Lemma lookup_delete_above {A} (l : list A) (i j : nat) :
  i <= j -> delete i l !! j = l !! S j.
Proof. intros. apply list_lookup_delete_ge. assumption. Qed.

End ListFacts.

(** * Deleting a preset *)

(** C2. For an index within range, [delete_preset] removes exactly the
    preset at that index: the collection gets one shorter, the presets
    before the index stay where they are, every later preset moves down by
    one, and the collection is saved.  In particular deleting index 1 from
    [A, B, C] leaves [A, C], and deleting index 1 again leaves [A]. *)
Theorem delete_preset_shifts :
  (forall (P : Platform) (self : ConfigManager) (index : Z) (w : World),
     (0 <= index < Z.of_nat (length (presets self)))%Z ->
     let res := Darkmode.delete_preset P self index w in
     let self1 := manager_after res in
     length (presets self1) = (length (presets self) - 1)%nat
     /\ (forall j : nat, (j < Z.to_nat index)%nat ->
           presets self1 !! j = presets self !! j)
     /\ (forall j : nat, (Z.to_nat index <= j)%nat ->
           presets self1 !! j = presets self !! S j)
     /\ config_file self1 = config_file self
     /\ (outcome res, world_after res)
        = Darkmode._save_presets P self1 (presets self1) w)
  /\ (forall (P : Platform) (file : str) (A B C : ConfigPreset) (w : World),
        let self := {| config_file := file; presets := [A; B; C] |} in
        let res1 := Darkmode.delete_preset P self 1 w in
        let res2 :=
          Darkmode.delete_preset P (manager_after res1) 1 (world_after res1) in
        presets (manager_after res1) = [A; C]
        /\ presets (manager_after res2) = [A]).
Proof.
  split.
  - intros P self index w Hi. unfold Darkmode.delete_preset.
    destruct (Z.leb_spec 0 index); [| lia].
    destruct (Z.ltb_spec index (Z.of_nat (length (presets self)))); [| lia].
    cbn [andb]. rewrite ListFacts.list_pop_in_range by exact Hi.
    cbn [presets config_file].
    destruct (Darkmode._save_presets P _ _ w) as [r w1] eqn:Hsave.
    cbn [fst snd presets config_file].
    repeat split.
    + rewrite length_delete; [reflexivity |].
      apply lookup_lt_is_Some_2. lia.
    + intros j Hj. apply ListFacts.lookup_delete_below. exact Hj.
    + intros j Hj. apply ListFacts.lookup_delete_above. exact Hj.
    + symmetry. exact Hsave.
  - intros P file A B C w. cbv zeta.
    unfold Darkmode.delete_preset. cbn [presets length config_file].
    change ((0 <=? 1) && (1 <? Z.of_nat 3))%Z with true.
    change (Runtime.list_pop [A; B; C] 1) with (Ok [A; C]).
    cbv iota beta. cbn [presets config_file].
    destruct (Darkmode._save_presets P _ [A; C] w) as [r w1].
    cbn [fst snd presets length config_file].
    change ((0 <=? 1) && (1 <? Z.of_nat 2))%Z with true.
    change (Runtime.list_pop [A; C] 1) with (Ok [A]).
    cbv iota beta. cbn [presets config_file].
    destruct (Darkmode._save_presets P _ [A] w1) as [r' w2].
    split; reflexivity.
Qed.

Lemma delete_preset_shifts_witness :
  presets (manager_after
    (Darkmode.delete_preset Sample.posix Sample.manager 1 Sample.empty_world))
  !! 1%nat = Some (Sample.preset "C").
Proof.
  destruct delete_preset_shifts as [Hgen _].
  destruct (Hgen Sample.posix Sample.manager 1%Z Sample.empty_world)
    as (_ & _ & Hup & _).
  - cbn. lia.
  - rewrite (Hup 1%nat); [reflexivity | cbn; lia].
Defined.

(** C3. For an index outside the range, negative or at or past the
    length, [delete_preset] changes neither the collection nor the world
    and raises nothing, in both front ends. *)
Theorem delete_preset_out_of_range
  (P : Platform) (self : ConfigManager) (index : Z) (w : World) :
  (index < 0 \/ Z.of_nat (length (presets self)) <= index)%Z ->
  Darkmode.delete_preset P self index w = (Ok tt, self, w)
  /\ PyQt6.delete_preset P self index w = (Ok tt, self, w).
Proof.
  intros Hi. unfold Darkmode.delete_preset, PyQt6.delete_preset.
  destruct (Z.leb_spec 0 index);
    destruct (Z.ltb_spec index (Z.of_nat (length (presets self))));
    cbn [andb]; try lia; split; reflexivity.
Qed.

Lemma delete_preset_out_of_range_witness :
  Darkmode.delete_preset Sample.posix Sample.manager 5 Sample.empty_world
  = (Ok tt, Sample.manager, Sample.empty_world)
  /\ PyQt6.delete_preset Sample.posix Sample.manager (-1) Sample.empty_world
     = (Ok tt, Sample.manager, Sample.empty_world).
Proof.
  split.
  - apply (delete_preset_out_of_range Sample.posix Sample.manager 5).
    right. cbn. lia.
  - apply (delete_preset_out_of_range Sample.posix Sample.manager (-1)).
    left. lia.
Defined.

(** * Saving and loading *)

Module StoreFacts.
Import Unicode Runtime Layout UnicodeFacts TextFacts.

Lemma from_dict_to_dict (p : ConfigPreset) :
  Darkmode.from_dict (Darkmode.to_dict p) = Ok p.
Proof. destruct p. reflexivity. Qed.

Lemma comprehension_from_dict (ps : list ConfigPreset) :
  comprehension Darkmode.from_dict (map Darkmode.to_dict ps) = Ok ps.
Proof.
  induction ps as [| p ps IH]; [reflexivity |].
  cbn [map comprehension]. rewrite from_dict_to_dict, IH. reflexivity.
Qed.

Lemma path_exists_insert (path : str) (bytes : list Byte.byte) (w : World) :
  path_exists path (set_fs (<[path := bytes]> (fs w)) w) = true.
Proof.
  unfold path_exists. cbn [fs set_fs]. apply bool_decide_eq_true.
  rewrite lookup_insert_eq. eauto.
Qed.

Section WithPlatform.
Context (P : Platform).

(** The bytes of the file after a save that succeeds. *)
Lemma save_bytes (ps : list ConfigPreset) :
  forallb text_fields ps = true ->
  exists bytes,
    utf8_encode (translate_out P (presets_text ps)) = Some bytes
    /\ utf8_decode bytes = Some (translate_out P (presets_text ps)).
Proof.
  intros Hps.
  destruct (utf8_encode_text (translate_out P (presets_text ps))) as [bs Hbs].
  { apply translate_out_text, clean_text, clean_presets, Hps. }
  exists bs. split; [exact Hbs |]. apply utf8_decode_encode, Hbs.
Qed.

Lemma save_text_fields (self : ConfigManager) (ps : list ConfigPreset)
  (w : World) (bytes : list Byte.byte) :
  forallb text_fields ps = true ->
  utf8_encode (translate_out P (presets_text ps)) = Some bytes ->
  Darkmode._save_presets P self ps w
  = (Ok tt, set_fs (<[config_file self := bytes]> (fs w)) w).
Proof.
  intros Hps Hbytes. unfold Darkmode._save_presets, json_dump_to.
  rewrite (write_chunks_ok P _ [] bytes).
  - reflexivity.
  - rewrite DumpFacts.presets_chunks by (apply text_fields_all_str, Hps).
    exact Hbytes.
Qed.

Lemma read_saved (self : ConfigManager) (ps : list ConfigPreset)
  (w : World) (bytes : list Byte.byte) :
  forallb text_fields ps = true ->
  utf8_encode (translate_out P (presets_text ps)) = Some bytes ->
  Darkmode.read_presets P self
    (set_fs (<[config_file self := bytes]> (fs w)) w) = Ok ps.
Proof.
  intros Hps Hbytes. unfold Darkmode.read_presets, read_text.
  cbn [fs set_fs]. rewrite lookup_insert_eq.
  rewrite (utf8_decode_encode _ _ Hbytes).
  rewrite universal_newlines_translate_out by (apply clean_presets, Hps).
  cbn [rbind].
  rewrite ParseFacts.loads_presets_text by (apply text_fields_all_str, Hps).
  cbn [rbind iterate]. apply comprehension_from_dict.
Qed.

End WithPlatform.
End StoreFacts.

(** C1, as the code has it.  For every list of presets whose five fields
    are strings without surrogate code points, [_save_presets] succeeds,
    and [_load_presets] on the world it leaves returns the same list,
    field for field and in the same order, and changes nothing. *)
Theorem save_then_load
  (P : Platform) (self : ConfigManager) (ps : list ConfigPreset) (w : World) :
  forallb text_fields ps = true ->
  exists w1 : World,
    Darkmode._save_presets P self ps w = (Ok tt, w1)
    /\ Darkmode._load_presets P self w1 = (Ok ps, w1).
Proof.
  intros Hps.
  destruct (StoreFacts.save_bytes P ps Hps) as (bytes & Hbytes & _).
  eexists. split.
  - apply StoreFacts.save_text_fields; eassumption.
  - unfold Darkmode._load_presets.
    rewrite StoreFacts.path_exists_insert.
    rewrite (StoreFacts.read_saved P self ps w bytes Hps Hbytes).
    reflexivity.
Qed.

Lemma save_then_load_witness :
  exists w1 : World,
    Darkmode._save_presets Sample.windows Sample.manager
      (presets Sample.manager) Sample.empty_world = (Ok tt, w1)
    /\ Darkmode._load_presets Sample.windows Sample.manager w1
       = (Ok (presets Sample.manager), w1).
Proof.
  apply (save_then_load Sample.windows Sample.manager
           (presets Sample.manager) Sample.empty_world).
  vm_compute. reflexivity.
Defined.

(** C1, as the spec has it, fails: a preset whose name is a lone
    surrogate has five string fields, yet saving it raises
    [UnicodeEncodeError]; the file is left with the text written before
    the name, and loading it gives the default preset. *)
Lemma save_then_load_surrogate :
  let ps := [Sample.surrogate_preset] in
  let saved :=
    Darkmode._save_presets Sample.posix Sample.manager ps Sample.empty_world in
  forallb str_fields ps = true
  /\ fst saved = Raise UnicodeEncodeError
  /\ fst (Darkmode._load_presets Sample.posix Sample.manager (snd saved))
     = Ok Darkmode.default_presets
  /\ ~ (exists w1 : World,
          saved = (Ok tt, w1)
          /\ Darkmode._load_presets Sample.posix Sample.manager w1
             = (Ok ps, w1)).
Proof.
  cbv zeta.
  assert (Hraise :
    fst (Darkmode._save_presets Sample.posix Sample.manager
           [Sample.surrogate_preset] Sample.empty_world)
    = Raise UnicodeEncodeError) by (vm_compute; reflexivity).
  split; [reflexivity |]. split; [exact Hraise |].
  split; [vm_compute; reflexivity |].
  intros (w1 & Hsave & _). rewrite Hsave in Hraise. discriminate.
Qed.

(** The condition of [save_then_load] is the one that counts: a list of
    presets with string fields of which one holds a code point UTF-8 cannot
    carry makes [_save_presets] raise [UnicodeEncodeError]. *)
Module SaveFails.
Import Unicode Encoder Layout Runtime UnicodeFacts TextFacts.
Local Open Scope N_scope.

Lemma utf8_encode_char_not_scalar (c : N) :
  is_scalar c = false -> utf8_encode_char c = None.
Proof.
  unfold is_scalar, utf8_encode_char, is_surrogate.
  split_tests; simpl; intros; try discriminate; try reflexivity; lia.
Qed.

Lemma utf8_encode_not_text (s : str) :
  is_text s = false -> utf8_encode s = None.
Proof.
  unfold utf8_encode, is_text.
  induction s as [| c s IH]; cbn [forallb utf8_encode_N]; [discriminate |].
  destruct (is_scalar c) eqn:Hc; cbn [andb].
  - intros Hs. specialize (IH Hs).
    destruct (utf8_encode_char c); [| reflexivity].
    destruct (utf8_encode_N s); [discriminate | reflexivity].
  - intros _. rewrite (utf8_encode_char_not_scalar c Hc). reflexivity.
Qed.

Lemma is_text_app (a b : str) : is_text (a ++ b) = is_text a && is_text b.
Proof. apply forallb_app. Qed.

Lemma is_text_escape_char (c : N) : is_text (escape_char c) = is_scalar c.
Proof.
  destruct (is_scalar c) eqn:Hc.
  - apply clean_text, clean_escape_char, Hc.
  - revert Hc. unfold escape_char, is_text, is_scalar, is_surrogate.
    split_tests; cbn; intros; try discriminate; try lia;
      repeat match goal with
      | |- context [N.eqb ?a ?b] => destruct (N.eqb_spec a b); try lia
      end; cbn; unfold is_scalar, is_surrogate;
      split_tests; cbn; try reflexivity; lia.
Qed.

Lemma is_text_escape (s : str) : is_text (escape s) = is_text s.
Proof.
  induction s as [| c s IH]; [reflexivity |].
  unfold escape in *. cbn [flat_map]. rewrite is_text_app, is_text_escape_char.
  unfold is_text in *. cbn [forallb]. rewrite IH. reflexivity.
Qed.

Lemma is_text_indent (n : nat) : is_text (newline_indent n) = true.
Proof. apply clean_text, clean_indent. Qed.

Lemma is_text_field (k : str) (v : pyobj) :
  is_text k = true -> is_str v = true ->
  is_text (field_text k v) = is_text_obj v.
Proof.
  intros Hk Hv. destruct v; try discriminate.
  unfold field_text, value_text, encode_basestring.
  rewrite !is_text_app. change (is_text (34 :: ?x)) with (is_text x).
  rewrite !is_text_app, !is_text_escape, Hk.
  change (is_text [34]) with true. change (is_text [58; 32]) with true.
  cbn [andb is_text_obj]. apply andb_true_r.
Qed.

Lemma is_text_preset (p : ConfigPreset) :
  str_fields p = true -> is_text (preset_text p) = text_fields p.
Proof.
  unfold str_fields, text_fields.
  intros [[[[Hn Ha]%andb_true_iff Hb]%andb_true_iff Hm]%andb_true_iff
            Hs]%andb_true_iff.
  unfold preset_text.
  change (is_text (123 :: ?x)) with (is_text x).
  repeat (rewrite ?is_text_app, ?is_text_indent, ?is_text_field
            by (assumption || reflexivity);
          try change (is_text (44 :: ?x)) with (is_text x)).
  cbn [andb]. change (is_text [125]) with true.
  rewrite !andb_true_r, !andb_assoc. reflexivity.
Qed.

Lemma is_text_presets (ps : list ConfigPreset) :
  forallb str_fields ps = true ->
  is_text (presets_text ps) = forallb text_fields ps.
Proof.
  assert (Htail : forall l, forallb str_fields l = true ->
                            is_text (tail_text l) = forallb text_fields l).
  { induction l as [| q l IH]; [reflexivity |].
    cbn [forallb tail_text]. intros [Hq Hl]%andb_true_iff.
    change (is_text (44 :: ?x)) with (is_text x).
    rewrite !is_text_app, is_text_indent, is_text_preset, IH by assumption.
    reflexivity. }
  destruct ps as [| p ps]; [reflexivity |].
  cbn [forallb presets_text]. intros [Hp Hps]%andb_true_iff.
  change (is_text (91 :: ?x)) with (is_text x).
  rewrite !is_text_app, is_text_indent, is_text_preset, Htail by assumption.
  reflexivity.
Qed.

Lemma is_text_translate_out (P : Platform) (t : str) :
  is_text (translate_out P t) = is_text t.
Proof.
  unfold translate_out, is_text. destruct (win32 P); [| reflexivity].
  induction t as [| c t IH]; [reflexivity |].
  cbn [forallb flat_map]. rewrite forallb_app, IH.
  destruct (N.eqb_spec c 10) as [-> |]; [reflexivity |].
  cbn [forallb]. rewrite andb_true_r. reflexivity.
Qed.

Lemma save_raises (P : Platform) (self : ConfigManager)
  (ps : list ConfigPreset) (w : World) :
  forallb str_fields ps = true -> forallb text_fields ps = false ->
  fst (Darkmode._save_presets P self ps w) = Raise UnicodeEncodeError.
Proof.
  intros Hstr Htext. unfold Darkmode._save_presets, json_dump_to.
  pose proof (write_chunks_raise P
    (iterencode P 0 (PyList (map Darkmode.to_dict ps))) []) as Hraise.
  destruct (write_chunks P _ []) as [r bytes]. cbn [fst] in *.
  apply Hraise. rewrite DumpFacts.presets_chunks by exact Hstr.
  apply utf8_encode_not_text.
  rewrite is_text_translate_out, is_text_presets by exact Hstr.
  exact Htext.
Qed.

End SaveFails.

(** * Loading *)

Module LoadFacts.
Import Runtime.

Lemma path_exists_None (path : str) (w : World) :
  fs w !! path = None -> path_exists path w = false.
Proof.
  intros H. unfold path_exists. rewrite H.
  apply bool_decide_eq_false. intros [x Hx]. discriminate.
Qed.

Lemma path_exists_Some (path : str) (w : World) (content : list Byte.byte) :
  fs w !! path = Some content -> path_exists path w = true.
Proof.
  intros H. unfold path_exists. rewrite H.
  apply bool_decide_eq_true. eauto.
Qed.

(** A list comprehension raises as soon as one item does. *)
Lemma comprehension_raises {A B} (f : A -> Result B) (l : list A) (x : A)
  (e : exn) :
  x ∈ l -> f x = Raise e -> exists e', comprehension f l = Raise e'.
Proof.
  intros Hx Hfx. induction l as [| a l IH]; [inversion Hx |].
  cbn [comprehension]. destruct (f a) as [b | e0] eqn:Hfa; [| cbn; eauto].
  cbn [rbind]. apply elem_of_cons in Hx as [<- | Hx]; [congruence |].
  destruct (IH Hx) as [e' ->]. cbn. eauto.
Qed.

Lemma subscript_missing (d : list (str * pyobj)) (k : str) :
  Dict.getitem d k = None -> subscript (PyDict d) k = Raise KeyError.
Proof. intros H. cbn. rewrite H. reflexivity. Qed.

(** [from_dict] raises [KeyError] on a dictionary that lacks one of its
    keys. *)
Lemma from_dict_missing (d : list (str * pyobj)) (k : str) :
  k ∈ required_keys -> Dict.getitem d k = None ->
  Darkmode.from_dict (PyDict d) = Raise KeyError.
Proof.
  intros Hk Hd. unfold Darkmode.from_dict, subscript.
  destruct (Dict.getitem d k_name) eqn:H1; [| reflexivity].
  destruct (Dict.getitem d k_auth_token) eqn:H2; [| reflexivity].
  destruct (Dict.getitem d k_base_url) eqn:H3; [| reflexivity].
  destruct (Dict.getitem d k_model) eqn:H4; [| reflexivity].
  destruct (Dict.getitem d k_small_fast_model) eqn:H5; [| reflexivity].
  exfalso. unfold required_keys in Hk.
  repeat (apply elem_of_cons in Hk as [-> | Hk]; [congruence |]).
  inversion Hk.
Qed.

(** [from_dict] reads its five keys and nothing else. *)
Lemma from_dict_setitem (d : list (str * pyobj)) (k : str) (v : pyobj) :
  k ∉ required_keys ->
  Darkmode.from_dict (PyDict (Dict.setitem d k v))
  = Darkmode.from_dict (PyDict d).
Proof.
  intros Hk. unfold Darkmode.from_dict, subscript, required_keys in *.
  rewrite !DictFacts.getitem_setitem_ne; [reflexivity | ..];
    intros ->; apply Hk; set_solver.
Qed.

(** On a dictionary that has the five keys, [from_dict] succeeds and
    each attribute is the value at its key. *)
Lemma from_dict_required (o : pyobj) :
  has_required_keys o = true ->
  exists p : ConfigPreset,
    Darkmode.from_dict o = Ok p
    /\ subscript o k_name = Ok (name p)
    /\ subscript o k_auth_token = Ok (auth_token p)
    /\ subscript o k_base_url = Ok (base_url p)
    /\ subscript o k_model = Ok (model p)
    /\ subscript o k_small_fast_model = Ok (small_fast_model p).
Proof.
  destruct o as [| | | | | d]; try discriminate.
  unfold has_required_keys, required_keys. cbn [forallb].
  rewrite !andb_true_iff, !bool_decide_eq_true.
  intros ([a Ha] & [b Hb] & [c Hc] & [x Hx] & [y Hy] & _).
  unfold Darkmode.from_dict, subscript. rewrite Ha, Hb, Hc, Hx, Hy.
  cbn. eexists. repeat split.
Qed.

End LoadFacts.

(** C4. When the backing file does not exist, [_load_presets] returns the
    one hard-coded default preset and writes it to the backing file: the
    file exists afterwards, and what it holds deserialises to exactly that
    preset. *)
Theorem load_missing_file (P : Platform) (self : ConfigManager) (w : World) :
  fs w !! config_file self = None ->
  exists bytes : list Byte.byte,
    let w1 := set_fs (<[config_file self := bytes]> (fs w)) w in
    Darkmode._load_presets P self w = (Ok Darkmode.default_presets, w1)
    /\ length Darkmode.default_presets = 1%nat
    /\ fs w1 !! config_file self = Some bytes
    /\ Darkmode.read_presets P self w1 = Ok Darkmode.default_presets.
Proof.
  intros Hnone.
  assert (Htext : forallb text_fields Darkmode.default_presets = true)
    by (vm_compute; reflexivity).
  destruct (StoreFacts.save_bytes P _ Htext) as (bytes & Hbytes & _).
  exists bytes. cbv zeta. repeat split.
  - unfold Darkmode._load_presets.
    rewrite (LoadFacts.path_exists_None _ _ Hnone).
    unfold bind, ret.
    rewrite (StoreFacts.save_text_fields P self _ w bytes Htext Hbytes).
    reflexivity.
  - cbn [fs set_fs]. apply lookup_insert_eq.
  - apply StoreFacts.read_saved; assumption.
Qed.

Lemma load_missing_file_witness :
  exists bytes : list Byte.byte,
    let w1 := set_fs (<[env_config_json := bytes]> ∅) Sample.empty_world in
    Darkmode._load_presets Sample.posix Sample.manager Sample.empty_world
    = (Ok Darkmode.default_presets, w1)
    /\ length Darkmode.default_presets = 1%nat
    /\ fs w1 !! env_config_json = Some bytes
    /\ Darkmode.read_presets Sample.posix Sample.manager w1
       = Ok Darkmode.default_presets.
Proof.
  apply (load_missing_file Sample.posix Sample.manager Sample.empty_world).
  reflexivity.
Defined.

(** C5. When the backing file exists and what it holds fails to
    deserialise, for whatever reason, [_load_presets] returns the default
    preset and leaves the world, and with it every byte of the file, as it
    was. *)
Theorem load_corrupt_file
  (P : Platform) (self : ConfigManager) (w : World)
  (content : list Byte.byte) (e : exn) :
  fs w !! config_file self = Some content ->
  Darkmode.read_presets P self w = Raise e ->
  let res := Darkmode._load_presets P self w in
  res = (Ok Darkmode.default_presets, w)
  /\ fs (snd res) !! config_file self = Some content.
Proof.
  intros Hfile Hread. cbv zeta. unfold Darkmode._load_presets.
  rewrite (LoadFacts.path_exists_Some _ _ _ Hfile), Hread.
  split; [reflexivity | exact Hfile].
Qed.

(** Malformed JSON and an element without a required field are two ways
    to fail. *)
Lemma load_corrupt_file_witness :
  Darkmode._load_presets Sample.posix Sample.manager
    (Sample.world_with_file Sample.malformed_file)
  = (Ok Darkmode.default_presets,
     Sample.world_with_file Sample.malformed_file)
  /\ Darkmode._load_presets Sample.posix Sample.manager
       (Sample.world_with_file Sample.missing_field_file)
     = (Ok Darkmode.default_presets,
        Sample.world_with_file Sample.missing_field_file).
Proof.
  split.
  - apply (load_corrupt_file Sample.posix Sample.manager
             (Sample.world_with_file Sample.malformed_file)
             (Sample.file_bytes Sample.malformed_file) JSONDecodeError);
      vm_compute; reflexivity.
  - apply (load_corrupt_file Sample.posix Sample.manager
             (Sample.world_with_file Sample.missing_field_file)
             (Sample.file_bytes Sample.missing_field_file) KeyError);
      vm_compute; reflexivity.
Defined.

(** Malformed JSON makes the read raise. *)
Lemma read_presets_malformed
  (P : Platform) (self : ConfigManager) (w : World)
  (content : list Byte.byte) (raw : str) (e : exn) :
  fs w !! config_file self = Some content ->
  Unicode.utf8_decode content = Some raw ->
  Decoder.loads P (Runtime.universal_newlines raw) = Raise e ->
  Darkmode.read_presets P self w = Raise e.
Proof.
  intros Hfile Hraw Hloads. unfold Darkmode.read_presets, Runtime.read_text.
  rewrite Hfile, Hraw. cbn [rbind]. rewrite Hloads. reflexivity.
Qed.

(** An element that lacks a required field makes the read raise. *)
Lemma read_presets_missing_field
  (P : Platform) (self : ConfigManager) (w : World)
  (content : list Byte.byte) (raw : str) (items : list pyobj)
  (d : list (str * pyobj)) (k : str) :
  fs w !! config_file self = Some content ->
  Unicode.utf8_decode content = Some raw ->
  Decoder.loads P (Runtime.universal_newlines raw) = Ok (PyList items) ->
  PyDict d ∈ items -> k ∈ required_keys -> Dict.getitem d k = None ->
  exists e, Darkmode.read_presets P self w = Raise e.
Proof.
  intros Hfile Hraw Hloads Hd Hk Hnone.
  unfold Darkmode.read_presets, Runtime.read_text.
  rewrite Hfile, Hraw. cbn [rbind]. rewrite Hloads. cbn [rbind Runtime.iterate].
  eapply LoadFacts.comprehension_raises; [exact Hd |].
  apply LoadFacts.from_dict_missing with (k := k); assumption.
Qed.

(** C10. When the backing file holds a JSON array whose elements all have
    the five required keys, [_load_presets] succeeds, leaves the world as
    it was and returns one preset for each element, in order, whose five
    attributes are the values at the five keys; any other key of an
    element plays no part in what [from_dict] builds. *)
Theorem load_extra_keys
  (P : Platform) (self : ConfigManager) (w : World)
  (content : list Byte.byte) (raw : str) (items : list pyobj) :
  fs w !! config_file self = Some content ->
  Unicode.utf8_decode content = Some raw ->
  Decoder.loads P (Runtime.universal_newlines raw) = Ok (PyList items) ->
  forallb has_required_keys items = true ->
  (exists ps : list ConfigPreset,
     Darkmode._load_presets P self w = (Ok ps, w)
     /\ Forall2 (fun item p =>
          Runtime.subscript item k_name = Ok (name p)
          /\ Runtime.subscript item k_auth_token = Ok (auth_token p)
          /\ Runtime.subscript item k_base_url = Ok (base_url p)
          /\ Runtime.subscript item k_model = Ok (model p)
          /\ Runtime.subscript item k_small_fast_model
             = Ok (small_fast_model p)) items ps)
  /\ (forall (d : list (str * pyobj)) (k : str) (v : pyobj),
        k ∉ required_keys ->
        Darkmode.from_dict (PyDict (Dict.setitem d k v))
        = Darkmode.from_dict (PyDict d)).
Proof.
  intros Hfile Hraw Hloads Hkeys. split; [| apply LoadFacts.from_dict_setitem].
  assert (Hcomp : exists ps,
    Runtime.comprehension Darkmode.from_dict items = Ok ps
    /\ Forall2 (fun item p =>
          Runtime.subscript item k_name = Ok (name p)
          /\ Runtime.subscript item k_auth_token = Ok (auth_token p)
          /\ Runtime.subscript item k_base_url = Ok (base_url p)
          /\ Runtime.subscript item k_model = Ok (model p)
          /\ Runtime.subscript item k_small_fast_model
             = Ok (small_fast_model p)) items ps).
  { clear Hloads. induction items as [| item items IH].
    - exists []. split; [reflexivity | constructor].
    - cbn [forallb] in Hkeys. apply andb_true_iff in Hkeys as [Hitem Hrest].
      destruct (LoadFacts.from_dict_required item Hitem) as (p & Hp & Hsub).
      destruct (IH Hrest) as (ps & Hps & Hall).
      exists (p :: ps). split.
      + cbn [Runtime.comprehension]. rewrite Hp, Hps. reflexivity.
      + constructor; assumption. }
  destruct Hcomp as (ps & Hps & Hall). exists ps. split; [| exact Hall].
  unfold Darkmode._load_presets, Darkmode.read_presets, Runtime.read_text.
  rewrite (LoadFacts.path_exists_Some _ _ _ Hfile), Hfile, Hraw.
  cbn [rbind]. rewrite Hloads. cbn [rbind Runtime.iterate]. rewrite Hps.
  reflexivity.
Qed.

Lemma load_extra_keys_witness :
  exists ps : list ConfigPreset,
    Darkmode._load_presets Sample.posix Sample.manager
      (Sample.world_with_file Sample.extra_key_file)
    = (Ok ps, Sample.world_with_file Sample.extra_key_file).
Proof.
  edestruct (load_extra_keys Sample.posix Sample.manager
               (Sample.world_with_file Sample.extra_key_file))
    as [(ps & Hload & _) _].
  - vm_compute. reflexivity.
  - vm_compute. reflexivity.
  - vm_compute. reflexivity.
  - vm_compute. reflexivity.
  - exists ps. exact Hload.
Defined.

(** The element of that file has two more keys than the preset has
    attributes, and its second [name] is the one that counts. *)
Example load_extra_keys_example :
  fst (Darkmode._load_presets Sample.posix Sample.manager
         (Sample.world_with_file Sample.extra_key_file))
  = Ok [ {| name := PyStr (py "z"); auth_token := PyStr (py "b");
            base_url := PyStr (py "c"); model := PyStr (py "d");
            small_fast_model := PyStr (py "e") |} ].
Proof. vm_compute. reflexivity. Qed.

(** * Applying a preset *)

Module ApplyFacts.
Import Runtime.

Lemma keys_distinct :
  ANTHROPIC_AUTH_TOKEN <> ANTHROPIC_BASE_URL
  /\ ANTHROPIC_AUTH_TOKEN <> ANTHROPIC_MODEL
  /\ ANTHROPIC_AUTH_TOKEN <> ANTHROPIC_SMALL_FAST_MODEL
  /\ ANTHROPIC_BASE_URL <> ANTHROPIC_MODEL
  /\ ANTHROPIC_BASE_URL <> ANTHROPIC_SMALL_FAST_MODEL
  /\ ANTHROPIC_MODEL <> ANTHROPIC_SMALL_FAST_MODEL.
Proof. repeat split; discriminate. Qed.

(** Equal maps, the variable names being distinct. *)
Ltac same_map :=
  pose proof keys_distinct as (? & ? & ? & ? & ? & ?);
  apply map_eq; intros ?;
  rewrite ?lookup_insert; repeat case_decide; subst;
  solve [reflexivity | congruence].

Section WithPlatform.
Context (P : Platform).

(** The three ways an assignment to [os.environ] can go. *)
Lemma setitem_accepted (k s : str) (m : M unit) (w : World) :
  putenv_error P s = None ->
  (environ_setitem P k (PyStr s) ;;; m) w
  = m (set_environ (<[k := environ_value P s]> (environ w)) w).
Proof. intros H. unfold bind, environ_setitem. rewrite H. reflexivity. Qed.

Lemma setitem_refused (k s : str) (m : M unit) (w : World) (e : exn) :
  putenv_error P s = Some e ->
  (environ_setitem P k (PyStr s) ;;; m) w = (Raise e, w).
Proof. intros H. unfold bind, environ_setitem. rewrite H. reflexivity. Qed.

Lemma setitem_not_str (k : str) (v : pyobj) (m : M unit) (w : World) :
  is_str v = false ->
  (environ_setitem P k v ;;; m) w = (Raise TypeError, w).
Proof. destruct v; try discriminate; reflexivity. Qed.

(** What the guarded registry session does, whichever of its operations
    fails. *)
Lemma registry_block_facts (text a b c d : str) (w : World) :
  let block :=
    try_except
      (OpenKey ;;;
       SetValueEx 1 ANTHROPIC_AUTH_TOKEN (PyStr a) ;;;
       SetValueEx 2 ANTHROPIC_BASE_URL (PyStr b) ;;;
       SetValueEx 3 ANTHROPIC_MODEL (PyStr c) ;;;
       SetValueEx 4 ANTHROPIC_SMALL_FAST_MODEL (PyStr d))
      (fun e => print_warning text e) in
  fst (block w) = Ok tt
  /\ environ (snd (block w)) = environ w
  /\ fs (snd (block w)) = fs w
  /\ registry_fault (snd (block w)) = registry_fault w
  /\ (forall k : nat, registry_fault w = Some k -> (k <= 4)%nat ->
        stdout (snd (block w)) = stdout w ++ [Warning text OSError])
  /\ (forall w' : World,
        registry_fault w' = registry_fault w ->
        registry w' = registry (snd (block w)) ->
        registry (snd (block w')) = registry w').
Proof.
  cbv zeta. destruct w as [files env reg fault out].
  unfold try_except, bind, OpenKey, SetValueEx, print_warning,
    set_registry, set_stdout.
  cbn [fs environ registry registry_fault stdout].
  destruct fault as [[| [| [| [| [| k]]]]] |];
    repeat (case_bool_decide; try congruence;
            cbn [fst snd fs environ registry registry_fault stdout]);
    repeat split; try reflexivity;
    first
      [ intros k' Hk' Hle; injection Hk' as <-; first [reflexivity | lia]
      | intros k' Hk' Hle; discriminate Hk'
      | intros [files' env' reg' fault' out']; cbn; intros -> ->;
        repeat (case_bool_decide; try congruence;
                cbn [fst snd fs environ registry registry_fault stdout]);
        first [reflexivity | same_map] ].
Qed.

End WithPlatform.
End ApplyFacts.

Module IdempotenceFacts.
Import Runtime ApplyFacts.

Lemma environ_set_environ (m : gmap str str) (w : World) :
  environ (set_environ m w) = m.
Proof. reflexivity. Qed.

Lemma set_environ_twice (m m' : gmap str str) (w : World) :
  set_environ m (set_environ m' w) = set_environ m w.
Proof. reflexivity. Qed.

(** Settles one assignment of the two runs compared: the value is not a
    [str], or the environment refuses it, or the assignment is made. *)
Ltac settle P v :=
  destruct v as [| | | ? | |];
  try (rewrite !(setitem_not_str P) by reflexivity;
       cbn [fst snd environ registry registry_fault set_environ];
       split;
       [ reflexivity
       | let H := fresh "H" in
         intros H ? ?; split; [rewrite H; same_map | reflexivity] ]);
  match goal with
  | |- context [environ_setitem P _ (PyStr ?s)] =>
    let E := fresh "E" in
    destruct (putenv_error P s) eqn:E;
      [ rewrite !(setitem_refused P _ _ _ _ _ E);
        cbn [fst snd environ registry registry_fault set_environ];
        split; [reflexivity |];
        let H := fresh "H" in
        intros H ? ?; split; [rewrite H; same_map | reflexivity]
      | rewrite !(setitem_accepted P _ _ _ _ E);
        rewrite ?environ_set_environ, ?set_environ_twice ]
  end.

(** The state a call of [apply_preset] leaves is one that a further call
    keeps: stated for the world [w'] of the further call, which agrees with
    the world the first call left. *)
Lemma chain_stable (P : Platform) (text : str) (a b c d : pyobj)
  (w w' : World) :
  let chain :=
    (environ_setitem P ANTHROPIC_AUTH_TOKEN a ;;;
     environ_setitem P ANTHROPIC_BASE_URL b ;;;
     environ_setitem P ANTHROPIC_MODEL c ;;;
     environ_setitem P ANTHROPIC_SMALL_FAST_MODEL d ;;;
     if win32 P then
       try_except
         (OpenKey ;;;
          SetValueEx 1 ANTHROPIC_AUTH_TOKEN a ;;;
          SetValueEx 2 ANTHROPIC_BASE_URL b ;;;
          SetValueEx 3 ANTHROPIC_MODEL c ;;;
          SetValueEx 4 ANTHROPIC_SMALL_FAST_MODEL d)
         (fun e => print_warning text e)
     else ret tt) in
  registry_fault (snd (chain w)) = registry_fault w
  /\ (environ w' = environ (snd (chain w)) ->
      registry w' = registry (snd (chain w)) ->
      registry_fault w' = registry_fault w ->
      environ (snd (chain w')) = environ w'
      /\ registry (snd (chain w')) = registry w').
Proof.
  cbv zeta.
  settle P a. settle P b. settle P c. settle P d.
  destruct (win32 P); cbv iota.
  - match goal with
    | |- context [try_except
                    (OpenKey ;;; SetValueEx 1 _ (PyStr ?x1) ;;;
                     SetValueEx 2 _ (PyStr ?x2) ;;;
                     SetValueEx 3 _ (PyStr ?x3) ;;;
                     SetValueEx 4 _ (PyStr ?x4)) _ (set_environ ?m w)] =>
      pose proof (registry_block_facts text x1 x2 x3 x4 (set_environ m w))
        as (_ & Henv & _ & Hfault & _ & Hidem)
    end.
    cbv zeta in *. rewrite Henv, Hfault.
    cbn [environ registry registry_fault set_environ] in *.
    split; [reflexivity |]. intros He Hr Hf.
    match goal with
    | |- context [try_except
                    (OpenKey ;;; SetValueEx 1 _ (PyStr ?x1) ;;;
                     SetValueEx 2 _ (PyStr ?x2) ;;;
                     SetValueEx 3 _ (PyStr ?x3) ;;;
                     SetValueEx 4 _ (PyStr ?x4)) _ (set_environ ?m w')] =>
      pose proof (registry_block_facts text x1 x2 x3 x4 (set_environ m w'))
        as (_ & Henv' & _ & _ & _ & _);
      specialize (Hidem (set_environ m w'))
    end.
    cbv zeta in *. rewrite Henv'.
    cbn [environ registry registry_fault set_environ] in *.
    split; [rewrite He; same_map |].
    apply Hidem; assumption.
  - unfold ret. cbn [fst snd environ registry registry_fault set_environ].
    split; [reflexivity |]. intros He Hr Hf.
    split; [rewrite He; same_map | reflexivity].
Qed.

End IdempotenceFacts.

(** C7. Applying a preset a second time changes neither a variable of the
    process environment nor a value of the per-user store: the state
    after two calls in a row is the state after one, whatever the preset,
    the platform and the starting state, in both front ends. *)
Theorem apply_preset_idempotent
  (P : Platform) (preset : ConfigPreset) (w : World) :
  (let w1 := snd (Darkmode.apply_preset P preset w) in
   let w2 := snd (Darkmode.apply_preset P preset w1) in
   environ w2 = environ w1 /\ registry w2 = registry w1)
  /\ (let w1 := snd (PyQt6.apply_preset P preset w) in
      let w2 := snd (PyQt6.apply_preset P preset w1) in
      environ w2 = environ w1 /\ registry w2 = registry w1).
Proof.
  cbv zeta. split.
  - destruct (IdempotenceFacts.chain_stable P Darkmode.warning_text
                (auth_token preset) (base_url preset) (model preset)
                (small_fast_model preset) w
                (snd (Darkmode.apply_preset P preset w))) as [Hfault Hstable].
    apply Hstable; [reflexivity | reflexivity | exact Hfault].
  - destruct (IdempotenceFacts.chain_stable P PyQt6.warning_text
                (auth_token preset) (base_url preset) (model preset)
                (small_fast_model preset) w
                (snd (PyQt6.apply_preset P preset w))) as [Hfault Hstable].
    apply Hstable; [reflexivity | reflexivity | exact Hfault].
Qed.

Module EnvironFacts.
Import Runtime ApplyFacts.

(** Saving touches the file and nothing else. *)
Lemma save_keeps_environ (P : Platform) (self : ConfigManager)
  (ps : list ConfigPreset) (w : World) :
  environ (snd (Darkmode._save_presets P self ps w)) = environ w.
Proof.
  unfold Darkmode._save_presets, json_dump_to.
  destruct (write_chunks P _ []) as [r bytes]. reflexivity.
Qed.

Lemma applied_four (env : gmap str str) (a b c d : str) :
  applied env
    (<[ANTHROPIC_SMALL_FAST_MODEL := d]>
       (<[ANTHROPIC_MODEL := c]>
          (<[ANTHROPIC_BASE_URL := b]>
             (<[ANTHROPIC_AUTH_TOKEN := a]> env)))) a b c d.
Proof.
  pose proof keys_distinct as (? & ? & ? & ? & ? & ?).
  unfold applied. repeat split; intros;
    rewrite ?lookup_insert; repeat case_decide; subst;
    solve [reflexivity | congruence].
Qed.

Lemma environ_value_win32 (P : Platform) (s : str) :
  win32 P = true -> environ_value P s = s.
Proof. intros H. unfold environ_value. rewrite H. reflexivity. Qed.

(** What [apply_preset] does once the environment has taken the four
    values: the text of the warning is a parameter, to serve both front
    ends. *)
Lemma chain_accepted (P : Platform) (text : str) (a b c d : str) (w : World) :
  putenv_error P a = None -> putenv_error P b = None ->
  putenv_error P c = None -> putenv_error P d = None ->
  let chain :=
    (environ_setitem P ANTHROPIC_AUTH_TOKEN (PyStr a) ;;;
     environ_setitem P ANTHROPIC_BASE_URL (PyStr b) ;;;
     environ_setitem P ANTHROPIC_MODEL (PyStr c) ;;;
     environ_setitem P ANTHROPIC_SMALL_FAST_MODEL (PyStr d) ;;;
     if win32 P then
       try_except
         (OpenKey ;;;
          SetValueEx 1 ANTHROPIC_AUTH_TOKEN (PyStr a) ;;;
          SetValueEx 2 ANTHROPIC_BASE_URL (PyStr b) ;;;
          SetValueEx 3 ANTHROPIC_MODEL (PyStr c) ;;;
          SetValueEx 4 ANTHROPIC_SMALL_FAST_MODEL (PyStr d))
         (fun e => print_warning text e)
     else ret tt) in
  fst (chain w) = Ok tt
  /\ applied (environ w) (environ (snd (chain w)))
       (environ_value P a) (environ_value P b) (environ_value P c)
       (environ_value P d)
  /\ fs (snd (chain w)) = fs w
  /\ (win32 P = true ->
      forall k : nat, registry_fault w = Some k -> (k <= 4)%nat ->
      stdout (snd (chain w)) = stdout w ++ [Warning text OSError]).
Proof.
  intros Ea Eb Ec Ed. cbv zeta.
  rewrite (setitem_accepted P _ _ _ _ Ea), (setitem_accepted P _ _ _ _ Eb),
    (setitem_accepted P _ _ _ _ Ec), (setitem_accepted P _ _ _ _ Ed).
  rewrite ?IdempotenceFacts.environ_set_environ,
    ?IdempotenceFacts.set_environ_twice.
  destruct (win32 P); cbv iota.
  - match goal with
    | |- context [try_except _ _ ?W] =>
      pose proof (registry_block_facts text a b c d W)
        as (Hok & Henv & Hfs & _ & Hout & _)
    end.
    cbv zeta in *. rewrite Hok, Henv, Hfs.
    split; [reflexivity |]. split; [apply applied_four |].
    split; [reflexivity |].
    intros _ k Hk Hle. apply (Hout k); assumption.
  - unfold ret. cbn [fst snd environ fs set_environ].
    split; [reflexivity |]. split; [apply applied_four |].
    split; [reflexivity | discriminate].
Qed.

End EnvironFacts.

(** What [os.environ] hands back on the sample POSIX platform. *)
Module EscapeFacts.
Import Unicode SurrogateEscape UnicodeFacts.
Local Open Scope N_scope.

Lemma scalar_not_escape (c : N) : is_scalar c = true -> is_escape c = false.
Proof.
  unfold is_scalar, is_surrogate, is_escape.
  split_tests; simpl; intros; try discriminate; try reflexivity; lia.
Qed.

(** The bytes of one scalar value decode to it. *)
Lemma decode_char (c : N) (bs rest : list N) :
  utf8_encode_char c = Some bs -> decode (bs ++ rest) = c :: decode rest.
Proof.
  unfold utf8_encode_char, is_surrogate.
  rewrite div_262144, div_4096.
  by_64 c q0 r0. by_64 q0 q1 r1. by_64 q1 q2 r2.
  split_tests; simpl; try discriminate; intros [= <-]; simpl.
  all: unfold is_cont, is_surrogate; decide_tests; simpl.
  all: f_equal; lia.
Qed.

(** Text without surrogates is read back as it was written. *)
Lemma read_back_text (s : str) : is_text s = true -> read_back s = s.
Proof.
  unfold read_back, is_text.
  assert (H : forallb is_scalar s = true ->
              exists bs, encode s = Some bs /\ decode bs = s).
  { induction s as [| c r IH]; [exists []; split; reflexivity |].
    cbn [forallb encode]. intros [Hc Hr]%andb_true_iff.
    rewrite (scalar_not_escape c Hc).
    destruct (utf8_encode_char_scalar c Hc) as [cs Hcs].
    destruct (IH Hr) as (rs & Hrs & Hdec).
    rewrite Hcs, Hrs. exists (cs ++ rs). split; [reflexivity |].
    rewrite (decode_char c cs rs Hcs), Hdec. reflexivity. }
  intros Hs. destruct (H Hs) as (bs & -> & Hdec). exact Hdec.
Qed.

(** On the sample POSIX platform a value without surrogates is handed
    back as it is, and on Windows every value is. *)
Lemma posix_keeps_text (s : str) :
  is_text s = true -> Runtime.environ_value Sample.posix s = s.
Proof. apply read_back_text. Qed.

Lemma windows_keeps (s : str) : Runtime.environ_value Sample.windows s = s.
Proof. reflexivity. Qed.

End EscapeFacts.

(** C6, as the code has it.  For every preset whose four value fields are
    strings that [os.environ] accepts and hands back as they are,
    [apply_preset] succeeds and leaves the four variables holding exactly
    those values, every other variable of the process, and the backing
    file, as they were; the same holds when the preset is applied in the
    world that adding it left. *)
Theorem apply_preset_sets_environ
  (P : Platform) (preset : ConfigPreset) (w : World) (a b c d : str) :
  auth_token preset = PyStr a -> base_url preset = PyStr b ->
  model preset = PyStr c -> small_fast_model preset = PyStr d ->
  putenv_error P a = None -> putenv_error P b = None ->
  putenv_error P c = None -> putenv_error P d = None ->
  Runtime.environ_value P a = a -> Runtime.environ_value P b = b ->
  Runtime.environ_value P c = c -> Runtime.environ_value P d = d ->
  (let res := Darkmode.apply_preset P preset w in
   fst res = Ok tt
   /\ applied (environ w) (environ (snd res)) a b c d
   /\ fs (snd res) = fs w)
  /\ (forall self : ConfigManager,
        let added := Darkmode.add_preset P self preset w in
        let res := Darkmode.apply_preset P preset (world_after added) in
        fst res = Ok tt
        /\ applied (environ w) (environ (snd res)) a b c d).
Proof.
  intros Ha Hb Hc Hd Ea Eb Ec Ed Va Vb Vc Vd. cbv zeta.
  unfold Darkmode.apply_preset. rewrite Ha, Hb, Hc, Hd.
  split.
  - destruct (EnvironFacts.chain_accepted P Darkmode.warning_text a b c d w
                Ea Eb Ec Ed) as (Hok & Happ & Hfs & _).
    rewrite Va, Vb, Vc, Vd in Happ. auto.
  - intros self.
    destruct (EnvironFacts.chain_accepted P Darkmode.warning_text a b c d
                (world_after (Darkmode.add_preset P self preset w))
                Ea Eb Ec Ed) as (Hok & Happ & _ & _).
    rewrite Va, Vb, Vc, Vd in Happ.
    split; [exact Hok |].
    replace (environ w)
      with (environ (world_after (Darkmode.add_preset P self preset w)));
      [exact Happ |].
    unfold Darkmode.add_preset.
    pose proof (EnvironFacts.save_keeps_environ P
      {| config_file := config_file self;
         presets := presets self ++ [preset] |}
      (presets self ++ [preset]) w) as Hkeep.
    cbn [presets] in *.
    destruct (Darkmode._save_presets P _ _ w) as [r w1]. exact Hkeep.
Qed.

Lemma apply_preset_sets_environ_witness :
  let p := Sample.preset "staging" in
  let res := Darkmode.apply_preset Sample.posix p Sample.faulty_world in
  fst res = Ok tt
  /\ applied (environ Sample.faulty_world) (environ (snd res))
       (py "token") (py "https://example.test") (py "m1") (py "m2")
  /\ fs (snd res) = fs Sample.faulty_world.
Proof.
  refine (proj1 (apply_preset_sets_environ Sample.posix
                   (Sample.preset "staging") Sample.faulty_world
                   (py "token") (py "https://example.test") (py "m1")
                   (py "m2") _ _ _ _ _ _ _ _ _ _ _ _));
    vm_compute; reflexivity.
Defined.

(** The second condition of [apply_preset_sets_environ] counts as well:
    on the sample POSIX platform the two lone surrogates of this token
    stand for the bytes C3 A9; [os.environ] accepts the token, and what it
    hands back is the one character U+00E9 those bytes decode to. *)
Lemma apply_preset_escaped :
  let preset :=
    {| name := PyStr (py "n"); auth_token := PyStr [0xDCC3; 0xDCA9]%N;
       base_url := PyStr (py "https://example.test");
       model := PyStr (py "m1"); small_fast_model := PyStr (py "m2") |} in
  let res := Darkmode.apply_preset Sample.posix preset Sample.empty_world in
  putenv_error Sample.posix [0xDCC3; 0xDCA9]%N = None
  /\ fst res = Ok tt
  /\ environ (snd res) !! ANTHROPIC_AUTH_TOKEN = Some [0xE9]%N.
Proof. cbv zeta. repeat split; vm_compute; reflexivity. Qed.

(** C6, as the spec has it, fails: the token of this preset is a string,
    yet it holds a NUL character, [os.environ] refuses it with
    [ValueError], and the variable is not set. *)
Lemma apply_preset_nul :
  let res :=
    Darkmode.apply_preset Sample.posix Sample.nul_preset Sample.empty_world in
  str_fields Sample.nul_preset = true
  /\ fst res = Raise ValueError
  /\ environ (snd res) !! ANTHROPIC_AUTH_TOKEN = None
  /\ ~ applied (environ Sample.empty_world) (environ (snd res))
         [97; 0; 98]%N (py "https://example.test") (py "m1") (py "m2").
Proof.
  cbv zeta. split; [vm_compute; reflexivity |].
  split; [vm_compute; reflexivity |]. split; [vm_compute; reflexivity |].
  intros (Htoken & _). vm_compute in Htoken. discriminate.
Qed.



(** * The two front ends *)

Module FrontEndFacts.
Import Runtime ApplyFacts.

(** The text of the warning changes what is printed and nothing else. *)
Lemma block_text (text text' a b c d : str) (w : World) :
  let block t :=
    try_except
      (OpenKey ;;;
       SetValueEx 1 ANTHROPIC_AUTH_TOKEN (PyStr a) ;;;
       SetValueEx 2 ANTHROPIC_BASE_URL (PyStr b) ;;;
       SetValueEx 3 ANTHROPIC_MODEL (PyStr c) ;;;
       SetValueEx 4 ANTHROPIC_SMALL_FAST_MODEL (PyStr d))
      (fun e => print_warning t e) in
  fst (block text w) = fst (block text' w)
  /\ fs (snd (block text w)) = fs (snd (block text' w))
  /\ environ (snd (block text w)) = environ (snd (block text' w))
  /\ registry (snd (block text w)) = registry (snd (block text' w)).
Proof.
  cbv zeta. destruct w as [files env reg fault out].
  unfold try_except, bind, OpenKey, SetValueEx, print_warning,
    set_registry, set_stdout.
  cbn [fs environ registry registry_fault stdout].
  repeat (case_bool_decide;
          cbn [fst snd fs environ registry registry_fault stdout]);
    repeat split; reflexivity.
Qed.

Ltac settle P v :=
  destruct v as [| | | ? | |];
  try (rewrite !(setitem_not_str P) by reflexivity;
       repeat split; reflexivity);
  match goal with
  | |- context [environ_setitem P _ (PyStr ?s)] =>
    let E := fresh "E" in
    destruct (putenv_error P s) eqn:E;
      [ rewrite !(setitem_refused P _ _ _ _ _ E); repeat split; reflexivity
      | rewrite !(setitem_accepted P _ _ _ _ E) ]
  end.

Lemma apply_preset_agree (P : Platform) (preset : ConfigPreset) (w : World) :
  let r1 := Darkmode.apply_preset P preset w in
  let r2 := PyQt6.apply_preset P preset w in
  fst r1 = fst r2
  /\ fs (snd r1) = fs (snd r2)
  /\ environ (snd r1) = environ (snd r2)
  /\ registry (snd r1) = registry (snd r2).
Proof.
  cbv zeta. destruct preset as [n a b c d].
  unfold Darkmode.apply_preset, PyQt6.apply_preset.
  cbn [auth_token base_url model small_fast_model].
  settle P a. settle P b. settle P c. settle P d.
  destruct (win32 P); cbv iota; [| repeat split; reflexivity].
  match goal with
  | |- context [try_except
                  (OpenKey ;;; SetValueEx 1 _ (PyStr ?x1) ;;;
                   SetValueEx 2 _ (PyStr ?x2) ;;;
                   SetValueEx 3 _ (PyStr ?x3) ;;;
                   SetValueEx 4 _ (PyStr ?x4)) _ ?W] =>
    exact (block_text Darkmode.warning_text PyQt6.warning_text
             x1 x2 x3 x4 W)
  end.
Qed.

Lemma read_presets_exists (P : Platform) (self : ConfigManager) (w : World)
  (ps : list ConfigPreset) :
  Darkmode.read_presets P self w = Ok ps ->
  path_exists (config_file self) w = true.
Proof.
  unfold Darkmode.read_presets, read_text, path_exists.
  destruct (fs w !! config_file self); [| discriminate].
  intros _. apply bool_decide_eq_true. eauto.
Qed.

End FrontEndFacts.




(** * More about the store *)

Module MutationFacts.
Import Runtime.

(** A save that succeeds, and the load that follows it. *)
Lemma save_load (P : Platform) (self : ConfigManager)
  (ps : list ConfigPreset) (w : World) :
  forallb text_fields ps = true ->
  exists w1 : World,
    Darkmode._save_presets P self ps w = (Ok tt, w1)
    /\ Darkmode.read_presets P self w1 = Ok ps
    /\ path_exists (config_file self) w1 = true.
Proof.
  intros Hps.
  destruct (StoreFacts.save_bytes P ps Hps) as (bytes & Hbytes & _).
  eexists. split; [| split].
  - apply StoreFacts.save_text_fields; eassumption.
  - apply StoreFacts.read_saved; assumption.
  - apply StoreFacts.path_exists_insert.
Qed.

Lemma load_exists (P : Platform) (self : ConfigManager) (w : World)
  (ps : list ConfigPreset) :
  path_exists (config_file self) w = true ->
  Darkmode.read_presets P self w = Ok ps ->
  Darkmode._load_presets P self w = (Ok ps, w).
Proof.
  intros He Hr. unfold Darkmode._load_presets. rewrite He, Hr. reflexivity.
Qed.

(** What a save leaves of the world it starts from. *)
Lemma save_world (P : Platform) (self : ConfigManager)
  (ps : list ConfigPreset) (w : World) :
  exists bytes : list Byte.byte,
    snd (Darkmode._save_presets P self ps w)
    = set_fs (<[config_file self := bytes]> (fs w)) w
    /\ forall w' : World,
         Darkmode._save_presets P self ps w'
         = (fst (Darkmode._save_presets P self ps w),
            set_fs (<[config_file self := bytes]> (fs w')) w').
Proof.
  unfold Darkmode._save_presets, json_dump_to.
  destruct (write_chunks P _ []) as [r bytes].
  exists bytes. split; reflexivity.
Qed.

Lemma delete_last {A} (l : list A) (x : A) :
  delete (length l) (l ++ [x]) = l.
Proof.
  induction l as [| a l IH]; [reflexivity |].
  cbn [length app]. cbn. f_equal. exact IH.
Qed.

Lemma default_text : forallb text_fields Darkmode.default_presets = true.
Proof. vm_compute. reflexivity. Qed.

(** Loading again in the world a load left gives the same presets and
    changes nothing. *)
Lemma load_stable (P : Platform) (self : ConfigManager) (w w1 : World)
  (loaded : list ConfigPreset) :
  Darkmode._load_presets P self w = (Ok loaded, w1) ->
  Darkmode._load_presets P self w1 = (Ok loaded, w1).
Proof.
  unfold Darkmode._load_presets at 1.
  destruct (path_exists (config_file self) w) eqn:He.
  - destruct (Darkmode.read_presets P self w) as [ps | e] eqn:Hr;
      intros H; injection H as <- <-;
      unfold Darkmode._load_presets; rewrite He, Hr; reflexivity.
  - destruct (save_load P self _ w default_text)
      as (w2 & Hsave & Hread & Hex).
    unfold bind, ret. rewrite Hsave.
    intros H; injection H as <- <-.
    apply load_exists; assumption.
Qed.

End MutationFacts.

(** X1. [to_dict] and [from_dict] undo each other: a preset written as a
    dictionary reads back as itself, so two presets with the same
    dictionary are the same, and the dictionary of a preset read from any
    object carries, under the five keys, exactly what that object
    carries. *)
Theorem to_dict_from_dict :
  (forall p : ConfigPreset,
     Darkmode.from_dict (Darkmode.to_dict p) = Ok p
     /\ PyQt6.from_dict (PyQt6.to_dict p) = Ok p)
  /\ (forall p q : ConfigPreset,
        Darkmode.to_dict p = Darkmode.to_dict q -> p = q)
  /\ (forall (o : pyobj) (p : ConfigPreset),
        Darkmode.from_dict o = Ok p ->
        forall k : str, k ∈ required_keys ->
          Runtime.subscript (Darkmode.to_dict p) k = Runtime.subscript o k).
Proof.
  split; [| split].
  - intros [a b c d e]. split; reflexivity.
  - intros [a b c d e] [a' b' c' d' e'] H. injection H as -> -> -> -> ->.
    reflexivity.
  - intros o p Hp k Hk. unfold Darkmode.from_dict in Hp.
    destruct (Runtime.subscript o k_name) as [a |] eqn:Ha;
      [| discriminate].
    destruct (Runtime.subscript o k_auth_token) as [b |] eqn:Hb;
      [| discriminate].
    destruct (Runtime.subscript o k_base_url) as [c |] eqn:Hc;
      [| discriminate].
    destruct (Runtime.subscript o k_model) as [d |] eqn:Hd;
      [| discriminate].
    destruct (Runtime.subscript o k_small_fast_model) as [e |] eqn:He;
      [| discriminate].
    cbn in Hp. injection Hp as <-. unfold required_keys in Hk.
    repeat (apply elem_of_cons in Hk as [-> | Hk];
            [symmetry; assumption |]).
    inversion Hk.
Qed.

(** X2. [from_dict] succeeds exactly on a dictionary that has the five
    keys; on a dictionary that lacks one of them it raises [KeyError], and
    on anything that is not a dictionary [TypeError]. *)
Theorem from_dict_outcomes (o : pyobj) :
  match Darkmode.from_dict o with
  | Ok p => has_required_keys o = true
  | Raise e =>
    has_required_keys o = false
    /\ e = match o with
           | PyDict _ => KeyError
           | _ => TypeError
           end
  end.
Proof.
  destruct (has_required_keys o) eqn:Hk.
  - destruct (LoadFacts.from_dict_required o Hk) as (p & -> & _).
    reflexivity.
  - destruct o as [| | | | | d]; try (cbn; split; reflexivity).
    assert (Hmiss : exists k, k ∈ required_keys /\ Dict.getitem d k = None).
    { unfold has_required_keys, required_keys in *. cbn [forallb] in Hk.
      destruct (Dict.getitem d k_name) eqn:H1;
        [| exists k_name; split; [set_solver | exact H1]].
      destruct (Dict.getitem d k_auth_token) eqn:H2;
        [| exists k_auth_token; split; [set_solver | exact H2]].
      destruct (Dict.getitem d k_base_url) eqn:H3;
        [| exists k_base_url; split; [set_solver | exact H3]].
      destruct (Dict.getitem d k_model) eqn:H4;
        [| exists k_model; split; [set_solver | exact H4]].
      destruct (Dict.getitem d k_small_fast_model) eqn:H5;
        [| exists k_small_fast_model; split; [set_solver | exact H5]].
      exfalso. rewrite !bool_decide_eq_true_2 in Hk by eauto.
      discriminate. }
    destruct Hmiss as (k & Hin & Hnone).
    rewrite (LoadFacts.from_dict_missing d k Hin Hnone).
    split; reflexivity.
Qed.

(** X3. [_load_presets] touches no file but the backing file, no
    environment variable, nothing of the per-user store and prints
    nothing, however the call ends.  When the backing file exists the
    call leaves the whole world as it is, that file included, and returns
    what the file deserialises to, or the default presets when reading,
    decoding or deserialising it raises. *)
Theorem load_presets_frame
  (P : Platform) (self : ConfigManager) (w : World) :
  let res := Darkmode._load_presets P self w in
  (forall path : str,
     path <> config_file self -> fs (snd res) !! path = fs w !! path)
  /\ environ (snd res) = environ w
  /\ registry (snd res) = registry w
  /\ registry_fault (snd res) = registry_fault w
  /\ stdout (snd res) = stdout w
  /\ (Runtime.path_exists (config_file self) w = true ->
      snd res = w
      /\ fst res
         = Ok match Darkmode.read_presets P self w with
              | Ok loaded => loaded
              | Raise _ => Darkmode.default_presets
              end).
Proof.
  cbv zeta. unfold Darkmode._load_presets.
  destruct (Runtime.path_exists (config_file self) w) eqn:He.
  - destruct (Darkmode.read_presets P self w) as [loaded | e];
      cbn [fst snd]; repeat split; reflexivity.
  - destruct (MutationFacts.save_world P self Darkmode.default_presets w)
      as (bytes & Hw & _).
    unfold bind, ret.
    destruct (Darkmode._save_presets P self Darkmode.default_presets w)
      as [[[] | e] w1]; cbn [fst snd] in *; subst w1;
      (split; [intros path Hne; cbn [fs set_fs];
               apply lookup_insert_ne; congruence |]);
      repeat split; discriminate.
Qed.

(** X4. A backing file whose JSON value is not an array: [_load_presets]
    iterates over whatever it decoded, so an empty object or an empty
    string gives an empty collection, and every other value that is not an
    array gives the default preset.  The file is left as it is. *)
Theorem load_top_level_not_array
  (P : Platform) (self : ConfigManager) (w : World) (text : str)
  (data : pyobj) :
  Runtime.read_text (config_file self) w = Ok text ->
  Decoder.loads P text = Ok data ->
  (forall l : list pyobj, data <> PyList l) ->
  Darkmode._load_presets P self w
  = (Ok match data with
        | PyDict [] | PyStr [] => []
        | _ => Darkmode.default_presets
        end, w).
Proof.
  intros Hread Hloads Hlist. unfold Darkmode._load_presets.
  assert (He : Runtime.path_exists (config_file self) w = true).
  { unfold Runtime.read_text in Hread.
    destruct (fs w !! config_file self) as [bytes |] eqn:Hfs;
      [| discriminate].
    eapply LoadFacts.path_exists_Some. exact Hfs. }
  rewrite He. unfold Darkmode.read_presets. rewrite Hread. cbn [rbind].
  rewrite Hloads. cbn [rbind].
  destruct data as [| b | lit | [| c s] | l | [| [k v] d]];
    try reflexivity.
  exfalso. apply (Hlist l). reflexivity.
Qed.

Lemma load_top_level_not_array_witness :
  Darkmode._load_presets Sample.posix Sample.manager
    (Sample.world_with_file "{}")
  = (Ok [], Sample.world_with_file "{}").
Proof.
  refine (load_top_level_not_array Sample.posix Sample.manager
            (Sample.world_with_file "{}") [123%N; 125%N] (PyDict [])
            _ _ _).
  - vm_compute. reflexivity.
  - vm_compute. reflexivity.
  - intros l. discriminate.
Defined.

(** X5. [_save_presets] rewrites the backing file and nothing else: every
    other file, the environment, the per-user store and the output stay as
    they were, whether it raises or not; the backing file exists
    afterwards; and what an earlier save to the same file left, complete or
    not, makes no difference to the outcome or to the world it leaves. *)
Theorem save_presets_overwrites
  (P : Platform) (self : ConfigManager) (ps : list ConfigPreset)
  (w : World) :
  let w1 := snd (Darkmode._save_presets P self ps w) in
  (forall path : str,
     path <> config_file self -> fs w1 !! path = fs w !! path)
  /\ Runtime.path_exists (config_file self) w1 = true
  /\ environ w1 = environ w
  /\ registry w1 = registry w
  /\ registry_fault w1 = registry_fault w
  /\ stdout w1 = stdout w
  /\ (forall ps0 : list ConfigPreset,
        Darkmode._save_presets P self ps
          (snd (Darkmode._save_presets P self ps0 w))
        = Darkmode._save_presets P self ps w).
Proof.
  cbv zeta.
  destruct (MutationFacts.save_world P self ps w) as (bytes & Hw & Hany).
  rewrite Hw. cbn [fs environ registry registry_fault stdout set_fs].
  split; [intros path Hne; apply lookup_insert_ne; congruence |].
  split; [apply StoreFacts.path_exists_insert |].
  do 4 (split; [reflexivity |]).
  intros ps0.
  destruct (MutationFacts.save_world P self ps0 w) as (bytes0 & Hw0 & _).
  rewrite Hw0, (Hany w), (Hany (set_fs _ w)).
  cbn [fs set_fs]. rewrite insert_insert_eq. reflexivity.
Qed.

(** X6. Adding a preset and then deleting the index it was given, the
    old length, leaves the manager as it was before the two calls, and the
    world as a save of the old collection leaves it, whether or not the
    save of the longer collection succeeded. *)
Theorem add_then_delete
  (P : Platform) (self : ConfigManager) (preset : ConfigPreset) (w : World) :
  let added := Darkmode.add_preset P self preset w in
  let res :=
    Darkmode.delete_preset P (manager_after added)
      (Z.of_nat (length (presets self))) (world_after added) in
  manager_after res = self
  /\ (outcome res, world_after res)
     = Darkmode._save_presets P self (presets self) w.
Proof.
  cbv zeta. unfold Darkmode.add_preset. cbn [presets config_file].
  destruct (MutationFacts.save_world P
              {| config_file := config_file self;
                 presets := presets self ++ [preset] |}
              (presets self ++ [preset]) w) as (bytes1 & Hw1 & _).
  destruct (Darkmode._save_presets P _ (presets self ++ [preset]) w)
    as [r1 w1] eqn:Hs1.
  cbn [fst snd] in *. subst w1.
  unfold Darkmode.delete_preset. cbn [presets config_file].
  rewrite length_app. cbn [length].
  destruct (Z.leb_spec 0 (Z.of_nat (length (presets self)))); [| lia].
  destruct (Z.ltb_spec (Z.of_nat (length (presets self)))
              (Z.of_nat (length (presets self) + 1))); [| lia].
  cbn [andb]. unfold Runtime.list_pop. rewrite length_app. cbn [length].
  destruct (Z.ltb_spec (Z.of_nat (length (presets self))) 0); [lia |].
  destruct (Z.leb_spec 0 (Z.of_nat (length (presets self)))); [| lia].
  destruct (Z.ltb_spec (Z.of_nat (length (presets self)))
              (Z.of_nat (length (presets self) + 1))); [| lia].
  cbn [andb]. rewrite Nat2Z.id, MutationFacts.delete_last.
  cbn [presets config_file].
  destruct (MutationFacts.save_world P self (presets self) w)
    as (bytes & Hw & Hany).
  assert (Hsame :
    Darkmode._save_presets P
      {| config_file := config_file self; presets := presets self |}
    = Darkmode._save_presets P self) by (destruct self; reflexivity).
  rewrite Hsame, (Hany (set_fs _ w)).
  cbn [fst snd fs set_fs]. rewrite insert_insert_eq.
  split; [destruct self; reflexivity |].
  rewrite (Hany w). reflexivity.
Qed.

(** X7. A preset added to a collection, all with fields that are strings
    without surrogate code points, is saved at once: [add_preset] succeeds,
    puts the preset last and leaves every earlier preset where it was, and
    a manager that loads the backing file afterwards gets exactly the
    collection in memory and changes nothing. *)
Theorem add_preset_persists
  (P : Platform) (self : ConfigManager) (preset : ConfigPreset) (w : World) :
  forallb text_fields (presets self) = true ->
  text_fields preset = true ->
  let res := Darkmode.add_preset P self preset w in
  outcome res = Ok tt
  /\ presets (manager_after res) = presets self ++ [preset]
  /\ presets (manager_after res) !! length (presets self) = Some preset
  /\ (forall j : nat, (j < length (presets self))%nat ->
        presets (manager_after res) !! j = presets self !! j)
  /\ Darkmode._load_presets P (manager_after res) (world_after res)
     = (Ok (presets (manager_after res)), world_after res).
Proof.
  intros Hps Hp. cbv zeta. unfold Darkmode.add_preset.
  cbn [presets config_file].
  assert (Hall : forallb text_fields (presets self ++ [preset]) = true).
  { rewrite forallb_app, Hps. cbn. rewrite Hp. reflexivity. }
  destruct (MutationFacts.save_load P
              {| config_file := config_file self;
                 presets := presets self ++ [preset] |}
              _ w Hall) as (w1 & Hsave & Hread & Hex).
  rewrite Hsave. cbn [fst snd presets].
  split; [reflexivity |]. split; [reflexivity |].
  split; [apply list_lookup_middle; reflexivity |].
  split; [intros j Hj; apply lookup_app_l; exact Hj |].
  apply MutationFacts.load_exists; assumption.
Qed.

Lemma add_preset_persists_witness :
  let res :=
    Darkmode.add_preset Sample.windows Sample.manager (Sample.preset "D")
      Sample.empty_world in
  outcome res = Ok tt
  /\ presets (manager_after res)
     = presets Sample.manager ++ [Sample.preset "D"]
  /\ presets (manager_after res) !! length (presets Sample.manager)
     = Some (Sample.preset "D")
  /\ (forall j : nat, (j < length (presets Sample.manager))%nat ->
        presets (manager_after res) !! j = presets Sample.manager !! j)
  /\ Darkmode._load_presets Sample.windows (manager_after res)
       (world_after res)
     = (Ok (presets (manager_after res)), world_after res).
Proof.
  refine (add_preset_persists Sample.windows Sample.manager
            (Sample.preset "D") Sample.empty_world _ _).
  - vm_compute. reflexivity.
  - vm_compute. reflexivity.
Defined.

(** X8. Deleting within range from a collection whose remaining presets
    have fields that are strings without surrogate code points is saved at
    once: [delete_preset] succeeds, and a manager that loads the backing
    file afterwards gets exactly the shorter collection in memory. *)
Theorem delete_preset_persists
  (P : Platform) (self : ConfigManager) (index : nat) (w : World) :
  (index < length (presets self))%nat ->
  forallb text_fields (delete index (presets self)) = true ->
  let res := Darkmode.delete_preset P self (Z.of_nat index) w in
  outcome res = Ok tt
  /\ presets (manager_after res) = delete index (presets self)
  /\ Darkmode._load_presets P (manager_after res) (world_after res)
     = (Ok (presets (manager_after res)), world_after res).
Proof.
  intros Hi Hps. cbv zeta. unfold Darkmode.delete_preset.
  destruct (Z.leb_spec 0 (Z.of_nat index)); [| lia].
  destruct (Z.ltb_spec (Z.of_nat index)
              (Z.of_nat (length (presets self)))); [| lia].
  cbn [andb]. rewrite ListFacts.list_pop_in_range by lia.
  rewrite Nat2Z.id. cbn [presets config_file].
  destruct (MutationFacts.save_load P
              {| config_file := config_file self;
                 presets := delete index (presets self) |}
              _ w Hps) as (w1 & Hsave & Hread & Hex).
  rewrite Hsave. cbn [fst snd presets].
  split; [reflexivity |]. split; [reflexivity |].
  apply MutationFacts.load_exists; assumption.
Qed.

Lemma delete_preset_persists_witness :
  let res :=
    Darkmode.delete_preset Sample.posix Sample.manager (Z.of_nat 0)
      Sample.empty_world in
  outcome res = Ok tt
  /\ presets (manager_after res) = delete 0%nat (presets Sample.manager)
  /\ Darkmode._load_presets Sample.posix (manager_after res)
       (world_after res)
     = (Ok (presets (manager_after res)), world_after res).
Proof.
  refine (delete_preset_persists Sample.posix Sample.manager 0
            Sample.empty_world _ _).
  - vm_compute. lia.
  - vm_compute. reflexivity.
Defined.

(** * The file after a save that failed *)

Module PartialFacts.
Import Unicode Encoder Decoder Layout Runtime.
Import UnicodeFacts TextFacts JsonFacts SaveFails.
Local Open Scope N_scope.

Lemma forallb_is_text_concat (chunks : list str) :
  forallb is_text chunks = is_text (concat chunks).
Proof.
  induction chunks as [| c r IH]; [reflexivity |].
  cbn [forallb concat]. rewrite is_text_app, IH. reflexivity.
Qed.

Lemma written_text_app (a b : list str) :
  Partial.written_text (a ++ b)
  = if forallb is_text a then concat a ++ Partial.written_text b
    else Partial.written_text a.
Proof.
  induction a as [| c a IH]; [reflexivity |].
  cbn [app Partial.written_text forallb concat].
  destruct (is_text c); cbn [andb]; [| reflexivity].
  rewrite IH. destruct (forallb is_text a); [| reflexivity].
  rewrite app_assoc. reflexivity.
Qed.

Lemma is_text_encode_basestring (s : str) :
  is_text (encode_basestring s) = is_text s.
Proof.
  unfold encode_basestring. change (is_text (34 :: ?x)) with (is_text x).
  rewrite is_text_app, is_text_escape. apply andb_true_r.
Qed.

Lemma cut_rest (k v : str) (r : list (str * str)) :
  existsb Partial.cut ((k, v) :: r) = true -> is_text v = true ->
  exists k' v' r', r = (k', v') :: r' /\ existsb Partial.cut r = true.
Proof.
  cbn [existsb]. unfold Partial.cut at 1. cbn [snd]. intros H Hv.
  rewrite Hv in H. cbn [negb orb] in H.
  destruct r as [| [k' v'] r']; [discriminate |]. eauto.
Qed.

Lemma text_fields_cut (p : ConfigPreset) :
  str_fields p = true -> text_fields p = false ->
  existsb Partial.cut (Partial.items p) = true
  /\ Darkmode.to_dict p = PyDict (map Partial.str_item (Partial.items p)).
Proof.
  intros Hp Hbad. DumpFacts.str_preset p.
  split; [| reflexivity].
  unfold text_fields in Hbad. cbn in Hbad. cbn. unfold Partial.cut. cbn [snd].
  destruct (is_text s), (is_text s0), (is_text s1), (is_text s2),
    (is_text s3); first [discriminate | reflexivity].
Qed.

Lemma items_keys (p : ConfigPreset) :
  forallb (fun kv => is_text (fst kv)) (Partial.items p) = true.
Proof. reflexivity. Qed.

Lemma rest_bad (p : ConfigPreset) (r : list ConfigPreset) :
  forallb text_fields (p :: r) = false -> text_fields p = true ->
  exists q r', r = q :: r' /\ forallb text_fields r = false.
Proof.
  cbn [forallb]. intros H Hp. rewrite Hp in H. cbn [andb] in H.
  destruct r as [| q r']; [discriminate |]. eauto.
Qed.

Lemma clean_fields (r : list (str * str)) :
  forall k v : str,
  forallb (fun kv => is_text (fst kv)) ((k, v) :: r) = true ->
  forallb clean (Partial.fields_text k v r) = true.
Proof.
  induction r as [| [k' v'] r IH]; intros k v Hkeys;
    apply andb_true_iff in Hkeys as [Hk Hkeys]; cbn [fst] in Hk;
    cbn [Partial.fields_text]; destruct (is_text v) eqn:Hv;
    repeat (rewrite ?forallb_app, ?clean_escape, ?clean_indent, ?IH
              by assumption; cbn [forallb andb]);
    reflexivity.
Qed.

Lemma clean_object (p : ConfigPreset) :
  forallb clean (Partial.object_text (Partial.items p)) = true.
Proof.
  unfold Partial.items. cbn [Partial.object_text forallb].
  rewrite forallb_app, clean_indent. cbn [forallb andb].
  apply clean_fields. reflexivity.
Qed.

Lemma clean_array (r : list ConfigPreset) :
  forall p : ConfigPreset,
  forallb clean (Partial.array_text p r) = true.
Proof.
  induction r as [| q r IH]; intros p; cbn [Partial.array_text];
    destruct (text_fields p) eqn:Hp.
  - rewrite app_nil_r. exact (clean_preset p Hp).
  - exact (clean_object p).
  - rewrite forallb_app, (clean_preset p Hp). cbn [forallb andb].
    change (clean 44) with true. cbn [andb].
    rewrite forallb_app, clean_indent. exact (IH q).
  - exact (clean_object p).
Qed.

Lemma clean_presets_cut (ps : list ConfigPreset) :
  forallb clean (Partial.presets_text ps) = true.
Proof.
  destruct ps as [| p r]; [reflexivity |].
  cbn [Partial.presets_text forallb].
  rewrite forallb_app, clean_indent, clean_array. reflexivity.
Qed.

Lemma object_text_head (p : ConfigPreset) :
  exists x : str,
    Partial.object_text (Partial.items p) = 123 :: x
    /\ (7 <= length x)%nat.
Proof.
  unfold Partial.items. cbn [Partial.object_text].
  eexists. split; [reflexivity |].
  rewrite length_app. cbn. lia.
Qed.

Lemma array_text_head (r : list ConfigPreset) (p : ConfigPreset) :
  exists x : str, Partial.array_text p r = 123 :: x.
Proof.
  destruct (object_text_head p) as (x & Hx & _).
  destruct r; cbn [Partial.array_text]; destruct (text_fields p);
    try (exists x; exact Hx); eexists; reflexivity.
Qed.

Section WithPlatform.
Context (P : Platform).

(** A chunk that cannot be encoded ends the write; the chunks before it
    are in the file. *)
Lemma write_chunks_partial (chunks : list str) (written : list Byte.byte) :
  forallb is_text chunks = false ->
  exists bs : list Byte.byte,
    utf8_encode (translate_out P (Partial.written_text chunks)) = Some bs
    /\ write_chunks P chunks written = (Raise UnicodeEncodeError, written ++ bs).
Proof.
  revert written. induction chunks as [| c r IH]; intros written;
    cbn [forallb]; [discriminate |].
  cbn [Partial.written_text write_chunks].
  destruct (is_text c) eqn:Hc; cbn [andb].
  - intros Hr.
    destruct (utf8_encode_text (translate_out P c)) as [x Hx].
    { apply translate_out_text, Hc. }
    rewrite Hx. destruct (IH (written ++ x) Hr) as (bs & Hbs & Hw).
    exists (x ++ bs). split.
    + rewrite translate_out_app, utf8_encode_app, Hx, Hbs. reflexivity.
    + rewrite Hw, app_assoc. reflexivity.
  - intros _. exists []. split.
    + unfold translate_out. destruct (win32 P); reflexivity.
    + rewrite utf8_encode_not_text
        by (rewrite is_text_translate_out; exact Hc).
      rewrite app_nil_r. reflexivity.
Qed.

(** One turn of the loop over the items of an object. *)
Lemma dict_chunks_step (k v : str) (l : list (str * pyobj)) (first : bool)
  (tail : list str) :
  is_text k = true ->
  Partial.written_text
    (dict_chunks (scalar_text P) (iterencode P 2) (newline_indent 2) first
       ((k, PyStr v) :: l) ++ tail)
  = (if first then [] else 44 :: newline_indent 2)
    ++ 34 :: escape k ++ 34 :: 58 :: 32 ::
    (if is_text v then
       34 :: escape v ++ 34 ::
       Partial.written_text
         (dict_chunks (scalar_text P) (iterencode P 2) (newline_indent 2)
            false l ++ tail)
     else []).
Proof.
  intros Hk. cbn [dict_chunks scalar_text].
  rewrite <- !app_assoc, written_text_app.
  replace (forallb is_text (if first then [] else [44 :: newline_indent 2]))
    with true by (destruct first; reflexivity).
  cbn [app Partial.written_text].
  rewrite !is_text_encode_basestring, Hk.
  change (is_text [58; 32]) with true. cbv iota.
  destruct (is_text v); destruct first; unfold encode_basestring;
    cbn [concat app]; repeat (rewrite <- ?app_assoc; cbn [app]);
    reflexivity.
Qed.

(** The loop over the items of an object, up to the value that stops
    it. *)
Lemma dict_chunks_cut (r : list (str * str)) :
  forall (k v : str) (first : bool) (tail : list str),
  forallb (fun kv => is_text (fst kv)) ((k, v) :: r) = true ->
  existsb Partial.cut ((k, v) :: r) = true ->
  Partial.written_text
    (dict_chunks (scalar_text P) (iterencode P 2) (newline_indent 2) first
       (map Partial.str_item ((k, v) :: r)) ++ tail)
  = (if first then [] else 44 :: newline_indent 2)
    ++ 34 :: Partial.fields_text k v r.
Proof.
  induction r as [| [k' v'] r IH]; intros k v first tail Hkeys Hcut;
    apply andb_true_iff in Hkeys as [Hk Hkeys]; cbn [fst] in Hk;
    change (map Partial.str_item ((k, v) :: ?l))
      with ((k, PyStr v) :: map Partial.str_item l);
    rewrite (dict_chunks_step k v _ first tail Hk);
    cbn [Partial.fields_text]; destruct (is_text v) eqn:Hv;
    try reflexivity.
  - destruct (cut_rest k v [] Hcut Hv) as (? & ? & ? & [=] & _).
  - destruct (cut_rest k v _ Hcut Hv) as (? & ? & ? & _ & Hcut').
    rewrite (IH k' v' false tail Hkeys Hcut'). reflexivity.
Qed.

(** The chunks of a preset with a value that stops the write. *)
Lemma preset_chunks_cut (p : ConfigPreset) :
  str_fields p = true -> text_fields p = false ->
  Partial.written_text (iterencode P 1 (Darkmode.to_dict p))
  = Partial.object_text (Partial.items p).
Proof.
  intros Hp Hbad.
  destruct (text_fields_cut p Hp Hbad) as [Hcut ->].
  pose proof (items_keys p) as Hkeys.
  unfold Partial.items in *.
  cbn [map iterencode].
  change (Partial.str_item ?kv :: map Partial.str_item ?l)
    with (map Partial.str_item (kv :: l)).
  cbn [Partial.written_text Partial.object_text].
  change (is_text [123]) with true.
  change (is_text (newline_indent 2)) with true. cbv iota.
  rewrite (dict_chunks_cut _ _ _ true _ Hkeys Hcut).
  reflexivity.
Qed.

(** One turn of the loop over the elements of the array. *)
Lemma list_chunks_step (p : ConfigPreset) (l : list pyobj) (first : bool)
  (tail : list str) :
  str_fields p = true ->
  Partial.written_text
    (list_chunks (scalar_text P) (iterencode P 1) (newline_indent 1) first
       (Darkmode.to_dict p :: l) ++ tail)
  = (if first then [91] else [44]) ++ newline_indent 1
    ++ (if text_fields p then
          preset_text p
          ++ Partial.written_text
               (list_chunks (scalar_text P) (iterencode P 1)
                  (newline_indent 1) false l ++ tail)
        else Partial.object_text (Partial.items p)).
Proof.
  intros Hp. cbn [list_chunks].
  change (scalar_text P (Darkmode.to_dict p)) with (@None str).
  cbn [app Partial.written_text].
  replace (is_text ((if first then [91] else [44]) ++ newline_indent 1))
    with true by (destruct first; reflexivity).
  rewrite <- !app_assoc, written_text_app, forallb_is_text_concat,
    (DumpFacts.preset_chunks P p Hp), (is_text_preset p Hp).
  destruct (text_fields p) eqn:Hp'; [reflexivity |].
  rewrite (preset_chunks_cut p Hp Hp'). reflexivity.
Qed.

(** The loop over the elements of the array, up to the value that stops
    it. *)
Lemma list_chunks_cut (r : list ConfigPreset) :
  forall (p : ConfigPreset) (first : bool) (tail : list str),
  forallb str_fields (p :: r) = true ->
  forallb text_fields (p :: r) = false ->
  Partial.written_text
    (list_chunks (scalar_text P) (iterencode P 1) (newline_indent 1) first
       (map Darkmode.to_dict (p :: r)) ++ tail)
  = (if first then [91] else [44]) ++ newline_indent 1
    ++ Partial.array_text p r.
Proof.
  induction r as [| q r IH]; intros p first tail Hstr Hbad;
    apply andb_true_iff in Hstr as [Hp Hstr];
    change (map Darkmode.to_dict (p :: ?l))
      with (Darkmode.to_dict p :: map Darkmode.to_dict l);
    rewrite (list_chunks_step p _ first tail Hp);
    cbn [Partial.array_text]; destruct (text_fields p) eqn:Hp';
    try reflexivity.
  - destruct (rest_bad p [] Hbad Hp') as (? & ? & [=] & _).
  - destruct (rest_bad p _ Hbad Hp') as (? & ? & _ & Hbad').
    rewrite (IH q false tail Hstr Hbad'). reflexivity.
Qed.

(** What [json.dump] has written of a list of presets when it raises. *)
Lemma presets_chunks_cut (ps : list ConfigPreset) :
  forallb str_fields ps = true -> forallb text_fields ps = false ->
  Partial.written_text (iterencode P 0 (PyList (map Darkmode.to_dict ps)))
  = Partial.presets_text ps.
Proof.
  destruct ps as [| p r]; [discriminate |].
  intros Hstr Hbad.
  pose proof (list_chunks_cut r p true [newline_indent 0; [93]] Hstr Hbad)
    as Hcut.
  cbn [map iterencode Partial.presets_text] in *. rewrite Hcut.
  reflexivity.
Qed.

(** An object cut before a value is refused. *)
Lemma object_items_cut (r : list (str * str)) :
  forall (k v : str) (f : nat) (acc : list (str * pyobj)),
  existsb Partial.cut ((k, v) :: r) = true ->
  object_items P (length r + 2 + f) (Partial.fields_text k v r) acc
  = Invalid JSONDecodeError.
Proof.
  induction r as [| [k' v'] r IH]; intros k v f acc Hcut;
    cbn [Partial.fields_text]; destruct (is_text v) eqn:Hv.
  - destruct (cut_rest k v [] Hcut Hv) as (? & ? & ? & [=] & _).
  - change (length [] + 2 + f)%nat with (S (S f)).
    rewrite ParseFacts.object_items_S, scanstring_escape. reflexivity.
  - destruct (cut_rest k v _ Hcut Hv) as (? & ? & ? & _ & Hcut').
    replace (length ((k', v') :: r) + 2 + f)%nat
      with (S (S (length r + 1 + f))) by (cbn [length]; lia).
    rewrite ParseFacts.object_items_more.
    replace (S (length r + 1 + f)) with (length r + 2 + f)%nat by lia.
    apply IH, Hcut'.
  - replace (length ((k', v') :: r) + 2 + f)%nat
      with (S (S (length r + 1 + f))) by (cbn [length]; lia).
    rewrite ParseFacts.object_items_S, scanstring_escape. reflexivity.
Qed.

Lemma scan_once_cut (p : ConfigPreset) (f : nat) :
  str_fields p = true -> text_fields p = false ->
  scan_once P (7 + f) (Partial.object_text (Partial.items p))
  = Invalid JSONDecodeError.
Proof.
  intros Hp Hbad. destruct (text_fields_cut p Hp Hbad) as [Hcut _].
  unfold Partial.items in *. cbn [Partial.object_text].
  change (7 + f)%nat with (S (6 + f)). rewrite ParseFacts.scan_once_S.
  change (123 =? 34) with false. change (123 =? 123) with true. cbv iota.
  rewrite ParseFacts.skip_ws_indent by reflexivity.
  change (34 =? 125) with false. change (34 =? 34) with true. cbv iota.
  apply (object_items_cut _ _ _ f [] Hcut).
Qed.

(** An array cut inside one of its elements is refused. *)
Lemma array_items_cut (r : list ConfigPreset) :
  forall (p : ConfigPreset) (f : nat) (acc : list pyobj),
  forallb str_fields (p :: r) = true ->
  forallb text_fields (p :: r) = false ->
  array_items P (length (Partial.array_text p r) + f)
    (Partial.array_text p r) acc
  = Invalid JSONDecodeError.
Proof.
  induction r as [| q r IH]; intros p f acc Hstr Hbad;
    apply andb_true_iff in Hstr as [Hp Hstr];
    cbn [Partial.array_text]; destruct (text_fields p) eqn:Hp'.
  - destruct (rest_bad p [] Hbad Hp') as (? & ? & [=] & _).
  - destruct (object_text_head p) as (x & Hx & Hlen).
    rewrite Hx at 1. cbn [length].
    replace (S (length x) + f)%nat with (S (7 + (length x - 7 + f)))
      by lia.
    rewrite ParseFacts.array_items_S, (scan_once_cut p _ Hp Hp').
    reflexivity.
  - destruct (rest_bad p _ Hbad Hp') as (? & ? & _ & Hbad').
    pose proof (ParseFacts.preset_text_length p) as Hlen.
    destruct (array_text_head r q) as (hd & Hx).
    rewrite length_app. cbn [length]. rewrite length_app.
    set (n := length (Partial.array_text q r)).
    replace (length (preset_text p) + S (length (newline_indent 1) + n) + f)%nat
      with (S (7 + (n + (length (preset_text p) - 7
                         + length (newline_indent 1) + f))))
      by lia.
    rewrite ParseFacts.array_items_S,
      (ParseFacts.scan_once_preset P _ p _ Hp).
    change (skip_ws (44 :: ?y)) with (44 :: y).
    cbv iota beta. change (44 =? 93) with false. change (44 =? 44) with true.
    cbv iota. rewrite Hx at 1.
    rewrite ParseFacts.skip_ws_indent by reflexivity. rewrite <- Hx.
    replace (7 + (n + (length (preset_text p) - 7
                       + length (newline_indent 1) + f)))%nat
      with (n + (length (preset_text p) + length (newline_indent 1) + f))%nat
      by lia.
    apply IH; assumption.
  - destruct (object_text_head p) as (x & Hx & Hlen).
    rewrite Hx at 1. cbn [length].
    replace (S (length x) + f)%nat with (S (7 + (length x - 7 + f)))
      by lia.
    rewrite ParseFacts.array_items_S, (scan_once_cut p _ Hp Hp').
    reflexivity.
Qed.

(** [json.loads] refuses what a failed save has written. *)
Lemma loads_cut (ps : list ConfigPreset) :
  forallb str_fields ps = true -> forallb text_fields ps = false ->
  loads P (Partial.presets_text ps) = Raise JSONDecodeError.
Proof.
  destruct ps as [| p r]; [discriminate |].
  intros Hstr Hbad. unfold loads. cbn [Partial.presets_text].
  change (skip_ws (91 :: ?x)) with (91 :: x).
  cbn [length]. rewrite length_app.
  set (n := length (Partial.array_text p r)).
  replace (2 * S (length (newline_indent 1) + n) + 1)%nat
    with (S (n + (n + 2 * length (newline_indent 1) + 2)))
    by lia.
  rewrite ParseFacts.scan_once_S.
  change (91 =? 34) with false. change (91 =? 123) with false.
  change (91 =? 91) with true. cbv iota.
  destruct (array_text_head r p) as (x & Hx).
  rewrite Hx at 1. rewrite ParseFacts.skip_ws_indent by reflexivity.
  change (123 =? 93) with false. cbv iota. rewrite <- Hx.
  unfold n. rewrite (array_items_cut r p _ [] Hstr Hbad). reflexivity.
Qed.

(** A save that fails leaves a file that cannot be read back. *)
Lemma save_cut (self : ConfigManager) (ps : list ConfigPreset) (w : World) :
  forallb str_fields ps = true -> forallb text_fields ps = false ->
  exists bytes : list Byte.byte,
    Darkmode._save_presets P self ps w
    = (Raise UnicodeEncodeError,
       set_fs (<[config_file self := bytes]> (fs w)) w)
    /\ Darkmode.read_presets P self
         (set_fs (<[config_file self := bytes]> (fs w)) w)
       = Raise JSONDecodeError.
Proof.
  intros Hstr Hbad.
  destruct (write_chunks_partial
              (iterencode P 0 (PyList (map Darkmode.to_dict ps))) [])
    as (bytes & Hbytes & Hwrite).
  { rewrite forallb_is_text_concat, DumpFacts.presets_chunks,
      is_text_presets by exact Hstr. exact Hbad. }
  rewrite (presets_chunks_cut ps Hstr Hbad) in Hbytes.
  exists bytes. split.
  - unfold Darkmode._save_presets, json_dump_to. rewrite Hwrite.
    reflexivity.
  - unfold Darkmode.read_presets, read_text. cbn [fs set_fs].
    rewrite lookup_insert_eq, (utf8_decode_encode _ _ Hbytes).
    rewrite universal_newlines_translate_out by apply clean_presets_cut.
    cbn [rbind]. rewrite (loads_cut ps Hstr Hbad). reflexivity.
Qed.

End WithPlatform.
End PartialFacts.



(** X10. A manager that was constructed reads [env_config.json], and
    constructing one again in the world the construction left gives the
    same manager and changes nothing more: what the first start found or
    wrote is what every later start finds. *)
Theorem init_twice
  (P : Platform) (w : World) (self : ConfigManager) (w1 : World) :
  Darkmode.__init__ P w = (Ok self, w1) ->
  config_file self = env_config_json
  /\ Darkmode.__init__ P w1 = (Ok self, w1).
Proof.
  unfold Darkmode.__init__.
  destruct (Darkmode._load_presets P
              {| config_file := env_config_json; presets := [] |} w)
    as [[loaded | e] w2] eqn:Hload; [| discriminate].
  intros H. injection H as <- <-.
  rewrite (MutationFacts.load_stable P _ w w2 loaded Hload).
  split; reflexivity.
Qed.

Lemma init_twice_witness :
  let self := {| config_file := env_config_json;
                 presets := Darkmode.default_presets |} in
  let w1 := snd (Darkmode.__init__ Sample.posix Sample.empty_world) in
  config_file self = env_config_json
  /\ Darkmode.__init__ Sample.posix w1 = (Ok self, w1).
Proof.
  refine (init_twice Sample.posix Sample.empty_world
            {| config_file := env_config_json;
               presets := Darkmode.default_presets |}
            (snd (Darkmode.__init__ Sample.posix Sample.empty_world)) _).
  vm_compute. reflexivity.
Defined.

(** * More about applying *)

Module SessionFacts.
Import Runtime ApplyFacts.

(** What the guarded registry session leaves in the registry and on the
    output. *)
Lemma block_registry (text a b c d : str) (w : World) :
  let block :=
    try_except
      (OpenKey ;;;
       SetValueEx 1 ANTHROPIC_AUTH_TOKEN (PyStr a) ;;;
       SetValueEx 2 ANTHROPIC_BASE_URL (PyStr b) ;;;
       SetValueEx 3 ANTHROPIC_MODEL (PyStr c) ;;;
       SetValueEx 4 ANTHROPIC_SMALL_FAST_MODEL (PyStr d))
      (fun e => print_warning text e) in
  registry (snd (block w))
  = assigned (take (written (registry_fault w)) (assignments a b c d))
      (registry w)
  /\ (registry_fault w = None -> stdout (snd (block w)) = stdout w).
Proof.
  cbv zeta. destruct w as [files env reg fault out].
  unfold try_except, bind, OpenKey, SetValueEx, print_warning,
    set_registry, set_stdout.
  cbn [fs environ registry registry_fault stdout].
  destruct fault as [[| [| [| [| [| k]]]]] |];
    repeat (case_bool_decide; try congruence;
            cbn [fst snd fs environ registry registry_fault stdout]);
    (split; [reflexivity | first [reflexivity | discriminate]]).
Qed.

(** Assignments to the same variables hide the ones made before. *)
Lemma assigned_over (n m : nat) (a b c d a' b' c' d' : str)
  (reg : gmap str str) :
  (m <= n)%nat ->
  assigned (take n (assignments a b c d))
    (assigned (take m (assignments a' b' c' d')) reg)
  = assigned (take n (assignments a b c d)) reg.
Proof.
  intros Hle. unfold assignments.
  destruct n as [| [| [| [| n]]]]; destruct m as [| [| [| [| m]]]];
    try lia; cbn [take assigned foldl fst snd]; rewrite ?take_nil;
    cbn [assigned foldl]; try reflexivity; same_map.
Qed.

Lemma assigned_other (n : nat) (a b c d : str) (reg : gmap str str)
  (k : str) :
  k <> ANTHROPIC_AUTH_TOKEN -> k <> ANTHROPIC_BASE_URL ->
  k <> ANTHROPIC_MODEL -> k <> ANTHROPIC_SMALL_FAST_MODEL ->
  assigned (take n (assignments a b c d)) reg !! k = reg !! k.
Proof.
  intros H1 H2 H3 H4. unfold assignments.
  destruct n as [| [| [| [| n]]]]; cbn [take assigned foldl fst snd];
    rewrite ?take_nil; cbn [assigned foldl];
    rewrite ?lookup_insert_ne by congruence; reflexivity.
Qed.

(** Closes the case in which [apply_preset] raised after [n]
    assignments. *)
Ltac raised n :=
  exists n, 0%nat;
  cbn [fst snd fs environ registry registry_fault stdout set_environ
       str_value];
  split; [lia |]; split; [reflexivity |]; split; [reflexivity |];
  split; [lia |]; split; [intros _; split; reflexivity |];
  split;
  [ intros ? _; split; [reflexivity |]; split; [reflexivity |];
    intros ? [= <-] ?; first [congruence | lia]
  | split; reflexivity ].

(** One assignment to [os.environ]: raising after [n] earlier ones, or
    made. *)
Ltac assign P v n :=
  destruct v as [| | | ? | |];
  try (rewrite !(setitem_not_str P) by reflexivity; raised n);
  match goal with
  | |- context [environ_setitem P _ (PyStr ?s)] =>
    let E := fresh "E" in
    destruct (putenv_error P s) eqn:E;
      [ rewrite !(setitem_refused P _ _ _ _ _ E); raised n
      | rewrite !(setitem_accepted P _ _ _ _ E);
        rewrite ?IdempotenceFacts.environ_set_environ,
          ?IdempotenceFacts.set_environ_twice ]
  end.

(** The world a call of [apply_preset] leaves, whichever way it goes:
    the first [n] variables are assigned in the environment and the first
    [m] in the registry. *)
Lemma chain_world (P : Platform) (text : str) (a b c d : pyobj) (w : World) :
  let chain :=
    (environ_setitem P ANTHROPIC_AUTH_TOKEN a ;;;
     environ_setitem P ANTHROPIC_BASE_URL b ;;;
     environ_setitem P ANTHROPIC_MODEL c ;;;
     environ_setitem P ANTHROPIC_SMALL_FAST_MODEL d ;;;
     if win32 P then
       try_except
         (OpenKey ;;;
          SetValueEx 1 ANTHROPIC_AUTH_TOKEN a ;;;
          SetValueEx 2 ANTHROPIC_BASE_URL b ;;;
          SetValueEx 3 ANTHROPIC_MODEL c ;;;
          SetValueEx 4 ANTHROPIC_SMALL_FAST_MODEL d)
         (fun e => print_warning text e)
     else ret tt) in
  let values :=
    assignments (str_value a) (str_value b) (str_value c) (str_value d) in
  let handed_back :=
    assignments (environ_value P (str_value a))
      (environ_value P (str_value b)) (environ_value P (str_value c))
      (environ_value P (str_value d)) in
  exists n m : nat,
    (n <= 4)%nat
    /\ environ (snd (chain w)) = assigned (take n handed_back) (environ w)
    /\ registry (snd (chain w)) = assigned (take m values) (registry w)
    /\ (m <= written (registry_fault w))%nat
    /\ (win32 P = false -> m = 0%nat /\ stdout (snd (chain w)) = stdout w)
    /\ (forall e : exn, fst (chain w) = Raise e ->
          m = 0%nat /\ stdout (snd (chain w)) = stdout w
          /\ (forall s : str, a = PyStr s -> putenv_error P s = None ->
                (0 < n)%nat))
    /\ fs (snd (chain w)) = fs w
    /\ registry_fault (snd (chain w)) = registry_fault w.
Proof.
  cbv zeta.
  assign P a 0%nat. assign P b 1%nat. assign P c 2%nat. assign P d 3%nat.
  cbn [str_value].
  destruct (win32 P); cbv iota.
  - match goal with
    | |- context [try_except
                    (OpenKey ;;; SetValueEx 1 _ (PyStr ?x1) ;;;
                     SetValueEx 2 _ (PyStr ?x2) ;;;
                     SetValueEx 3 _ (PyStr ?x3) ;;;
                     SetValueEx 4 _ (PyStr ?x4)) _ ?W] =>
      pose proof (registry_block_facts text x1 x2 x3 x4 W)
        as (Hok & Henv & Hfs & Hfault & _ & _);
      pose proof (block_registry text x1 x2 x3 x4 W) as (Hreg & _)
    end.
    cbv zeta in *. exists 4%nat, (written (registry_fault w)).
    rewrite Hok, Henv, Hfs, Hfault, Hreg.
    cbn [fs environ registry registry_fault set_environ].
    split; [lia |]. split; [reflexivity |]. split; [reflexivity |].
    split; [lia |]. split; [discriminate |].
    split; [discriminate |]. split; reflexivity.
  - exists 4%nat, 0%nat. unfold ret.
    cbn [fst snd fs environ registry registry_fault stdout set_environ].
    split; [lia |]. split; [reflexivity |]. split; [reflexivity |].
    split; [lia |]. split; [intros _; split; reflexivity |].
    split; [discriminate |]. split; reflexivity.
Qed.

(** The same for values the environment accepts. *)
Lemma chain_accepted_world (P : Platform) (text : str) (a b c d : str)
  (w : World) :
  putenv_error P a = None -> putenv_error P b = None ->
  putenv_error P c = None -> putenv_error P d = None ->
  let chain :=
    (environ_setitem P ANTHROPIC_AUTH_TOKEN (PyStr a) ;;;
     environ_setitem P ANTHROPIC_BASE_URL (PyStr b) ;;;
     environ_setitem P ANTHROPIC_MODEL (PyStr c) ;;;
     environ_setitem P ANTHROPIC_SMALL_FAST_MODEL (PyStr d) ;;;
     if win32 P then
       try_except
         (OpenKey ;;;
          SetValueEx 1 ANTHROPIC_AUTH_TOKEN (PyStr a) ;;;
          SetValueEx 2 ANTHROPIC_BASE_URL (PyStr b) ;;;
          SetValueEx 3 ANTHROPIC_MODEL (PyStr c) ;;;
          SetValueEx 4 ANTHROPIC_SMALL_FAST_MODEL (PyStr d))
         (fun e => print_warning text e)
     else ret tt) in
  fst (chain w) = Ok tt
  /\ environ (snd (chain w))
     = assigned
         (take 4 (assignments (environ_value P a) (environ_value P b)
                    (environ_value P c) (environ_value P d)))
         (environ w)
  /\ registry (snd (chain w))
     = assigned
         (take (if win32 P then written (registry_fault w) else 0%nat)
               (assignments a b c d))
         (registry w)
  /\ (registry_fault w = None -> stdout (snd (chain w)) = stdout w).
Proof.
  intros Ea Eb Ec Ed. cbv zeta.
  rewrite (setitem_accepted P _ _ _ _ Ea), (setitem_accepted P _ _ _ _ Eb),
    (setitem_accepted P _ _ _ _ Ec), (setitem_accepted P _ _ _ _ Ed).
  rewrite ?IdempotenceFacts.environ_set_environ,
    ?IdempotenceFacts.set_environ_twice.
  destruct (win32 P); cbv iota.
  - match goal with
    | |- context [try_except _ _ ?W] =>
      pose proof (registry_block_facts text a b c d W)
        as (Hok & Henv & _ & _ & _ & _);
      pose proof (block_registry text a b c d W) as (Hreg & Hout)
    end.
    cbv zeta in *. rewrite Hok, Henv, Hreg.
    cbn [environ registry registry_fault stdout set_environ] in *.
    split; [reflexivity |]. split; [reflexivity |].
    split; [reflexivity | exact Hout].
  - unfold ret. cbn [fst snd environ registry stdout set_environ].
    split; [reflexivity |]. split; [reflexivity |].
    split; [reflexivity |]. intros _. reflexivity.
Qed.

Lemma assigned_first (n : nat) (a b c d : str) (m : gmap str str) :
  (0 < n)%nat ->
  assigned (take n (assignments a b c d)) m !! ANTHROPIC_AUTH_TOKEN = Some a.
Proof.
  intros Hn. pose proof keys_distinct as (? & ? & ? & ? & ? & ?).
  unfold assignments.
  destruct n as [| [| [| [| n]]]]; [lia | ..];
    cbn [take assigned foldl fst snd]; rewrite ?take_nil;
    cbn [assigned foldl];
    rewrite ?lookup_insert; repeat case_decide; congruence.
Qed.

End SessionFacts.



(** X12. Whatever the preset and however the call ends, [apply_preset]
    touches no file, in particular not the backing file, and no variable
    other than the four, neither in the process nor in the per-user store;
    on a platform other than win32 it leaves the per-user store alone and
    prints nothing. *)
Theorem apply_preset_frame
  (P : Platform) (preset : ConfigPreset) (w : World) :
  let w1 := snd (Darkmode.apply_preset P preset w) in
  fs w1 = fs w
  /\ (forall k : str,
        k <> ANTHROPIC_AUTH_TOKEN -> k <> ANTHROPIC_BASE_URL ->
        k <> ANTHROPIC_MODEL -> k <> ANTHROPIC_SMALL_FAST_MODEL ->
        environ w1 !! k = environ w !! k
        /\ registry w1 !! k = registry w !! k)
  /\ (win32 P = false -> registry w1 = registry w /\ stdout w1 = stdout w).
Proof.
  cbv zeta. unfold Darkmode.apply_preset.
  destruct (SessionFacts.chain_world P Darkmode.warning_text
              (auth_token preset) (base_url preset) (model preset)
              (small_fast_model preset) w)
    as (n & m & _ & Henv & Hreg & _ & Hposix & _ & Hfs & _).
  split; [exact Hfs |]. split.
  - intros k H1 H2 H3 H4. rewrite Henv, Hreg.
    split; apply SessionFacts.assigned_other; assumption.
  - intros Hw. destruct (Hposix Hw) as (-> & Hout).
    split; [exact Hreg | exact Hout].
Qed.

(** X13. On win32, when the environment accepts the four values and no
    registry operation fails, [apply_preset] succeeds, the per-user store
    holds the four values under the four names and is otherwise as before,
    so it agrees with the process environment on the four names, and no
    warning is printed. *)
Theorem apply_preset_store_written
  (P : Platform) (preset : ConfigPreset) (w : World) (a b c d : str) :
  win32 P = true -> registry_fault w = None ->
  auth_token preset = PyStr a -> base_url preset = PyStr b ->
  model preset = PyStr c -> small_fast_model preset = PyStr d ->
  putenv_error P a = None -> putenv_error P b = None ->
  putenv_error P c = None -> putenv_error P d = None ->
  let res := Darkmode.apply_preset P preset w in
  fst res = Ok tt
  /\ applied (registry w) (registry (snd res)) a b c d
  /\ applied (environ w) (environ (snd res)) a b c d
  /\ stdout (snd res) = stdout w.
Proof.
  intros Hwin Hfault Ha Hb Hc Hd Ea Eb Ec Ed. cbv zeta.
  unfold Darkmode.apply_preset. rewrite Ha, Hb, Hc, Hd.
  destruct (SessionFacts.chain_accepted_world P Darkmode.warning_text
              a b c d w Ea Eb Ec Ed) as (Hok & Henv & Hreg & Hout).
  revert Hok Henv Hreg Hout. rewrite Hwin, Hfault.
  intros Hok Henv Hreg Hout.
  split; [exact Hok |]. rewrite Henv, Hreg.
  rewrite !(EnvironFacts.environ_value_win32 P _ Hwin).
  split; [apply EnvironFacts.applied_four |].
  split; [apply EnvironFacts.applied_four | exact (Hout eq_refl)].
Qed.

Lemma apply_preset_store_written_witness :
  let res :=
    Darkmode.apply_preset Sample.windows (Sample.preset "staging")
      Sample.empty_world in
  fst res = Ok tt
  /\ applied (registry Sample.empty_world) (registry (snd res))
       (py "token") (py "https://example.test") (py "m1") (py "m2")
  /\ applied (environ Sample.empty_world) (environ (snd res))
       (py "token") (py "https://example.test") (py "m1") (py "m2")
  /\ stdout (snd res) = stdout Sample.empty_world.
Proof.
  refine (apply_preset_store_written Sample.windows (Sample.preset "staging")
            Sample.empty_world (py "token") (py "https://example.test")
            (py "m1") (py "m2") _ _ _ _ _ _ _ _ _ _);
    vm_compute; reflexivity.
Defined.

(** X14. On win32, when the registry operation number [k] fails ([0] for
    [OpenKey], [1] to [4] for the four writes), the writes made before it
    stay in the per-user store and the failing one and those after it are
    not made: the store is left between the old and the new preset. *)
Theorem apply_preset_store_partial
  (P : Platform) (preset : ConfigPreset) (w : World) (a b c d : str)
  (k j : nat) (key value : str) :
  win32 P = true -> registry_fault w = Some k -> (k <= 4)%nat ->
  auth_token preset = PyStr a -> base_url preset = PyStr b ->
  model preset = PyStr c -> small_fast_model preset = PyStr d ->
  putenv_error P a = None -> putenv_error P b = None ->
  putenv_error P c = None -> putenv_error P d = None ->
  assignments a b c d !! j = Some (key, value) ->
  registry (snd (Darkmode.apply_preset P preset w)) !! key
  = if (S j <? k)%nat then Some value else registry w !! key.
Proof.
  intros Hwin Hfault Hk Ha Hb Hc Hd Ea Eb Ec Ed Hj.
  unfold Darkmode.apply_preset. rewrite Ha, Hb, Hc, Hd.
  destruct (SessionFacts.chain_accepted_world P Darkmode.warning_text
              a b c d w Ea Eb Ec Ed) as (_ & _ & Hreg & _).
  revert Hreg. rewrite Hwin, Hfault. intros ->.
  pose proof ApplyFacts.keys_distinct as (? & ? & ? & ? & ? & ?).
  unfold assignments in *.
  destruct k as [| [| [| [| [| k]]]]]; try lia;
    destruct j as [| [| [| [| j]]]]; try discriminate;
    injection Hj as <- <-;
    cbn [written Nat.min take assigned foldl fst snd Nat.ltb Nat.leb];
    rewrite ?lookup_insert; repeat case_decide; congruence.
Qed.

Lemma apply_preset_store_partial_witness :
  registry (snd (Darkmode.apply_preset Sample.windows
                   (Sample.preset "staging") Sample.faulty_world))
  !! ANTHROPIC_AUTH_TOKEN
  = (if (1 <? 2)%nat then Some (py "token")
     else registry Sample.faulty_world !! ANTHROPIC_AUTH_TOKEN)
  /\ registry (snd (Darkmode.apply_preset Sample.windows
                      (Sample.preset "staging") Sample.faulty_world))
     !! ANTHROPIC_BASE_URL
     = (if (2 <? 2)%nat then Some (py "https://example.test")
        else registry Sample.faulty_world !! ANTHROPIC_BASE_URL).
Proof.
  split.
  - refine (apply_preset_store_partial Sample.windows
              (Sample.preset "staging") Sample.faulty_world
              (py "token") (py "https://example.test") (py "m1") (py "m2")
              2 0 ANTHROPIC_AUTH_TOKEN (py "token")
              _ _ _ _ _ _ _ _ _ _ _ _);
      try (vm_compute; reflexivity).
    lia.
  - refine (apply_preset_store_partial Sample.windows
              (Sample.preset "staging") Sample.faulty_world
              (py "token") (py "https://example.test") (py "m1") (py "m2")
              2 1 ANTHROPIC_BASE_URL (py "https://example.test")
              _ _ _ _ _ _ _ _ _ _ _ _);
      try (vm_compute; reflexivity).
    lia.
Defined.

(** X15. The last preset applied wins: when the environment accepts the
    four values of a preset, applying it after any other preset, also one
    whose own application raised part way or whose registry session
    failed, leaves the process environment and the per-user store exactly
    as applying it alone does. *)
Theorem apply_preset_overrides
  (P : Platform) (p q : ConfigPreset) (w : World) (a b c d : str) :
  auth_token q = PyStr a -> base_url q = PyStr b ->
  model q = PyStr c -> small_fast_model q = PyStr d ->
  putenv_error P a = None -> putenv_error P b = None ->
  putenv_error P c = None -> putenv_error P d = None ->
  let after_p := snd (Darkmode.apply_preset P p w) in
  environ (snd (Darkmode.apply_preset P q after_p))
  = environ (snd (Darkmode.apply_preset P q w))
  /\ registry (snd (Darkmode.apply_preset P q after_p))
     = registry (snd (Darkmode.apply_preset P q w)).
Proof.
  intros Ha Hb Hc Hd Ea Eb Ec Ed. cbv zeta.
  unfold Darkmode.apply_preset at 1 3 4 6. rewrite Ha, Hb, Hc, Hd.
  destruct (SessionFacts.chain_accepted_world P Darkmode.warning_text
              a b c d w Ea Eb Ec Ed) as (_ & Henv & Hreg & _).
  destruct (SessionFacts.chain_accepted_world P Darkmode.warning_text
              a b c d (snd (Darkmode.apply_preset P p w)) Ea Eb Ec Ed)
    as (_ & Henv' & Hreg' & _).
  rewrite Henv, Hreg, Henv', Hreg'. clear Henv Hreg Henv' Hreg'.
  unfold Darkmode.apply_preset.
  destruct (SessionFacts.chain_world P Darkmode.warning_text
              (auth_token p) (base_url p) (model p) (small_fast_model p) w)
    as (n & m & Hn & Henv & Hreg & Hm & Hposix & _ & _ & Hfault).
  rewrite Henv, Hreg, Hfault.
  split; [apply SessionFacts.assigned_over; exact Hn |].
  destruct (win32 P).
  - apply SessionFacts.assigned_over. exact Hm.
  - destruct (Hposix eq_refl) as (-> & _). reflexivity.
Qed.

Lemma apply_preset_overrides_witness :
  let after_p :=
    snd (Darkmode.apply_preset Sample.windows Sample.nul_preset
           Sample.faulty_world) in
  environ (snd (Darkmode.apply_preset Sample.windows
                  (Sample.preset "staging") after_p))
  = environ (snd (Darkmode.apply_preset Sample.windows
                    (Sample.preset "staging") Sample.faulty_world))
  /\ registry (snd (Darkmode.apply_preset Sample.windows
                      (Sample.preset "staging") after_p))
     = registry (snd (Darkmode.apply_preset Sample.windows
                        (Sample.preset "staging") Sample.faulty_world)).
Proof.
  refine (apply_preset_overrides Sample.windows Sample.nul_preset
            (Sample.preset "staging") Sample.faulty_world
            (py "token") (py "https://example.test") (py "m1") (py "m2")
            _ _ _ _ _ _ _ _);
    vm_compute; reflexivity.
Defined.

(** X16. After a preset whose four values the environment accepts is
    applied, the model of the environment table reads back the four
    values as [os.environ] hands them back, under the four names and in
    the order of the rows.  These are the strings of the preset
    themselves on win32 ([EnvironFacts.environ_value_win32]) and, on a
    UTF-8 POSIX system, for strings free of surrogates
    ([EscapeFacts.posix_keeps_text]). *)
Theorem table_after_apply
  (P : Platform) (preset : ConfigPreset) (w : World) (a b c d : str) :
  auth_token preset = PyStr a -> base_url preset = PyStr b ->
  model preset = PyStr c -> small_fast_model preset = PyStr d ->
  putenv_error P a = None -> putenv_error P b = None ->
  putenv_error P c = None -> putenv_error P d = None ->
  PyQt6App.refresh_data (snd (PyQt6.apply_preset P preset w))
  = assignments (Runtime.environ_value P a) (Runtime.environ_value P b)
      (Runtime.environ_value P c) (Runtime.environ_value P d).
Proof.
  intros Ha Hb Hc Hd Ea Eb Ec Ed.
  unfold PyQt6.apply_preset. rewrite Ha, Hb, Hc, Hd.
  destruct (SessionFacts.chain_accepted_world P PyQt6.warning_text
              a b c d w Ea Eb Ec Ed) as (_ & Henv & _ & _).
  unfold PyQt6App.refresh_data, environ_get. rewrite Henv.
  pose proof ApplyFacts.keys_distinct as (? & ? & ? & ? & ? & ?).
  unfold assignments. cbn [take assigned foldl fst snd].
  repeat f_equal;
    (rewrite ?lookup_insert; repeat case_decide; try congruence;
     reflexivity).
Qed.

Lemma table_after_apply_witness :
  PyQt6App.refresh_data
    (snd (PyQt6.apply_preset Sample.posix
            {| name := PyStr (py "n");
               auth_token := PyStr [0xDCC3; 0xDCA9]%N;
               base_url := PyStr (py "https://example.test");
               model := PyStr (py "m1");
               small_fast_model := PyStr (py "m2") |}
            Sample.faulty_world))
  = assignments [0xE9]%N (py "https://example.test") (py "m1") (py "m2").
Proof.
  refine (eq_trans
            (table_after_apply Sample.posix _ Sample.faulty_world
               [0xDCC3; 0xDCA9]%N (py "https://example.test") (py "m1")
               (py "m2") _ _ _ _ _ _ _ _) _);
    vm_compute; reflexivity.
Defined.

(** * The windows *)

Module StrFacts.
Import Str.

Lemma lstrip_split (s : str) :
  exists l : str,
    s = l ++ lstrip s /\ forallb isspace l = true
    /\ forall c : N, head (lstrip s) = Some c -> isspace c = false.
Proof.
  induction s as [| c s (l & Hs & Hl & Hh)].
  - exists []. repeat split. discriminate.
  - cbn [lstrip]. destruct (isspace c) eqn:Hc.
    + exists (c :: l). cbn [app forallb]. rewrite Hc, Hl, <- Hs.
      repeat split. exact Hh.
    + exists []. repeat split. cbn. intros c' [= <-]. exact Hc.
Qed.

Lemma forallb_rev {A} (f : A -> bool) (l : list A) :
  forallb f (rev l) = forallb f l.
Proof.
  induction l as [| a l IH]; [reflexivity |].
  cbn [rev forallb]. rewrite forallb_app, IH. cbn.
  rewrite andb_true_r. apply andb_comm.
Qed.

Lemma head_rev {A} (l : list A) : head (rev l) = last l.
Proof.
  induction l as [| a l IH] using rev_ind; [reflexivity |].
  rewrite rev_app_distr, last_snoc. reflexivity.
Qed.

Lemma last_rev {A} (l : list A) : last (rev l) = head l.
Proof. rewrite <- head_rev, rev_involutive. reflexivity. Qed.

Lemma rstrip_split (s : str) :
  exists r : str,
    s = rstrip s ++ r /\ forallb isspace r = true
    /\ forall c : N, last (rstrip s) = Some c -> isspace c = false.
Proof.
  unfold rstrip. destruct (lstrip_split (rev s)) as (l & Hs & Hl & Hh).
  exists (rev l). split; [| split].
  - rewrite <- rev_app_distr, <- Hs, rev_involutive. reflexivity.
  - rewrite forallb_rev. exact Hl.
  - intros c. rewrite last_rev. apply Hh.
Qed.

Lemma head_app_Some {A} (l k : list A) (c : A) :
  head l = Some c -> head (l ++ k) = Some c.
Proof. destruct l; [discriminate | trivial]. Qed.

(** [strip] takes the white space off both ends and nothing else. *)
Lemma strip_trimmed (s : str) : trimmed s (strip s).
Proof.
  unfold strip.
  destruct (lstrip_split s) as (l & Hs & Hl & Hh).
  destruct (rstrip_split (lstrip s)) as (r & Ht & Hr & Hlast).
  split; [| split].
  - exists l, r. split; [| split; assumption].
    rewrite <- Ht. exact Hs.
  - intros c Hc. apply Hh. rewrite Ht. apply head_app_Some. exact Hc.
  - exact Hlast.
Qed.

Lemma forallb_isspace_lstrip (s : str) :
  forallb isspace s = true -> lstrip s = [].
Proof.
  induction s as [| c s IH]; [reflexivity |].
  cbn [forallb lstrip]. intros [Hc Hs] % andb_true_iff.
  rewrite Hc. apply IH, Hs.
Qed.

(** [strip] leaves nothing exactly of the text that is all white space. *)
Lemma strip_nil (s : str) : strip s = [] <-> forallb isspace s = true.
Proof.
  split.
  - intros H. destruct (strip_trimmed s) as ((l & r & Hs & Hl & Hr) & _).
    rewrite H in Hs. cbn [app] in Hs. rewrite Hs, forallb_app, Hl, Hr.
    reflexivity.
  - intros H. unfold strip. rewrite forallb_isspace_lstrip by exact H.
    reflexivity.
Qed.

Lemma truth_true (s : str) : truth s = true <-> s <> [].
Proof. destruct s; cbn; split; congruence. Qed.

Lemma truth_false (s : str) : truth s = false <-> s = [].
Proof. destruct s; cbn; split; congruence. Qed.

End StrFacts.

Module TokenFacts.

Lemma parts (n k : nat) (a m z : str) :
  length a = n -> length z = k ->
  Str.slice_to n (a ++ m ++ z) = a /\ Str.slice_last k (a ++ m ++ z) = z.
Proof.
  intros Ha Hz. unfold Str.slice_to, Str.slice_last. split.
  - rewrite <- Ha. apply take_app_length.
  - rewrite !length_app, Hz.
    replace (length a + (length m + k) - k)%nat with (length (a ++ m))
      by (rewrite length_app; lia).
    rewrite app_assoc. apply drop_app_length.
Qed.

Lemma split3 (n k : nat) (t : str) :
  (n + k < length t)%nat ->
  exists a m z : str,
    t = a ++ m ++ z /\ length a = n /\ length z = k /\ (0 < length m)%nat.
Proof.
  intros Hlen.
  exists (take n t), (take (length t - n - k) (drop n t)),
    (drop (length t - n - k) (drop n t)).
  split; [| split; [| split]].
  - rewrite take_drop, take_drop. reflexivity.
  - rewrite length_take. lia.
  - rewrite !length_drop. lia.
  - rewrite length_take, length_drop. lia.
Qed.

End TokenFacts.

(** X17. The token on a preset card: a token of at most 14 characters is
    shown in full; a longer one is shown as its first 8 and its last 6
    characters around three dots, 17 characters whatever its length, so
    that what is shown does not depend on the characters in between. *)
Theorem token_display_shape :
  (forall t : str, (length t <= 14)%nat -> token_display t = t)
  /\ (forall t : str, (14 < length t)%nat ->
        exists a m z : str,
          t = a ++ m ++ z /\ length a = 8%nat /\ length z = 6%nat
          /\ (0 < length m)%nat)
  /\ (forall a m z : str,
        length a = 8%nat -> length z = 6%nat -> (0 < length m)%nat ->
        token_display (a ++ m ++ z) = a ++ s_dots ++ z
        /\ length (token_display (a ++ m ++ z)) = 17%nat).
Proof.
  split; [| split].
  - intros t Ht. unfold token_display.
    destruct (Nat.ltb_spec 14 (length t)); [lia | reflexivity].
  - intros t Ht. apply TokenFacts.split3. exact Ht.
  - intros a m z Ha Hz Hm. unfold token_display.
    destruct (Nat.ltb_spec 14 (length (a ++ m ++ z))) as [_ | Hle].
    + destruct (TokenFacts.parts 8 6 a m z Ha Hz) as [-> ->].
      split; [reflexivity |]. rewrite !length_app, Ha, Hz. reflexivity.
    + rewrite !length_app in Hle. lia.
Qed.

Module TableFacts.
Import PyQt6App.

Lemma masked_short (v : str) : (length v <= 20)%nat -> masked v = v.
Proof.
  intros Hv. unfold masked.
  destruct (Nat.ltb_spec 20 (length v)); [lia | reflexivity].
Qed.

Lemma masked_length (v : str) : (length (masked v) <= 23)%nat.
Proof.
  unfold masked, Str.slice_to, Str.slice_last.
  destruct (Nat.ltb_spec 20 (length v)); [| lia].
  rewrite !length_app, length_take, length_drop.
  change (length s_dots) with 3%nat. lia.
Qed.

Lemma names :
  Str.contains s_TOKEN ANTHROPIC_AUTH_TOKEN = true
  /\ Str.contains s_TOKEN ANTHROPIC_BASE_URL = false
  /\ Str.contains s_TOKEN ANTHROPIC_MODEL = false
  /\ Str.contains s_TOKEN ANTHROPIC_SMALL_FAST_MODEL = false.
Proof. repeat split. Qed.

(** The value column of [data], whichever of the two texts for an unset
    variable the test on the token uses. *)
Lemma token_value (other v : str) :
  (length other <= 20)%nat ->
  (if negb (Dict.str_eqb v other) then masked v else v) = masked v.
Proof.
  intros Hlen. destruct (Dict.str_eqb v other) eqn:He; [| reflexivity].
  apply DictFacts.str_eqb_eq in He as ->. cbn [negb].
  symmetry. apply masked_short. exact Hlen.
Qed.

Lemma row_in_range (i n : nat) :
  (i < n)%nat ->
  negb true
  || negb ((0 <=? Z.of_nat i) && (Z.of_nat i <? Z.of_nat n))%Z = false.
Proof.
  intros Hi.
  destruct (Z.leb_spec 0 (Z.of_nat i)); [| lia].
  destruct (Z.ltb_spec (Z.of_nat i) (Z.of_nat n)); [reflexivity | lia].
Qed.

Lemma row_out_of_range (i n : nat) :
  (n <= i)%nat ->
  negb true
  || negb ((0 <=? Z.of_nat i) && (Z.of_nat i <? Z.of_nat n))%Z = true.
Proof.
  intros Hi.
  destruct (Z.ltb_spec (Z.of_nat i) (Z.of_nat n)); [lia |].
  rewrite andb_false_r. reflexivity.
Qed.

(** [data] on a valid index of the model [refresh_data] filled. *)
Lemma data_row (w : World) (i : nat) (c : Z) (role : ItemDataRole) :
  data (refresh_data w) {| isValid := true; row := Z.of_nat i; column := c |}
    role
  = match refresh_data w !! i with
    | None => None
    | Some (var_name, var_value) =>
      match role with
      | DisplayRole =>
        if (c =? 0)%Z then Some (Text var_name)
        else if (c =? 1)%Z then
          Some (Text
            (if Str.contains s_TOKEN var_name
                && negb (Dict.str_eqb var_value s_unset)
             then masked var_value
             else var_value))
        else if (c =? 2)%Z then
          Some (Text (if negb (Dict.str_eqb var_value s_unset)
                      then s_set_text else s_unset_text))
        else None
      | ForegroundRole =>
        if (c =? 2)%Z then
          Some (if negb (Dict.str_eqb var_value s_unset) then green else red)
        else None
      | OtherRole => None
      end
    end.
Proof.
  unfold data. cbn [isValid row column].
  destruct (le_lt_dec (length (refresh_data w)) i) as [Hge | Hlt].
  - rewrite row_out_of_range by exact Hge.
    rewrite (lookup_ge_None_2 _ _ Hge). reflexivity.
  - rewrite row_in_range by exact Hlt. rewrite Nat2Z.id. reflexivity.
Qed.

Lemma unset_or_set (w : World) (key : str) :
  let v := environ_get key s_unset w in
  (Dict.str_eqb v s_unset = true
   /\ (environ w !! key = None \/ environ w !! key = Some s_unset))
  \/ (Dict.str_eqb v s_unset = false
      /\ exists x : str, environ w !! key = Some x /\ x <> s_unset /\ v = x).
Proof.
  cbv zeta. unfold environ_get.
  destruct (environ w !! key) as [x |] eqn:Hk;
    cbn [default from_option id].
  - destruct (Dict.str_eqb x s_unset) eqn:He.
    + apply DictFacts.str_eqb_eq in He as ->. left. auto.
    + right. split; [reflexivity |]. exists x. repeat split.
      intros ->. rewrite DictFacts.str_eqb_refl in He. discriminate.
  - left. split; [reflexivity | auto].
Qed.

(** The four items of the other window, spelled out. *)
Lemma config_items (w : World) :
  DarkmodeApp.refresh_current_config w
  = [ {| DarkmodeApp.var_name := ANTHROPIC_AUTH_TOKEN;
         DarkmodeApp.display_name := py "🔑 认证令牌";
         DarkmodeApp.var_value := environ_get ANTHROPIC_AUTH_TOKEN s_unset w;
         DarkmodeApp.item_row := 0; DarkmodeApp.item_col := 0 |};
      {| DarkmodeApp.var_name := ANTHROPIC_BASE_URL;
         DarkmodeApp.display_name := py "🌐 API地址";
         DarkmodeApp.var_value := environ_get ANTHROPIC_BASE_URL s_unset w;
         DarkmodeApp.item_row := 0; DarkmodeApp.item_col := 1 |};
      {| DarkmodeApp.var_name := ANTHROPIC_MODEL;
         DarkmodeApp.display_name := py "🤖 主要模型";
         DarkmodeApp.var_value := environ_get ANTHROPIC_MODEL s_unset w;
         DarkmodeApp.item_row := 1; DarkmodeApp.item_col := 0 |};
      {| DarkmodeApp.var_name := ANTHROPIC_SMALL_FAST_MODEL;
         DarkmodeApp.display_name := py "⚡ 快速模型";
         DarkmodeApp.var_value :=
           environ_get ANTHROPIC_SMALL_FAST_MODEL s_unset w;
         DarkmodeApp.item_row := 1; DarkmodeApp.item_col := 1 |} ].
Proof. reflexivity. Qed.

End TableFacts.

(** X18. The value column of the environment table shortens the token
    only: a token of more than 20 characters is shown as its first 10 and
    last 10 characters around three dots, never more than 23 characters,
    and the three other variables are shown in full whatever their length;
    a variable that is not set shows the default text, and a row past the
    fourth gives nothing. *)
Theorem data_value_column (w : World) (i : nat) :
  let cell :=
    PyQt6App.data (PyQt6App.refresh_data w)
      {| PyQt6App.isValid := true; PyQt6App.row := Z.of_nat i;
         PyQt6App.column := 1 |} PyQt6App.DisplayRole in
  match PyQt6App.refresh_data w !! i with
  | Some (var_name, var_value) =>
    var_value = environ_get var_name s_unset w
    /\ cell = Some (PyQt6App.Text (if decide (i = 0%nat) then masked var_value
                                   else var_value))
    /\ (length (masked var_value) <= 23)%nat
    /\ ((length var_value <= 20)%nat -> masked var_value = var_value)
  | None => cell = None
  end.
Proof.
  cbv zeta. rewrite TableFacts.data_row.
  destruct i as [| [| [| [| i]]]];
    cbn [PyQt6App.refresh_data lookup list_lookup Z.eqb Pos.eqb];
    try reflexivity;
    (split; [reflexivity |]);
    (split; [| split; [apply TableFacts.masked_length
                      | apply TableFacts.masked_short]]);
    case_decide; try lia; try reflexivity.
  change (Str.contains s_TOKEN ANTHROPIC_AUTH_TOKEN) with true.
  cbn [andb]. rewrite TableFacts.token_value; [reflexivity |].
  vm_compute. lia.
Qed.

(** X19. The status column of the environment table tells a variable that
    is not set from one that is by comparing with the default text: the
    row reads as set exactly when the variable is set to something other
    than that text, so a variable set to the text itself reads as not
    set. *)
Theorem data_status_column (w : World) (i : nat) :
  let cell role :=
    PyQt6App.data (PyQt6App.refresh_data w)
      {| PyQt6App.isValid := true; PyQt6App.row := Z.of_nat i;
         PyQt6App.column := 2 |} role in
  match PyQt6App.refresh_data w !! i with
  | Some (var_name, _) =>
    ((exists v : str, environ w !! var_name = Some v /\ v <> s_unset)
     /\ cell PyQt6App.DisplayRole = Some (PyQt6App.Text s_set_text)
     /\ cell PyQt6App.ForegroundRole = Some PyQt6App.green)
    \/ ((environ w !! var_name = None
         \/ environ w !! var_name = Some s_unset)
        /\ cell PyQt6App.DisplayRole = Some (PyQt6App.Text s_unset_text)
        /\ cell PyQt6App.ForegroundRole = Some PyQt6App.red)
  | None => cell PyQt6App.DisplayRole = None
  end.
Proof.
  cbv zeta. rewrite !TableFacts.data_row.
  destruct i as [| [| [| [| i]]]];
    cbn [PyQt6App.refresh_data lookup list_lookup Z.eqb Pos.eqb];
    try reflexivity;
    match goal with
    | |- context [environ_get ?k s_unset w] =>
      destruct (TableFacts.unset_or_set w k)
        as [(-> & Hk) | (-> & x & Hk & Hx & _)]
    end; cbn [negb]; [right | left | right | left | right | left
                      | right | left];
    repeat split; eauto.
Qed.

(** X20. The table [refresh_env_table] fills shows, cell by cell, what
    the model's [data] returns for the same environment, although the one
    tests the token against the text [Not Set] and the other against the
    default text: neither text is long enough to be shortened. *)
Theorem refresh_env_table_agrees (w : World) (i : nat) :
  let cell c role :=
    PyQt6App.data (PyQt6App.refresh_data w)
      {| PyQt6App.isValid := true; PyQt6App.row := Z.of_nat i;
         PyQt6App.column := c |} role in
  length (PyQt6App.refresh_env_table w)
  = PyQt6App.rowCount (PyQt6App.refresh_data w)
  /\
  match PyQt6App.refresh_env_table w !! i with
  | Some r =>
    cell 0%Z PyQt6App.DisplayRole
    = Some (PyQt6App.Text (PyQt6App.name_item r))
    /\ cell 1%Z PyQt6App.DisplayRole
       = Some (PyQt6App.Text (PyQt6App.value_item r))
    /\ cell 2%Z PyQt6App.DisplayRole
       = Some (PyQt6App.Text (PyQt6App.status_text r))
    /\ cell 2%Z PyQt6App.ForegroundRole
       = Some (PyQt6App.status_foreground r)
  | None =>
    forall (c : Z) (role : PyQt6App.ItemDataRole), cell c role = None
  end.
Proof.
  cbv zeta. split; [apply length_map |].
  unfold PyQt6App.refresh_env_table. rewrite list_lookup_fmap.
  destruct (PyQt6App.refresh_data w !! i) as [[var_name var_value] |] eqn:Hi.
  - cbn [fmap option_fmap option_map PyQt6App.name_item PyQt6App.value_item
         PyQt6App.status_text PyQt6App.status_foreground].
    rewrite !TableFacts.data_row, Hi. cbn [Z.eqb Pos.eqb].
    split; [reflexivity |]. split; [| split].
    + destruct (Str.contains s_TOKEN var_name); [| reflexivity].
      cbn [andb]. rewrite !TableFacts.token_value; [reflexivity | ..];
        vm_compute; lia.
    + destruct (Dict.str_eqb var_value s_unset); reflexivity.
    + destruct (Dict.str_eqb var_value s_unset); reflexivity.
  - intros c role. rewrite TableFacts.data_row, Hi. reflexivity.
Qed.

(** X21. The two windows show the same for every environment: the item
    [refresh_current_config] makes for a variable carries the text
    [refresh_env_table] puts in the row of the same variable, behind the
    mark of a variable that is set, or the text of a variable that is not
    set. *)
Theorem windows_show_the_same (w : World) (i : nat) :
  match DarkmodeApp.refresh_current_config w !! i,
        PyQt6App.refresh_env_table w !! i with
  | Some item, Some r =>
    DarkmodeApp.var_name item = PyQt6App.name_item r
    /\ DarkmodeApp.value_text (DarkmodeApp.var_name item)
         (DarkmodeApp.var_value item)
       = if Dict.str_eqb (PyQt6App.status_text r) s_unset_text
         then s_unset_text
         else s_set_mark ++ PyQt6App.value_item r
  | None, None => True
  | _, _ => False
  end.
Proof.
  rewrite TableFacts.config_items.
  unfold PyQt6App.refresh_env_table, PyQt6App.refresh_data,
    DarkmodeApp.value_text.
  destruct i as [| [| [| [| i]]]];
    cbn [map lookup list_lookup DarkmodeApp.var_name
         DarkmodeApp.var_value PyQt6App.name_item PyQt6App.value_item
         PyQt6App.status_text];
    try exact I;
    (split; [reflexivity |]);
    match goal with
    | |- context [environ_get ?k s_unset w] =>
      generalize (environ_get k s_unset w)
    end; intros v;
    destruct (Dict.str_eqb v s_unset) eqn:Hv; try reflexivity.
  change (Str.contains s_TOKEN ANTHROPIC_AUTH_TOKEN) with true.
  cbn [andb negb].
  change (Dict.str_eqb s_set_text s_unset_text) with false. cbv iota.
  rewrite TableFacts.token_value by (vm_compute; lia).
  unfold masked, Str.slice_to, Str.slice_last.
  destruct (20 <? length v)%nat; reflexivity.
Qed.

Module DialogFacts.
Import Str StrFacts.

(** What [accept_dialog] makes of one entry. *)
Lemma entry_cases (entry : str) :
  (truth (strip entry) = true
   /\ trimmed entry (strip entry) /\ strip entry <> []
   /\ forallb isspace entry = false)
  \/ (truth (strip entry) = false /\ forallb isspace entry = true).
Proof.
  destruct (truth (strip entry)) eqn:Ht.
  - left. split; [reflexivity |]. split; [apply strip_trimmed |].
    apply truth_true in Ht. split; [exact Ht |].
    apply not_true_is_false. intros H. apply Ht, strip_nil, H.
  - right. split; [reflexivity |]. apply strip_nil, truth_false, Ht.
Qed.

End DialogFacts.

(** X22. The dialog of the PyQt6 window accepts exactly when every entry
    holds a character that is not white space; what it hands on is each
    entry without the white space around it, hence never empty.  When an
    entry is empty or all white space the dialog gives no result. *)
Theorem accept_dialog_trims (n t u m s : str) :
  match PyQt6App.accept_dialog n t u m s with
  | Some (n', t', u', m', s') =>
    Forall2
      (fun entry field =>
         field = Str.strip entry /\ trimmed entry field /\ field <> []
         /\ forallb Str.isspace entry = false)
      [n; t; u; m; s] [n'; t'; u'; m'; s']
  | None =>
    Exists (fun entry => forallb Str.isspace entry = true) [n; t; u; m; s]
  end.
Proof.
  unfold PyQt6App.accept_dialog, Str.all. cbn [forallb].
  destruct (DialogFacts.entry_cases n) as [(-> & Hn) | (-> & Hn)];
    [| cbn [andb]; apply Exists_cons_hd; exact Hn].
  destruct (DialogFacts.entry_cases t) as [(-> & Ht) | (-> & Ht)];
    [| cbn [andb]; do 1 apply Exists_cons_tl; apply Exists_cons_hd;
       exact Ht].
  destruct (DialogFacts.entry_cases u) as [(-> & Hu) | (-> & Hu)];
    [| cbn [andb]; do 2 apply Exists_cons_tl; apply Exists_cons_hd;
       exact Hu].
  destruct (DialogFacts.entry_cases m) as [(-> & Hm) | (-> & Hm)];
    [| cbn [andb]; do 3 apply Exists_cons_tl; apply Exists_cons_hd;
       exact Hm].
  destruct (DialogFacts.entry_cases s) as [(-> & Hs) | (-> & Hs)];
    [| cbn [andb]; do 4 apply Exists_cons_tl; apply Exists_cons_hd;
       exact Hs].
  cbn [andb].
  repeat (apply Forall2_cons; split; [split; [reflexivity | assumption] |]).
  apply Forall2_nil_2.
Qed.

(** X23. The darkmode window adds a preset only when none of the five
    entries is empty: with an empty entry the collection and the world
    stay as they are, without a result from the dialog as well, and
    otherwise the store is called with a preset that holds the five
    entries exactly as typed, which it appends. *)
Theorem add_new_preset_complete
  (P : Platform) (self : ConfigManager) (w : World) (n t u m s : str) :
  let res :=
    DarkmodeApp.add_new_preset P (DarkmodeApp.ok n t u m s) self w in
  let preset :=
    {| name := PyStr n; auth_token := PyStr t; base_url := PyStr u;
       model := PyStr m; small_fast_model := PyStr s |} in
  (if Str.all [n; t; u; m; s] then
     Forall (fun entry => entry <> []) [n; t; u; m; s]
     /\ (exists r : Result unit,
           outcome res = DarkmodeApp.Stored r
           /\ (r, manager_after res, world_after res)
              = Darkmode.add_preset P self preset w)
     /\ presets (manager_after res) = presets self ++ [preset]
   else
     Exists (fun entry => entry = []) [n; t; u; m; s]
     /\ res = (DarkmodeApp.Incomplete, self, w))
  /\ DarkmodeApp.add_new_preset P DarkmodeApp.cancel self w
     = (DarkmodeApp.NoResult, self, w).
Proof.
  cbv zeta. split; [| reflexivity].
  unfold DarkmodeApp.add_new_preset, DarkmodeApp.ok.
  destruct (Str.all [n; t; u; m; s]) eqn:Hall.
  - unfold Str.all in Hall. cbn [forallb] in Hall.
    rewrite !andb_true_iff, !StrFacts.truth_true in Hall.
    destruct Hall as (Hn & Ht & Hu & Hm & Hs & _).
    split; [repeat constructor; assumption |].
    cbn [new_preset]. unfold Darkmode.add_preset.
    cbn [presets config_file].
    destruct (Darkmode._save_presets P _ _ w) as [r w1].
    cbn [fst snd presets]. split; [| reflexivity].
    exists r. split; reflexivity.
  - split; [| reflexivity].
    unfold Str.all in Hall. cbn [forallb] in Hall.
    destruct n; [apply Exists_cons_hd; reflexivity |].
    destruct t; [do 1 apply Exists_cons_tl; apply Exists_cons_hd;
                 reflexivity |].
    destruct u; [do 2 apply Exists_cons_tl; apply Exists_cons_hd;
                 reflexivity |].
    destruct m; [do 3 apply Exists_cons_tl; apply Exists_cons_hd;
                 reflexivity |].
    destruct s; [do 4 apply Exists_cons_tl; apply Exists_cons_hd;
                 reflexivity |].
    discriminate Hall.
Qed.

(** X24. The two windows disagree on entries that are white space: when
    no entry is empty but one holds nothing but white space, the dialog of
    the PyQt6 window gives no result, while the darkmode window appends a
    preset with that entry as it is. *)
Theorem blank_entry_front_ends
  (P : Platform) (self : ConfigManager) (w : World) (n t u m s : str) :
  Str.all [n; t; u; m; s] = true ->
  existsb (forallb Str.isspace) [n; t; u; m; s] = true ->
  PyQt6App.accept_dialog n t u m s = None
  /\ presets
       (manager_after
          (DarkmodeApp.add_new_preset P (DarkmodeApp.ok n t u m s) self w))
     = presets self ++ [new_preset (n, t, u, m, s)].
Proof.
  intros Hall Hblank. split.
  - unfold PyQt6App.accept_dialog.
    destruct (Str.all [Str.strip n; Str.strip t; Str.strip u; Str.strip m;
                       Str.strip s]) eqn:Hs; [| reflexivity].
    exfalso. unfold Str.all in Hs. cbn [forallb existsb] in *.
    rewrite !andb_true_iff, !StrFacts.truth_true in Hs.
    rewrite !orb_true_iff in Hblank.
    destruct Hs as (Hn & Ht & Hu & Hm & Hs & _).
    destruct Hblank as [H | [H | [H | [H | [H | H]]]]];
      try discriminate H;
      apply StrFacts.strip_nil in H; contradiction.
  - unfold DarkmodeApp.add_new_preset, DarkmodeApp.ok. rewrite Hall.
    unfold Darkmode.add_preset. cbn [presets config_file].
    destruct (Darkmode._save_presets P _ _ w) as [r w1]. reflexivity.
Qed.

Lemma blank_entry_front_ends_witness :
  PyQt6App.accept_dialog [32%N] (py "t") (py "u") (py "m") (py "s") = None
  /\ presets
       (manager_after
          (DarkmodeApp.add_new_preset Sample.posix
             (DarkmodeApp.ok [32%N] (py "t") (py "u") (py "m") (py "s"))
             Sample.manager Sample.empty_world))
     = presets Sample.manager
       ++ [new_preset ([32%N], py "t", py "u", py "m", py "s")].
Proof.
  refine (blank_entry_front_ends Sample.posix Sample.manager
            Sample.empty_world [32%N] (py "t") (py "u") (py "m") (py "s")
            _ _);
    vm_compute; reflexivity.
Defined.

Module CardFacts.

Lemma list_getitem_in_range {A} (l : list A) (i : nat) (x : A) :
  l !! i = Some x -> list_getitem l (Z.of_nat i) = Ok x.
Proof.
  intros Hx. pose proof (lookup_lt_Some _ _ _ Hx) as Hi.
  unfold list_getitem.
  destruct (Z.ltb_spec (Z.of_nat i) 0); [lia |].
  destruct (Z.leb_spec 0 (Z.of_nat i)); [| lia].
  destruct (Z.ltb_spec (Z.of_nat i) (Z.of_nat (length l))); [| lia].
  cbn [andb]. rewrite Nat2Z.id, Hx. reflexivity.
Qed.

Lemma list_getitem_negative {A} (l : list A) (i : Z) :
  (- Z.of_nat (length l) <= i < 0)%Z ->
  exists x : A,
    l !! Z.to_nat (i + Z.of_nat (length l)) = Some x
    /\ list_getitem l i = Ok x.
Proof.
  intros Hi. unfold list_getitem.
  destruct (Z.ltb_spec i 0); [| lia].
  destruct (Z.leb_spec 0 (i + Z.of_nat (length l))); [| lia].
  destruct (Z.ltb_spec (i + Z.of_nat (length l)) (Z.of_nat (length l)));
    [| lia].
  cbn [andb].
  destruct (lookup_lt_is_Some_2 l (Z.to_nat (i + Z.of_nat (length l))))
    as [x Hx]; [lia |].
  exists x. rewrite Hx. split; reflexivity.
Qed.

Lemma list_getitem_outside {A} (l : list A) (i : Z) :
  (i < - Z.of_nat (length l) \/ Z.of_nat (length l) <= i)%Z ->
  list_getitem l i = Raise IndexError.
Proof.
  intros Hi. unfold list_getitem.
  destruct (Z.ltb_spec i 0);
    [destruct (Z.leb_spec 0 (i + Z.of_nat (length l)))
    | destruct (Z.leb_spec 0 i)];
    try reflexivity;
    match goal with
    | |- context [(?a <? ?b)%Z] => destruct (Z.ltb_spec a b)
    end; try reflexivity; lia.
Qed.

Lemma cards_agree (self : ConfigManager) :
  PyQt6App.refresh_presets_cards self = DarkmodeApp.refresh_presets_list self.
Proof. reflexivity. Qed.

Lemma card_lookup (self : ConfigManager) (i : nat) (c : card) :
  DarkmodeApp.refresh_presets_list self !! i = Some c ->
  card_index c = i
  /\ presets self !! i = Some (card_preset c)
  /\ card_row c = (i / 3)%nat
  /\ card_col c = (i mod 3)%nat.
Proof.
  unfold DarkmodeApp.refresh_presets_list. rewrite list_lookup_imap.
  destruct (presets self !! i) as [p |]; [| discriminate].
  cbn. intros [= <-]. repeat split.
Qed.

End CardFacts.

(** X25. The delete button of a card removes the preset the card shows:
    for the index the card was made with, the question of either window
    names that preset; answered with no, nothing changes; answered with
    yes, the collection loses exactly that preset and is saved, as
    [ConfigManager.delete_preset] does it. *)
Theorem card_delete_removes_its_preset
  (P : Platform) (self : ConfigManager) (w : World) (i : nat) (c : card) :
  DarkmodeApp.refresh_presets_list self !! i = Some c ->
  let index := Z.of_nat (card_index c) in
  let asked := name (card_preset c) in
  let res := DarkmodeApp.delete_preset P true self index w in
  let res' := PyQt6App.delete_preset P true self index w in
  PyQt6App.refresh_presets_cards self !! i = Some c
  /\ presets self !! i = Some (card_preset c)
  /\ DarkmodeApp.delete_preset P false self index w = (Ok asked, self, w)
  /\ PyQt6App.delete_preset P false self index w
     = (Ok (Some asked), self, w)
  /\ presets (manager_after res) = delete i (presets self)
  /\ presets (manager_after res') = delete i (presets self)
  /\ (manager_after res, world_after res)
     = (manager_after (Darkmode.delete_preset P self index w),
        world_after (Darkmode.delete_preset P self index w))
  /\ (manager_after res', world_after res')
     = (manager_after res, world_after res)
  /\ outcome res
     = (_ <-- outcome (Darkmode.delete_preset P self index w) ;; Ok asked)
  /\ outcome res'
     = (_ <-- outcome (Darkmode.delete_preset P self index w) ;;
        Ok (Some asked)).
Proof.
  intros Hc. cbv zeta. split; [exact Hc |].
  destruct (CardFacts.card_lookup self i c Hc) as (-> & Hp & _ & _).
  split; [exact Hp |].
  unfold DarkmodeApp.delete_preset, PyQt6App.delete_preset.
  rewrite (CardFacts.list_getitem_in_range _ _ _ Hp).
  pose proof (lookup_lt_Some _ _ _ Hp) as Hi.
  change (PyQt6.delete_preset P self (Z.of_nat i) w)
    with (Darkmode.delete_preset P self (Z.of_nat i) w).
  unfold Darkmode.delete_preset.
  destruct (Z.leb_spec 0 (Z.of_nat i)); [| lia].
  destruct (Z.ltb_spec (Z.of_nat i) (Z.of_nat (length (presets self))));
    [| lia].
  cbn [andb]. rewrite ListFacts.list_pop_in_range by lia.
  rewrite Nat2Z.id. cbn [presets config_file].
  destruct (Darkmode._save_presets P _ _ w) as [r w1].
  cbn [fst snd presets]. repeat split.
Qed.

Lemma card_delete_removes_its_preset_witness :
  let c :=
    {| card_preset := Sample.preset "B"; card_index := 1; card_row := 0;
       card_col := 1 |} in
  let self := Sample.manager in
  let w := Sample.empty_world in
  let index := Z.of_nat (card_index c) in
  let asked := name (card_preset c) in
  let res := DarkmodeApp.delete_preset Sample.posix true self index w in
  let res' := PyQt6App.delete_preset Sample.posix true self index w in
  PyQt6App.refresh_presets_cards self !! 1%nat = Some c
  /\ presets self !! 1%nat = Some (card_preset c)
  /\ DarkmodeApp.delete_preset Sample.posix false self index w
     = (Ok asked, self, w)
  /\ PyQt6App.delete_preset Sample.posix false self index w
     = (Ok (Some asked), self, w)
  /\ presets (manager_after res) = delete 1%nat (presets self)
  /\ presets (manager_after res') = delete 1%nat (presets self)
  /\ (manager_after res, world_after res)
     = (manager_after (Darkmode.delete_preset Sample.posix self index w),
        world_after (Darkmode.delete_preset Sample.posix self index w))
  /\ (manager_after res', world_after res')
     = (manager_after res, world_after res)
  /\ outcome res
     = (_ <-- outcome (Darkmode.delete_preset Sample.posix self index w) ;;
        Ok asked)
  /\ outcome res'
     = (_ <-- outcome (Darkmode.delete_preset Sample.posix self index w) ;;
        Ok (Some asked)).
Proof.
  refine (card_delete_removes_its_preset Sample.posix Sample.manager
            Sample.empty_world 1 _ _).
  vm_compute. reflexivity.
Defined.

(** X26. An index outside the collection changes nothing in either
    window, whatever the answer, but the windows differ in how.  The
    PyQt6 window has a guard and asks no question.  The darkmode window
    looks the preset up before it asks and without a guard: an index at or
    past the length, or below minus the length, raises [IndexError]
    before any question, and a negative index down to minus the length
    makes the question name the preset counted from the end, which the
    store then does not delete. *)
Theorem window_delete_out_of_range
  (P : Platform) (answer : bool) (self : ConfigManager) (index : Z)
  (w : World) :
  (index < 0 \/ Z.of_nat (length (presets self)) <= index)%Z ->
  let res := DarkmodeApp.delete_preset P answer self index w in
  let n := Z.of_nat (length (presets self)) in
  PyQt6App.delete_preset P answer self index w = (Ok None, self, w)
  /\ manager_after res = self
  /\ world_after res = w
  /\ ((index < - n \/ n <= index)%Z -> outcome res = Raise IndexError)
  /\ ((- n <= index < 0)%Z ->
      exists p : ConfigPreset,
        presets self !! Z.to_nat (index + n) = Some p
        /\ outcome res = Ok (name p)).
Proof.
  intros Hout. cbv zeta. split.
  { unfold PyQt6App.delete_preset.
    destruct (Z.leb_spec 0 index);
      destruct (Z.ltb_spec index (Z.of_nat (length (presets self))));
      cbn [andb]; try lia; reflexivity. }
  unfold DarkmodeApp.delete_preset.
  assert (Hstore : Darkmode.delete_preset P self index w = (Ok tt, self, w)).
  { unfold Darkmode.delete_preset.
    destruct (Z.leb_spec 0 index);
      destruct (Z.ltb_spec index (Z.of_nat (length (presets self))));
      cbn [andb]; try lia; reflexivity. }
  rewrite Hstore.
  destruct (list_getitem (presets self) index) as [p | e] eqn:Hget.
  - destruct answer; cbn [fst snd rbind];
      (split; [reflexivity |]; split; [reflexivity |]; split;
       [ intros Hfar;
         rewrite (CardFacts.list_getitem_outside _ _ Hfar) in Hget;
         discriminate
       | intros Hneg;
         destruct (CardFacts.list_getitem_negative _ _ Hneg)
           as (x & Hx & Hgx);
         rewrite Hgx in Hget; injection Hget as ->;
         exists p; split; [exact Hx | reflexivity] ]).
  - cbn [fst snd]. split; [reflexivity |]. split; [reflexivity |].
    split.
    + intros Hfar.
      rewrite (CardFacts.list_getitem_outside _ _ Hfar) in Hget.
      injection Hget as <-. reflexivity.
    + intros Hneg.
      destruct (CardFacts.list_getitem_negative _ _ Hneg) as (x & _ & Hgx).
      rewrite Hgx in Hget. discriminate.
Qed.

Lemma window_delete_out_of_range_witness :
  let self := Sample.manager in
  let w := Sample.empty_world in
  let res := DarkmodeApp.delete_preset Sample.posix true self (-1) w in
  let n := Z.of_nat (length (presets self)) in
  PyQt6App.delete_preset Sample.posix true self (-1) w = (Ok None, self, w)
  /\ manager_after res = self
  /\ world_after res = w
  /\ ((-1 < - n \/ n <= -1)%Z -> outcome res = Raise IndexError)
  /\ ((- n <= -1 < 0)%Z ->
      exists p : ConfigPreset,
        presets self !! Z.to_nat (-1 + n) = Some p
        /\ outcome res = Ok (name p)).
Proof.
  refine (window_delete_out_of_range Sample.posix true Sample.manager (-1)
            Sample.empty_world _).
  left. lia.
Defined.

(** X27. [refresh_presets_list] makes one card for each preset of the
    collection and no other: the card at a position shows the preset at
    that position and carries its index, which is what its buttons hand to
    the store; the cards fill rows of three from the left, so no two cards
    share a cell.  Both windows make the same cards. *)
Theorem refresh_presets_list_cards (self : ConfigManager) :
  PyQt6App.refresh_presets_cards self = DarkmodeApp.refresh_presets_list self
  /\ length (DarkmodeApp.refresh_presets_list self) = length (presets self)
  /\ (forall (i : nat) (c : card),
        DarkmodeApp.refresh_presets_list self !! i = Some c ->
        card_index c = i
        /\ presets self !! i = Some (card_preset c)
        /\ (card_col c < 3)%nat
        /\ (3 * card_row c + card_col c = i)%nat)
  /\ (forall (i j : nat) (c d : card),
        DarkmodeApp.refresh_presets_list self !! i = Some c ->
        DarkmodeApp.refresh_presets_list self !! j = Some d ->
        card_row c = card_row d ->
        card_col c = card_col d ->
        i = j).
Proof.
  split; [reflexivity |]. split; [| split].
  - apply length_imap.
  - intros i c Hc.
    destruct (CardFacts.card_lookup self i c Hc) as (Hi & Hp & Hr & Hcol).
    split; [exact Hi |]. split; [exact Hp |]. rewrite Hr, Hcol.
    split; [apply Nat.mod_upper_bound; lia |].
    symmetry. apply Nat.div_mod_eq.
  - intros i j c d Hc Hd Hrow Hcol.
    destruct (CardFacts.card_lookup self i c Hc) as (_ & _ & Hr & Hk).
    destruct (CardFacts.card_lookup self j d Hd) as (_ & _ & Hr' & Hk').
    rewrite (Nat.div_mod_eq i 3), (Nat.div_mod_eq j 3).
    congruence.
Qed.
